(* ===== verification/_CoqProject ===== *)
-Q . S2P
Prelude.v
PyObjects.v
Defaults.v
Probe.v
ConfigDefault.v
DictUpdate.v
MergeTree.v
Session.v
Overrides.v
ConfigTree.v
Concurrency.v
Scenarios.v
