(* ===== verification/Prelude.v ===== *)
(** * pyEPR's configuration defaults: a verification development

    The program.  [src/pyEPR/_config_default.py] is the configuration
    plumbing of pyEPR: a module-level literal [config = Dict(...)] of
    default settings (lines 20-113: [root_dir] and the sections [ansys],
    [dissipation], [plotting], [internal], [log]), a flag
    [__config_defined__ = 'config' in locals()] computed when the module
    body runs (line 17), the probe [is_using_ipython] (lines 116-126) and
    the accessor [get_config] (lines 129-155).  The first call of the
    accessor is meant to merge the user's overrides
    ([pyEPR.config_user.config]) into [config] with [config.update], to
    store the probe's answer in [config.internal.ipython] and to return the
    shared object; later calls are meant to print a notice and return the
    object unchanged.  [Dict] is [addict.Dict] (line 14); its [update]
    merges nested dicts recursively.

    The model (a shallow embedding, one file per part, in this order):
    - [Prelude] (this file): the state-and-exception monad [stM] with
      [let!]/[;;] in [pym_scope], [catch] and [mfor] (a Python [for]);
      guarantees [guar R c], relations between the states before and
      after any run of [c], which compose through [bind] for any
      preorder [R], with the tactic [guar_tac_with]; insertion-ordered
      association lists [alist] (a Python [dict]'s items) with their
      lookup/assignment lemmas.
    - [PyObjects]: values [pyval], the two mapping classes
      ([AddictDict], [BuiltinDict]), dict objects on a heap
      [gmap loc pydict], the process state [world] (heap, module globals,
      [builtins], the user module, [stdout]), the exceptions [pyexc], and
      the primitives: item assignment, allocation, [print], global name
      lookup, truth value, addict attribute read ([__getattr__] and
      [__missing__]) and attribute assignment; the well-formedness
      [world_wf] (distinct keys, no dangling reference) with an
      executable check [world_wfb], and the guarantees [heap_grows],
      [same_names], [same_stdout] of every primitive.
    - [Defaults]: the literal as entries per section and [build_config],
      which allocates the six [Dict]s in the order Python evaluates the
      keyword arguments.
    - [Probe]: [is_using_ipython].
    - [ConfigDefault]: the module body [exec_module_body], [import_module]
      (first import, later imports are no-ops), [reload_module]
      ([importlib.reload]: the body again in the same namespace), the
      import of [config_user], and [get_config] with its part
      [load_user_config] (lines 149-154).  The accessor is written against
      the interface [ConfigMerge] (the class of [config.update]): an update
      frees nothing, removes no key, changes no class, touches no
      namespace, prints nothing and keeps [world_wf].
    - [DictUpdate]: builtin [dict.update] and addict's recursive
      [Dict.update] ([addict_update]), the [ConfigMerge] instance
      [addict_merge] (the code), and the first-load path of
      [get_config] cut at the merge ([first_load_merge],
      [first_load_assigns]) for the theorems on later calls.
    - [MergeTree]: the abstract specification of the merge: settings as
      trees [ptree], read off the heap by [decode] (with a depth bound)
      together with their footprint [fp]; [deep_merge] (addict's
      recursive update on trees) and [tree_assign] (the one-level
      [dict.update]); the refinement of [addict_update] and
      [dict_update] against them, through a loop lemma ([mfor_step_ok])
      whose body contract is [step_ok] and an update contract
      [update_ok].
    - [Session]: a process as a sequence of operations (import, reload,
      [get_config()], a caller's [config.k = v] or [config.s.k = v]),
      [run_op], and [reachable], the states reached by such operations.
    - [Overrides]: later calls in the states earlier calls and callers
      leave: a plain [config.internal], override objects shared with the
      user module, and an override that contains itself.
    - [ConfigTree]: the defaults as a tree [default_tree], the path
      assignment [tree_set_in], and what the first call of [get_config]
      returns, stated on trees.
    - [Concurrency]: [get_config] as a program of atomic steps
      ([proc], a free monad over [PyM] actions): the statements before
      the merge as one atom, each item test and item store of addict's
      update loop as one atom, the store of [ipython] and the return as
      one atom; run alone it is [get_config]
      ([get_config_proc_adequate]); two threads interleaved by a
      schedule ([run_sched]), and [explore], which visits every
      schedule, with its soundness lemma [explore_sound].
    - [Scenarios]: concrete processes evaluated by [vm_compute], on which
      the witnesses discharge the hypotheses of the theorems.

    What is proved.
    - Refinement of the accessor ([ConfigTree]): after the import, the
      first call of [get_config] returns [config] whose tree is
      [deep_merge default_tree tu] for the user's override tree [tu], with
      [internal.ipython] then set to the probe's answer (C1); the user's
      objects never alias the defaults, which the module body allocates
      fresh.  For an override of the compatible shape (each section given
      only as dicts), the settings then have the properties section 8 of
      the specification lists: [root_dir] and the five sections present,
      each section a non-empty [Dict] with all its default keys, and
      [internal.ipython] a boolean (C17, [settings_ok]).
    - The merge's contract on the code ([MergeTree]): [config.update]
      returns without [RecursionError] on overrides shallower than the
      recursion limit and keeps the keys the override does not mention
      (C2); the override's scalars replace whatever the key held (C3).
      The one-level reading of the specification refines to
      [tree_assign] ([shallow_update_refines]).  On overrides whose
      items are all scalars the two readings coincide: addict's method
      is the builtin [dict.update] in every state, at any fuel (C14,
      [DictUpdate]).
    - The accessor on the flag ([ConfigDefault], [Session]): nothing ever
      sets [__config_defined__] to [True] after the first import, so in a
      process that does not reload the module every call of [get_config]
      takes the first-load path (C4) and merges the overrides again:
      every such call with a flat override writes each overridden key
      back to the override's value, undoing any caller's change (C11);
      every call that returns returns the same object (C5); a reload
      rebinds [config] to fresh defaults and sets the flag, so the next
      call returns an object without the overrides and with [ipython]
      still [None] (C6); from then on, whatever operations follow, every
      call prints "Config is already defined." and changes nothing but
      the output (C12, by induction on [reachable] with the invariant
      [flag_true]).
    - Functional behaviour: the first-load path stores the probe's answer
      in [internal.ipython] (C7); the probe never raises and answers
      whether [__IPYTHON__] is bound (C8); the first import binds the
      default object (C10).
    - Error paths: without a submodule [pyEPR.config_user] the accessor
      raises [ImportError] after its message and before any merge (C20);
      an override that is not a mapping (a number, a non-empty string, a
      list of strings with an element not of length two) is rejected by
      addict's [other.update(arg)] before anything is assigned (C18).
    - Invariants by induction on [reachable]: the six keys of [config]
      stay present (C9), and the state stays well formed
      ([session_wf]); hence the type of the accessor's result: whatever
      [get_config] returns is a reference to an [addict.Dict] with the
      six sections (C13).
    - Later calls ([Overrides]): since every call merges again and runs
      line 154 again, a [config.internal] that is a plain value (a
      caller's [config.internal = 5], or [internal=5] in the override)
      makes every later call raise [AttributeError], in every state that
      calls and callers' assignments reach (C21, by induction on
      [reachable] with the invariant [internal_blocked]); an override item
      that addict's loop assigns is stored by reference, so [config.k]
      is the user module's object and a caller's write through [config]
      changes [config_user.config] too (C22); when that object contains
      itself, the next call runs [d.update(d)] and raises
      [RecursionError] whatever the recursion limit (C23, from
      [self_update_raises]).
    - Concurrency ([Concurrency]): two threads calling [get_config] at
      once with the [epsi] override both merge, and every interleaving
      ends as two sequential calls (C16, by [explore] over all
      schedules); for every override and at every point of every
      interleaving, [config] keeps its six sections (C19, from
      guarantees of each atom, [proc_guar]).
    - Round trip of the callers' path ([Session]): after
      [config.section.k = v] the read [config.section.k] finds [v],
      also when addict's [__missing__] created the section (C15).

    Bounds.  addict's [update] recurses once per level of nesting of the
    override; its fuel is CPython's default recursion limit
    [py_recursion_limit] (1000), and running out raises [RecursionError],
    as CPython does.  The limit is process-wide: the frames of
    [get_config] and of its callers use part of it, so the real budget
    at line 151 is somewhat smaller.  This matters only for overrides
    nested close to 1000 levels; the default sections are two dicts
    deep, so the first merge of any override shaped like them recurses
    at most twice.  [addict_update_ok] proves that any fuel above the
    depth bound [n] of the two trees suffices: the update returns and
    computes [deep_merge].  The theorems take [0 < n < py_recursion_limit]
    and [decode (S n)] of both trees.  Termination is not
    unconditional: the self-update of a dict that contains itself raises
    [RecursionError] at every fuel (C23).

    Not modelled.  The [print] text goes to a list of lines, not to a
    stream, and the [ImportError] message leaves out the package's file
    path.  addict's [__init__] copies the nested dicts given as keyword
    arguments ([_hook]); the model stores the freshly built section
    [Dict]s themselves, which differs only in the identity of objects no
    one else references.  Attributes of [Dict]: a read of a name that is
    a method of the class ([keys], [update], ...) finds the method, and
    assigning such a name raises [AttributeError] (read-only); the model
    treats every name as an item, which differs only for caller paths
    that use those names, never for line 154.  Assigning an attribute
    to a function or class object, which Python allows, raises
    [AttributeError] in the model; [no_attrs] keeps the theorems on
    line 154 away from such values.  At line 151 Python looks up
    [config.update] before it evaluates [config_user.config]; the model
    evaluates the argument first, which changes only which error is
    reported when both fail, and [config] is a [Dict] in every reachable
    state (C9).  Threads: [Concurrency] interleaves two calls at the
    granularity of its atoms; the statements it groups into one atom
    only read names no thread assigns and the class of an object, which
    no step changes, and print.  That every interleaving is serializable
    is checked on one override, not proved for all.  Python values:
    [pyval] has the scalars, functions, references to dicts and lists of
    strings ([VStrList], the only list the module builds, [__all__]); a
    user override holding lists of other values is outside the model.
    Float literals are kept as their decimal digits and exponent since
    the module does no arithmetic.  Keys are strings, as every key of the
    module is.  The tree theorems assume the user's override shares no
    object with itself (a duplicate-free footprint); aliasing inside the
    override is treated only by C22 and C23.  Python's star import,
    which reads [__all__], is not modelled: line 158 only binds a
    constant.

    Plan for later work: the second and later calls on trees for nested
    overrides (C11 covers flat ones), serializability of concurrent
    calls for every override, and caller deletions of keys. *)

From stdpp Require Import base list gmap strings.
From Stdlib Require Import RelationClasses.

(** ** The state-and-exception monad

    Python code mutates a process-wide store and may raise; a raised
    exception keeps every mutation made before it.  A computation is a
    function from the store to an outcome and the store after it. *)

Inductive outcome (E A : Type) : Type :=
| Ret (a : A)
| Exc (e : E).
Arguments Ret {E A} a.
Arguments Exc {E A} e.

Definition stM (S E A : Type) : Type := S -> outcome E A * S.

Section Monad.
Context {S E : Type}.

Definition ret {A} (a : A) : stM S E A := fun s => (Ret a, s).
Definition raise {A} (e : E) : stM S E A := fun s => (Exc e, s).
Definition bind {A B} (c : stM S E A) (f : A -> stM S E B) : stM S E B :=
  fun s => match c s with
           | (Ret a, s') => f a s'
           | (Exc e, s') => (Exc e, s')
           end.
Definition gets {A} (f : S -> A) : stM S E A := fun s => (Ret (f s), s).
Definition modify (f : S -> S) : stM S E unit := fun s => (Ret tt, f s).

(** [try: c except: h(e)] *)
Definition catch {A} (c : stM S E A) (h : E -> stM S E A) : stM S E A :=
  fun s => match c s with
           | (Exc e, s') => h e s'
           | r => r
           end.

(** [for x in l: body(x)], stopping at the first exception. *)
Fixpoint mfor {A} (l : list A) (body : A -> stM S E unit) : stM S E unit :=
  match l with
  | [] => ret tt
  | x :: l' => bind (body x) (fun _ => mfor l' body)
  end.
End Monad.

Declare Scope pym_scope.
Delimit Scope pym_scope with pym.
Notation "'let!' x ':=' c1 'in' c2" := (bind c1 (fun x => c2))
  (at level 10, x name, c1 at level 100, c2 at level 200,
   format "'[v' 'let!'  x  ':='  c1  'in' '/' c2 ']'") : pym_scope.
Notation "c1 ;; c2" := (bind c1 (fun _ => c2))
  (at level 100, c2 at level 200, right associativity) : pym_scope.
Open Scope pym_scope.

(** ** Running computations *)

Definition run_state {S E A} (c : stM S E A) (s : S) : S := snd (c s).
Definition run_out {S E A} (c : stM S E A) (s : S) : outcome E A := fst (c s).

Section MonadLaws.
Context {S E : Type}.

Lemma bind_ret_l {A B} (a : A) (f : A -> stM S E B) s :
  bind (ret a) f s = f a s.
Proof. reflexivity. Qed.

Lemma bind_assoc {A B C} (c : stM S E A) (f : A -> stM S E B)
      (g : B -> stM S E C) s :
  bind (bind c f) g s = bind c (fun a => bind (f a) g) s.
Proof. unfold bind. by destruct (c s) as [[a|e] s']. Qed.

Lemma bind_raise {A B} (e : E) (f : A -> stM S E B) s :
  bind (raise e) f s = (Exc e, s).
Proof. reflexivity. Qed.

Lemma bind_Ret {A B} (c : stM S E A) (f : A -> stM S E B) s a s' :
  c s = (Ret a, s') -> bind c f s = f a s'.
Proof. intros Hc. unfold bind. by rewrite Hc. Qed.

Lemma bind_Ret_inv {A B} (c : stM S E A) (f : A -> stM S E B) s b s'' :
  bind c f s = (Ret b, s'') -> exists a s', c s = (Ret a, s') /\ f a s' = (Ret b, s'').
Proof.
  unfold bind. destruct (c s) as [[a|e] s']; [|discriminate]. intros H. by exists a, s'.
Qed.

Lemma bind_Exc {A B} (c : stM S E A) (f : A -> stM S E B) s e s' :
  c s = (Exc e, s') -> bind c f s = (Exc e, s').
Proof. intros Hc. unfold bind. by rewrite Hc. Qed.

(** Two loops whose bodies agree, state by state, on every element run
    alike. *)
Lemma mfor_ext {A} (l : list A) (b1 b2 : A -> stM S E unit) :
  (forall x s, x ∈ l -> b1 x s = b2 x s) -> forall s, mfor l b1 s = mfor l b2 s.
Proof.
  induction l as [|x l IH]; intros Hb s; [done|]. cbn [mfor]. unfold bind.
  rewrite Hb by set_solver. destruct (b2 x s) as [[]?]; [|done].
  apply IH. intros y s' Hy. apply Hb. set_solver.
Qed.

(** A loop over [l1 ++ l2] is the loop over [l1], then over [l2]. *)
Lemma mfor_app {A} (l1 l2 : list A) (body : A -> stM S E unit) s :
  mfor (l1 ++ l2) body s = bind (mfor l1 body) (fun _ => mfor l2 body) s.
Proof.
  revert s. induction l1 as [|x l1 IH]; intros s; cbn [mfor app]; [done|].
  rewrite bind_assoc. destruct (body x s) as [[[]|e] s'] eqn:Hb.
  - rewrite !(bind_Ret _ _ _ _ _ Hb). apply IH.
  - by rewrite !(bind_Exc _ _ _ _ _ Hb).
Qed.
End MonadLaws.

Create HintDb pym discriminated.
Create Rewrite HintDb pym.
#[export] Hint Rewrite @bind_ret_l @bind_assoc @bind_raise : pym.

(** ** Guarantees: relations every run establishes between its start
    and end stores, whatever the outcome.  A reflexive and transitive
    guarantee composes through [bind], so a property of a whole handler
    follows from the guarantees of the primitives it calls. *)

Section Guarantee.
Context {S E : Type} (R : relation S) `{!PreOrder R}.

Definition guar {A} (c : stM S E A) : Prop := forall s, R s (run_state c s).

Lemma guar_ret {A} (a : A) : guar (ret a).
Proof. intros s. unfold run_state, ret. simpl. reflexivity. Qed.

Lemma guar_raise {A} (e : E) : guar (@raise S E A e).
Proof. intros s. unfold run_state, raise. simpl. reflexivity. Qed.

Lemma guar_gets {A} (f : S -> A) : guar (gets f).
Proof. intros s. unfold run_state, gets. simpl. reflexivity. Qed.

Lemma guar_modify (f : S -> S) : (forall s, R s (f s)) -> guar (modify f).
Proof. intros Hf s. apply Hf. Qed.

Lemma guar_bind {A B} (c : stM S E A) (f : A -> stM S E B) :
  guar c -> (forall a, guar (f a)) -> guar (bind c f).
Proof.
  intros Hc Hf s. specialize (Hc s). unfold run_state, bind in *.
  destruct (c s) as [[a|e] s'] eqn:Hcs; simpl in *; [|done].
  etrans; [exact Hc|]. apply (Hf a s').
Qed.

Lemma guar_catch {A} (c : stM S E A) (h : E -> stM S E A) :
  guar c -> (forall e, guar (h e)) -> guar (catch c h).
Proof.
  intros Hc Hh s. specialize (Hc s). unfold run_state, catch in *.
  destruct (c s) as [[a|e] s'] eqn:Hcs; simpl in *; [done|].
  etrans; [exact Hc|]. apply (Hh e s').
Qed.

Lemma guar_mfor {A} (l : list A) (body : A -> stM S E unit) :
  (forall x, x ∈ l -> guar (body x)) -> guar (mfor l body).
Proof.
  induction l as [|x l IH]; intros Hb; simpl; [apply guar_ret|].
  apply guar_bind; [apply Hb; set_solver|].
  intros _. apply IH. intros y Hy. apply Hb. set_solver.
Qed.

End Guarantee.

(** An invariant is the guarantee "I before implies I after". *)
Definition inv_rel {S} (I : S -> Prop) : relation S := fun s s' => I s -> I s'.

#[export] Instance inv_rel_preorder {S} (I : S -> Prop) : PreOrder (inv_rel I).
Proof. split; unfold inv_rel; [intros s H; exact H | intros s1 s2 s3 H12 H23 H; auto]. Qed.

#[export] Hint Resolve guar_ret guar_raise guar_gets : pym.

(** [guar_tac_with close] splits a guarantee goal along the structure of
    the computation, trying [close] first on every subgoal so that the
    guarantees already proved for named operations are used as they are
    rather than unfolded. *)
Ltac guar_tac_with close :=
  repeat first
    [ solve [close]
    | match goal with
      | |- guar _ (bind _ _) => apply guar_bind; [..|intros ?]
      | |- guar _ (catch _ _) => apply guar_catch; [..|intros ?]
      | |- guar _ (ret _) => apply guar_ret
      | |- guar _ (raise _) => apply guar_raise
      | |- guar _ (gets _) => apply guar_gets
      | |- guar _ (mfor _ _) => apply guar_mfor; try (intros ? ?; cbv beta)
      | |- guar _ (match ?x with _ => _ end) => destruct x
      | |- PreOrder _ => typeclasses eauto
      end ].

Ltac guar_tac := guar_tac_with fail.

(** ** Insertion-ordered association lists

    A Python [dict] keeps its keys in insertion order: assigning to a
    present key replaces the value in place, assigning to an absent key
    appends it.  [alist K V] is that data: a list of pairs whose keys are
    distinct (the well-formedness [alist_wf]). *)

Section Alist.
Context {K V : Type} `{EqDecision K}.

Definition alist := list (K * V).

Fixpoint alist_lookup (k : K) (l : alist) : option V :=
  match l with
  | [] => None
  | (k', v) :: l' => if decide (k = k') then Some v else alist_lookup k l'
  end.

Fixpoint alist_set (k : K) (v : V) (l : alist) : alist :=
  match l with
  | [] => [(k, v)]
  | (k', v') :: l' =>
      if decide (k = k') then (k', v) :: l' else (k', v') :: alist_set k v l'
  end.

Definition alist_keys (l : alist) : list K := map fst l.

Definition alist_wf (l : alist) : Prop := NoDup (alist_keys l).

Definition alist_mem (k : K) (l : alist) : bool :=
  match alist_lookup k l with Some _ => true | None => false end.

Lemma alist_lookup_set_eq k v l : alist_lookup k (alist_set k v l) = Some v.
Proof.
  induction l as [|[k' v'] l IH]; simpl; [by rewrite decide_True|].
  case_decide; simpl; [by rewrite decide_True|].
  rewrite decide_False; done.
Qed.

Lemma alist_lookup_set_ne k k' v l :
  k <> k' -> alist_lookup k' (alist_set k v l) = alist_lookup k' l.
Proof.
  intros Hne. induction l as [|[k0 v0] l IH]; simpl.
  - by rewrite decide_False.
  - case_decide; subst; simpl.
    + rewrite !decide_False; done.
    + case_decide; done.
Qed.

Lemma alist_lookup_set k k' v l :
  alist_lookup k' (alist_set k v l) =
    if decide (k = k') then Some v else alist_lookup k' l.
Proof.
  case_decide; [subst; apply alist_lookup_set_eq|by apply alist_lookup_set_ne].
Qed.

Lemma alist_mem_set_ne k k' v l :
  k <> k' -> alist_mem k' (alist_set k v l) = alist_mem k' l.
Proof. intros Hne. unfold alist_mem. by rewrite alist_lookup_set_ne. Qed.

Lemma alist_lookup_elem k l :
  alist_lookup k l <> None <-> k ∈ alist_keys l.
Proof.
  induction l as [|[k' v'] l IH]; simpl.
  - rewrite elem_of_nil. tauto.
  - rewrite elem_of_cons, <-IH. case_decide; subst; [naive_solver|].
    split; [auto|]. intros [->|?]; done.
Qed.

Lemma alist_keys_set k v l :
  alist_keys (alist_set k v l) =
    if decide (k ∈ alist_keys l) then alist_keys l else alist_keys l ++ [k].
Proof.
  unfold alist_keys. induction l as [|[k' v'] l IH]; cbn [alist_set map fst].
  - case_decide as Hk; [by apply elem_of_nil in Hk|done].
  - destruct (decide (k = k')) as [->|Hne]; cbn [map fst].
    + rewrite decide_True; [done|]. by left.
    + rewrite IH. destruct (decide (k ∈ map fst l)) as [Hin|Hin].
      * rewrite decide_True; [done|]. by right.
      * rewrite decide_False; [done|]. by intros [->|?]%elem_of_cons.
Qed.

Lemma alist_keys_set_incl k k' v l :
  k' ∈ alist_keys l -> k' ∈ alist_keys (alist_set k v l).
Proof. rewrite alist_keys_set. case_decide; set_solver. Qed.

Lemma alist_set_wf k v l : alist_wf l -> alist_wf (alist_set k v l).
Proof.
  unfold alist_wf. rewrite alist_keys_set. case_decide as Hk; [done|].
  intros Hnd. apply NoDup_app. split; [done|]. split; [|apply NoDup_singleton].
  intros x Hx Hx'. apply list_elem_of_singleton in Hx'. by subst.
Qed.
Lemma alist_lookup_split k v l :
  alist_lookup k l = Some v ->
  exists pre suf, l = pre ++ (k, v) :: suf /\ alist_lookup k pre = None.
Proof.
  induction l as [|[k' v'] l IH]; simpl; [done|]. case_decide as Hk.
  - intros [= <-]. subst. by exists [], l.
  - intros (pre & suf & -> & Hp)%IH. exists ((k', v') :: pre), suf.
    split; [done|]. simpl. by rewrite decide_False.
Qed.

Lemma alist_set_split k v v' pre suf :
  alist_lookup k pre = None ->
  alist_set k v' (pre ++ (k, v) :: suf) = pre ++ (k, v') :: suf.
Proof.
  induction pre as [|[k' w] pre IH]; simpl; [by rewrite decide_True|].
  case_decide; [done|]. intros Hp. by rewrite IH.
Qed.

Lemma alist_set_absent k v l :
  alist_lookup k l = None -> alist_set k v l = l ++ [(k, v)].
Proof.
  induction l as [|[k' w] l IH]; simpl; [done|].
  case_decide; [done|]. intros Hl. by rewrite IH.
Qed.

(** In a list with distinct keys, each pair is found by its key. *)
Lemma alist_lookup_In k v l : NoDup (map fst l) -> (k, v) ∈ l -> alist_lookup k l = Some v.
Proof.
  induction l as [|[k' v'] l IH]; [by intros _ ?%elem_of_nil|].
  cbn [map fst alist_lookup]. intros [Hk Hnd]%NoDup_cons [[= -> ->]|Hin]%elem_of_cons.
  - by rewrite decide_True.
  - rewrite decide_False; [by apply IH|]. intros ->. apply Hk.
    apply list_elem_of_In, in_map_iff. eexists; split; [|by apply list_elem_of_In]; done.
Qed.

(** Assigning a key the value it already holds changes nothing. *)
Lemma alist_set_same k v l : alist_lookup k l = Some v -> alist_set k v l = l.
Proof. intros (pre & suf & -> & Hp)%alist_lookup_split. by apply alist_set_split. Qed.

(** Assigning the items of [items] one after the other. *)
Definition alist_set_all (items l : alist) : alist :=
  fold_left (fun acc kv => alist_set kv.1 kv.2 acc) items l.

Lemma alist_set_all_other k items l :
  k ∉ map fst items -> alist_lookup k (alist_set_all items l) = alist_lookup k l.
Proof.
  unfold alist_set_all. revert l. induction items as [|[k' v'] items IH]; intros l Hk; [done|].
  cbn [fold_left map fst snd] in *. rewrite elem_of_cons in Hk.
  rewrite IH by tauto. apply alist_lookup_set_ne. intros ->. tauto.
Qed.

(** After assigning items with distinct keys, each key holds its item. *)
Lemma alist_set_all_lookup k x items l :
  NoDup (map fst items) -> alist_lookup k items = Some x ->
  alist_lookup k (alist_set_all items l) = Some x.
Proof.
  unfold alist_set_all. revert l. induction items as [|[k' v'] items IH]; intros l Hnd Hk; [done|].
  cbn [fold_left map fst snd alist_lookup] in *. apply NoDup_cons in Hnd as [Hk' Hnd].
  case_decide as E; [subst k'; injection Hk as ->|by apply IH].
  change (alist_lookup k (alist_set_all items (alist_set k x l)) = Some x).
  rewrite alist_set_all_other by done. apply alist_lookup_set_eq.
Qed.

(** After assigning items with distinct keys, a key holds its item's
    value if it has one, and its old value otherwise. *)
Lemma alist_set_all_lookup_or k items l :
  NoDup (map fst items) ->
  alist_lookup k (alist_set_all items l) =
    match alist_lookup k items with Some x => Some x | None => alist_lookup k l end.
Proof.
  intros Hnd. destruct (alist_lookup k items) as [x|] eqn:Hk; [by apply alist_set_all_lookup|].
  apply alist_set_all_other. rewrite <-(alist_lookup_elem k items). by intros [].
Qed.
End Alist.

#[export] Hint Resolve alist_set_wf alist_keys_set_incl : pym.
#[export] Hint Rewrite @alist_lookup_set_eq : pym.

(** ** Duplicate-free lists

    A segment of a duplicate-free list may be replaced by a
    duplicate-free list of some of its elements. *)
Lemma NoDup_replace_segment {A} (P X Y Q : list A) :
  NoDup (P ++ X ++ Q) -> NoDup Y -> (forall x, x ∈ Y -> x ∈ X) -> NoDup (P ++ Y ++ Q).
Proof.
  rewrite !NoDup_app. intros (HP & HPX & HX & HXQ & HQ) HY Hsub.
  split_and!; [done| |done| |done].
  - intros x Hx Hyq. apply (HPX x Hx). apply elem_of_app in Hyq as [Hy|Hq];
      apply elem_of_app; [left; by apply Hsub|by right].
  - intros x Hy. by apply HXQ, Hsub.
Qed.
