(* ===== verification/PyObjects.v ===== *)
(** * Python objects, the heap and the interpreter state

    The values the configuration module manipulates, the dict objects
    that hold them (pyEPR's [Dict], which is [addict.Dict], and the
    builtin [dict] a user may pass), the heap of objects, the process
    state [world] and the primitive operations of the [PyM] monad:
    dict item access, allocation, name lookup, [print], attribute access
    and attribute assignment on an [addict.Dict]. *)

From stdpp Require Import base list gmap strings.
From S2P Require Import Prelude.

Open Scope string_scope.

(** ** Values *)

Definition loc := positive.

(** A float literal [m e x] of the source, the digits of the literal with
    the decimal point removed ([mant]) and the power of ten it is scaled
    by ([exp10]): [1.0e3] is [FloatLit 10 2], [250e-9] is
    [FloatLit 250 (-9)].  The module performs no float arithmetic. *)
Record float_lit := FloatLit { fl_mant : Z; fl_exp10 : Z }.

Inductive pyval :=
| VNone
| VBool (b : bool)
| VInt (z : Z)
| VFloat (f : float_lit)
| VStr (s : string)
| VFunc (qualname : string)   (** a function or class object *)
| VStrList (items : list string)  (** a list of strings, such as [__all__] *)
| VRef (l : loc).             (** a reference to a dict object *)

#[export] Instance float_lit_eq_dec : EqDecision float_lit.
Proof. solve_decision. Defined.
#[export] Instance pyval_eq_dec : EqDecision pyval.
Proof. solve_decision. Defined.

(** The two mapping classes in play: [addict.Dict] (imported as
    [pyEPR.Dict], line 14) and Python's builtin [dict]. *)
Inductive dict_kind := AddictDict | BuiltinDict.

#[export] Instance dict_kind_eq_dec : EqDecision dict_kind.
Proof. solve_decision. Defined.

Definition entries := list (string * pyval).

Record pydict := PyDict { dkind : dict_kind; dentries : entries }.

(** ** Exceptions the modelled code can raise *)

Inductive pyexc :=
| NameError (name : string)
| AttributeError (tyname : string) (attr : string)
(** [ImportError: cannot import name 'name' from 'package' (...)], what
    [from package import name] raises when [package] has no attribute and
    no submodule [name]; the message's file path is left out. *)
| ImportError (name : string) (package : string)
| TypeError (msg : string)
| ValueError (msg : string)
| RecursionError
(** A dangling reference; [world_wf] excludes it. *)
| InternalError.

#[export] Instance pyexc_eq_dec : EqDecision pyexc.
Proof. solve_decision. Defined.

(** ** The process state *)

Record world := World {
  heap : gmap loc pydict;
  (** the namespace of [pyEPR._config_default]; [None] before import *)
  globals : option entries;
  (** the [builtins] namespace; IPython binds [__IPYTHON__] there *)
  builtins : entries;
  (** the namespace of [pyEPR.config_user] when that module imports *)
  user_module : option entries;
  (** lines printed so far, most recent last *)
  stdout : list string
}.

Definition PyM (A : Type) : Type := stM world pyexc A.

Definition set_heap (h : gmap loc pydict) (w : world) : world :=
  World h (globals w) (builtins w) (user_module w) (stdout w).
Definition set_globals (g : option entries) (w : world) : world :=
  World (heap w) g (builtins w) (user_module w) (stdout w).
Definition set_stdout (o : list string) (w : world) : world :=
  World (heap w) (globals w) (builtins w) (user_module w) o.

(** ** Primitive operations *)

Definition type_name (h : gmap loc pydict) (v : pyval) : string :=
  match v with
  | VNone => "NoneType"
  | VBool _ => "bool"
  | VInt _ => "int"
  | VFloat _ => "float"
  | VStr _ => "str"
  | VFunc _ => "function"
  | VStrList _ => "list"
  | VRef l =>
      match h !! l with
      | Some (PyDict AddictDict _) => "Dict"
      | _ => "dict"
      end
  end.

Definition read_dict (l : loc) : PyM pydict :=
  fun w => match heap w !! l with
           | Some d => (Ret d, w)
           | None => (Exc InternalError, w)
           end.

(** [d[k] = v] on the dict object at [l]. *)
Definition dict_setitem (l : loc) (k : string) (v : pyval) : PyM unit :=
  let! d := read_dict l in
  modify (fun w => set_heap (<[l := PyDict (dkind d) (alist_set k v (dentries d))]> (heap w)) w).

Definition alloc (d : pydict) : PyM loc :=
  fun w => let l := fresh (dom (heap w)) in
           (Ret l, set_heap (<[l := d]> (heap w)) w).

(** [Dict(k1=v1, ...)]: a new [addict.Dict] holding the entries. *)
Definition new_Dict (es : entries) : PyM pyval :=
  let! l := alloc (PyDict AddictDict es) in ret (VRef l).

Definition print (line : string) : PyM unit :=
  modify (fun w => set_stdout (stdout w ++ [line]) w).

(** A global name of [_config_default]: the module namespace, then
    [builtins]; unbound raises [NameError]. *)
Definition lookup_name (w : world) (x : string) : option pyval :=
  match alist_lookup x (default [] (globals w)) with
  | Some v => Some v
  | None => alist_lookup x (builtins w)
  end.

Definition load_global (x : string) : PyM pyval :=
  fun w => match lookup_name w x with
           | Some v => (Ret v, w)
           | None => (Exc (NameError x), w)
           end.

Definition store_global (x : string) (v : pyval) : PyM unit :=
  modify (fun w => set_globals (Some (alist_set x v (default [] (globals w)))) w).

(** Truth value of a value ([if v:]): a dict is true when non-empty. *)
Definition truthy (v : pyval) : PyM bool :=
  match v with
  | VNone => ret false
  | VBool b => ret b
  | VInt z => ret (bool_decide (z <> 0%Z))
  | VFloat f => ret (bool_decide (fl_mant f <> 0%Z))
  | VStr s => ret (bool_decide (s <> ""))
  | VFunc _ => ret true
  | VStrList xs => ret (bool_decide (xs <> []))
  | VRef l => let! d := read_dict l in ret (bool_decide (dentries d <> []))
  end.

(** ** Attribute access on an [addict.Dict]

    [obj.name] on a [Dict] returns [obj[name]] when the key is present;
    otherwise addict's [__missing__] returns a fresh child [Dict] linked
    to [obj] under [name], which inserts itself into [obj] the first time
    an item is assigned to it.  [attr_ref] is the result of the read. *)

Inductive attr_ref :=
| AttrVal (v : pyval)
| AttrMissing (parent : loc) (key : string).

Definition addict_getattr (obj : pyval) (name : string) : PyM attr_ref :=
  match obj with
  | VRef l =>
      let! d := read_dict l in
      match dkind d with
      | AddictDict =>
          match alist_lookup name (dentries d) with
          | Some v => ret (AttrVal v)
          | None => ret (AttrMissing l name)
          end
      | BuiltinDict => raise (AttributeError "dict" name)
      end
  | v => let! h := gets heap in raise (AttributeError (type_name h v) name)
  end.

(** [target.name = v]: an item assignment on an [addict.Dict]; a builtin
    [dict] or a scalar has no settable attribute. *)
Definition addict_setattr (target : attr_ref) (name : string) (v : pyval) : PyM unit :=
  match target with
  | AttrVal (VRef l) =>
      let! d := read_dict l in
      match dkind d with
      | AddictDict => dict_setitem l name v
      | BuiltinDict => raise (AttributeError "dict" name)
      end
  | AttrVal o => let! h := gets heap in raise (AttributeError (type_name h o) name)
  | AttrMissing p k =>
      let! child := new_Dict [(name, v)] in
      dict_setitem p k child
  end.

(** ** Well-formedness of the process state

    Every dict object has distinct keys, and every reference stored in a
    dict, in a namespace or in the user module points to an allocated
    object. *)

Definition val_ok (h : gmap loc pydict) (v : pyval) : Prop :=
  match v with VRef l => is_Some (h !! l) | _ => True end.

Definition entries_ok (h : gmap loc pydict) (es : entries) : Prop :=
  Forall (fun kv => val_ok h kv.2) es.

Definition dict_ok (h : gmap loc pydict) (d : pydict) : Prop :=
  alist_wf (dentries d) /\ entries_ok h (dentries d).

Record world_wf (w : world) : Prop := {
  wf_heap : map_Forall (fun _ d => dict_ok (heap w) d) (heap w);
  wf_globals : alist_wf (default [] (globals w)) /\
               entries_ok (heap w) (default [] (globals w));
  wf_builtins : entries_ok (heap w) (builtins w);
  wf_user : from_option (entries_ok (heap w)) True (user_module w)
}.

(** In a well-formed state the keys of every dict are distinct. *)
Lemma wf_dict_keys w l d :
  world_wf w -> heap w !! l = Some d -> NoDup (map fst (dentries d)).
Proof. intros Hw Hl. apply (wf_heap w Hw l d Hl). Qed.

(** ** Relations between the store before and after an operation *)

(** No object is freed, none changes class, none loses a key. *)
Definition heap_grows (w w' : world) : Prop :=
  forall l d, heap w !! l = Some d ->
    exists d', heap w' !! l = Some d' /\ dkind d' = dkind d /\
               alist_keys (dentries d) ⊆ alist_keys (dentries d').

#[export] Instance heap_grows_preorder : PreOrder heap_grows.
Proof.
  split.
  - intros w l d Hl. exists d. done.
  - intros w1 w2 w3 H12 H23 l d Hl.
    destruct (H12 l d Hl) as (d2 & H2 & Hk2 & Hs2).
    destruct (H23 l d2 H2) as (d3 & H3 & Hk3 & Hs3).
    exists d3. split; [done|]. split; [congruence|]. set_solver.
Qed.

(** The namespaces (module globals, builtins, user module) are unchanged. *)
Definition same_names (w w' : world) : Prop :=
  globals w' = globals w /\ builtins w' = builtins w /\ user_module w' = user_module w.

#[export] Instance same_names_preorder : PreOrder same_names.
Proof. split; [done|]. intros w1 w2 w3 [? [? ?]] [? [? ?]]. split_and!; congruence. Qed.

(** Nothing is printed. *)
Definition same_stdout (w w' : world) : Prop := stdout w' = stdout w.

#[export] Instance same_stdout_preorder : PreOrder same_stdout.
Proof. split; [done|]. intros w1 w2 w3 H12 H23. unfold same_stdout in *. congruence. Qed.

(** Every allocated location stays allocated. *)
Definition heap_incl (h h' : gmap loc pydict) : Prop :=
  forall l, is_Some (h !! l) -> is_Some (h' !! l).

Lemma heap_grows_incl w w' : heap_grows w w' -> heap_incl (heap w) (heap w').
Proof. intros Hg l [d Hd]. destruct (Hg l d Hd) as (d' & -> & _). by eexists. Qed.

Lemma heap_incl_insert h l d : heap_incl h (<[l := d]> h).
Proof. intros l0 H0. rewrite lookup_insert. case_decide; [by eexists|done]. Qed.

Lemma val_ok_mono h h' v : heap_incl h h' -> val_ok h v -> val_ok h' v.
Proof. destruct v; simpl; try done. intros Hi. apply Hi. Qed.

Lemma entries_ok_mono h h' es : heap_incl h h' -> entries_ok h es -> entries_ok h' es.
Proof. intros Hi Hes. eapply Forall_impl; [exact Hes|]. intros [k v] Hv. by eapply val_ok_mono. Qed.

Lemma dict_ok_mono h h' d : heap_incl h h' -> dict_ok h d -> dict_ok h' d.
Proof. intros Hi [Hnd Hes]. split; [done|]. by eapply entries_ok_mono. Qed.

Lemma entries_ok_set h k v es :
  val_ok h v -> entries_ok h es -> entries_ok h (alist_set k v es).
Proof.
  intros Hv. induction es as [|[k' v'] es IH]; simpl; intros Hes.
  - by repeat constructor.
  - apply Forall_cons in Hes as [Hv' Hes].
    case_decide; constructor; simpl; [done|done|done|by apply IH].
Qed.

Lemma entries_ok_lookup h k v es :
  entries_ok h es -> alist_lookup k es = Some v -> val_ok h v.
Proof.
  induction es as [|[k' v'] es IH]; simpl; [done|].
  intros [Hv' Hes]%Forall_cons. case_decide; [by intros [= <-]|auto].
Qed.

#[export] Hint Resolve heap_grows_incl heap_incl_insert val_ok_mono entries_ok_mono
  dict_ok_mono entries_ok_set entries_ok_lookup : pym.

(** Replacing the heap by a larger one whose objects are all well formed
    keeps the state well formed. *)
Lemma world_wf_set_heap w h' :
  world_wf w -> heap_incl (heap w) h' -> map_Forall (fun _ d => dict_ok h' d) h' ->
  world_wf (set_heap h' w).
Proof.
  intros [Hh [Hgw Hgo] Hb Hu] Hi Hd. split; simpl; [done| |eauto with pym|].
  - split; [done|eauto with pym].
  - destruct (user_module w); simpl in *; eauto with pym.
Qed.

Lemma world_wf_dict w l d :
  world_wf w -> heap w !! l = Some d -> dict_ok (heap w) d.
Proof. intros Hw Hl. by apply (wf_heap w Hw l d). Qed.

(** ** Guarantees of the primitives *)

Ltac unfold_prim :=
  unfold run_state, dict_setitem, read_dict, alloc, print, load_global,
    store_global, modify, gets, bind, ret, raise, set_heap, set_globals,
    set_stdout in *; cbn [fst snd heap globals builtins user_module stdout] in *.

Lemma read_dict_inv (R : relation world) `{!PreOrder R} l : guar R (read_dict l).
Proof. intros w. unfold_prim. destruct (heap w !! l); simpl; reflexivity. Qed.

Lemma load_global_inv (R : relation world) `{!PreOrder R} x : guar R (load_global x).
Proof. intros w. unfold_prim. destruct (lookup_name w x); simpl; reflexivity. Qed.

Lemma dict_setitem_grows l k v : guar heap_grows (dict_setitem l k v).
Proof.
  intros w. unfold_prim. destruct (heap w !! l) as [d|] eqn:Hl; simpl; [|reflexivity].
  intros l0 d0 H0. simpl. destruct (decide (l0 = l)) as [->|Hne].
  - rewrite Hl in H0. injection H0 as <-. rewrite lookup_insert_eq.
    eexists; split_and!; [done|done|]. intros x. apply alist_keys_set_incl.
  - exists d0. by rewrite lookup_insert_ne.
Qed.

Lemma alloc_grows d : guar heap_grows (alloc d).
Proof.
  intros w l0 d0 H0. unfold_prim. simpl. exists d0. split_and!; [|done|done].
  rewrite lookup_insert_ne; [done|]. intros Heq.
  subst l0. apply (is_fresh (dom (heap w))). apply elem_of_dom. by eexists.
Qed.

Lemma print_grows line : guar heap_grows (print line).
Proof. intros w l d Hl. exists d. by unfold_prim. Qed.

Lemma store_global_grows x v : guar heap_grows (store_global x v).
Proof. intros w l d Hl. exists d. by unfold_prim. Qed.

Lemma dict_setitem_names l k v : guar same_names (dict_setitem l k v).
Proof. intros w. unfold_prim. by destruct (heap w !! l). Qed.

Lemma alloc_names d : guar same_names (alloc d).
Proof. intros w. by unfold_prim. Qed.

Lemma print_names line : guar same_names (print line).
Proof. intros w. by unfold_prim. Qed.

Lemma dict_setitem_stdout l k v : guar same_stdout (dict_setitem l k v).
Proof. intros w. unfold_prim. by destruct (heap w !! l). Qed.

Lemma alloc_stdout d : guar same_stdout (alloc d).
Proof. intros w. by unfold_prim. Qed.

#[export] Hint Resolve read_dict_inv load_global_inv dict_setitem_grows alloc_grows
  print_grows store_global_grows dict_setitem_names alloc_names print_names
  dict_setitem_stdout alloc_stdout : pym.

(** [prim_guar] proves the guarantee of an operation built from the
    primitives above. *)
Ltac prim_guar := guar_tac_with ltac:(eauto with pym typeclass_instances).

Lemma new_Dict_grows es : guar heap_grows (new_Dict es).
Proof. unfold new_Dict. prim_guar. Qed.
Lemma new_Dict_names es : guar same_names (new_Dict es).
Proof. unfold new_Dict. prim_guar. Qed.
Lemma new_Dict_stdout es : guar same_stdout (new_Dict es).
Proof. unfold new_Dict. prim_guar. Qed.
#[export] Hint Resolve new_Dict_grows new_Dict_names new_Dict_stdout : pym.

Lemma truthy_inv (R : relation world) `{!PreOrder R} v : guar R (truthy v).
Proof. unfold truthy. destruct v; prim_guar. Qed.

Lemma addict_getattr_inv (R : relation world) `{!PreOrder R} o name :
  guar R (addict_getattr o name).
Proof. unfold addict_getattr. destruct o; prim_guar. Qed.

Lemma addict_setattr_grows t name v : guar heap_grows (addict_setattr t name v).
Proof. unfold addict_setattr. destruct t as [[]|]; prim_guar. Qed.
Lemma addict_setattr_names t name v : guar same_names (addict_setattr t name v).
Proof. unfold addict_setattr. destruct t as [[]|]; prim_guar. Qed.
Lemma addict_setattr_stdout t name v : guar same_stdout (addict_setattr t name v).
Proof. unfold addict_setattr. destruct t as [[]|]; prim_guar. Qed.

#[export] Hint Resolve truthy_inv addict_getattr_inv addict_setattr_grows
  addict_setattr_names addict_setattr_stdout : pym.

(** ** Well-formedness of the primitives *)

Lemma map_Forall_dict_ok_insert h l d :
  map_Forall (fun _ d0 => dict_ok h d0) h -> dict_ok (<[l := d]> h) d ->
  map_Forall (fun _ d0 => dict_ok (<[l := d]> h) d0) (<[l := d]> h).
Proof.
  intros Hh Hd. apply map_Forall_insert_2; [done|].
  eapply map_Forall_impl; [exact Hh|]. intros ? d0. eauto with pym.
Qed.

Lemma dict_setitem_wf w l k v :
  world_wf w -> val_ok (heap w) v -> world_wf (run_state (dict_setitem l k v) w).
Proof.
  intros Hw Hv. unfold_prim. destruct (heap w !! l) as [d|] eqn:Hl; simpl; [|done].
  destruct (world_wf_dict w l d Hw Hl) as [Hnd Hes].
  apply world_wf_set_heap; [done|eauto with pym|].
  apply map_Forall_dict_ok_insert; [apply Hw|]. split; simpl; [by apply alist_set_wf|].
  apply entries_ok_set; eauto with pym.
Qed.

Lemma alloc_wf w d :
  world_wf w -> dict_ok (heap w) d -> world_wf (run_state (alloc d) w).
Proof.
  intros Hw Hd. unfold_prim. apply world_wf_set_heap; [done|eauto with pym|].
  apply map_Forall_dict_ok_insert; [apply Hw|eauto with pym].
Qed.

Lemma alloc_result w d :
  run_out (alloc d) w = Ret (fresh (dom (heap w))) /\
  heap (run_state (alloc d) w) !! fresh (dom (heap w)) = Some d.
Proof. unfold run_out. unfold_prim. simpl. by rewrite lookup_insert_eq. Qed.

Lemma alloc_fresh w l :
  is_Some (heap w !! l) -> l <> fresh (dom (heap w)).
Proof. intros Hl ->. apply (is_fresh (dom (heap w))), elem_of_dom, Hl. Qed.

Lemma print_wf line : guar (inv_rel world_wf) (print line).
Proof. intros w [Hh Hg Hb Hu]. by split. Qed.

Lemma print_stdout w line :
  stdout (run_state (print line) w) = (stdout w ++ [line])%list.
Proof. done. Qed.

Lemma store_global_wf w x v :
  world_wf w -> val_ok (heap w) v -> world_wf (run_state (store_global x v) w).
Proof.
  intros [Hh [Hgw Hgo] Hb Hu] Hv. unfold_prim. split; simpl; try done.
  split; [by apply alist_set_wf|by apply entries_ok_set].
Qed.

Lemma new_Dict_wf w es :
  world_wf w -> alist_wf es -> entries_ok (heap w) es ->
  world_wf (run_state (new_Dict es) w).
Proof. intros Hw Hnd Hes. apply alloc_wf; [done|by split]. Qed.

Lemma new_Dict_result w es :
  run_out (new_Dict es) w = Ret (VRef (fresh (dom (heap w)))) /\
  heap (run_state (new_Dict es) w) !! fresh (dom (heap w)) = Some (PyDict AddictDict es).
Proof. unfold run_out, new_Dict. unfold_prim. simpl. by rewrite lookup_insert_eq. Qed.

#[export] Hint Resolve print_wf : pym.

(** A value that holds no reference. *)
Definition scalar (v : pyval) : Prop :=
  match v with VRef _ => False | _ => True end.

Lemma scalar_val_ok h v : scalar v -> val_ok h v.
Proof. by destruct v. Qed.
#[export] Hint Resolve scalar_val_ok : pym.

Lemma dict_setitem_wf_scalar l k v :
  scalar v -> guar (inv_rel world_wf) (dict_setitem l k v).
Proof. intros Hv w Hw. apply dict_setitem_wf; eauto with pym. Qed.
#[export] Hint Resolve dict_setitem_wf_scalar : pym.

Lemma addict_setattr_wf t name v :
  scalar v -> guar (inv_rel world_wf) (addict_setattr t name v).
Proof.
  intros Hv. unfold addict_setattr. destruct t as [[]|p k]; [prim_guar..|].
  intros w Hw. destruct (new_Dict_result w [(name, v)]) as [Ho Hl].
  unfold run_out, run_state, bind in *.
  destruct (new_Dict [(name, v)] w) as [o w1] eqn:E; simpl in *; subst o.
  assert (world_wf w1) as Hw1.
  { change w1 with (snd (Ret (VRef (fresh (dom (heap w)))) : outcome pyexc pyval, w1)).
    rewrite <-E. apply new_Dict_wf; [done|apply NoDup_singleton|].
    repeat constructor. by apply scalar_val_ok. }
  apply dict_setitem_wf; [done|]. simpl. by eexists.
Qed.

(** ** Reading the heap *)

(** [heap[l][k]] *)
Definition dict_get (h : gmap loc pydict) (l : loc) (k : string) : option pyval :=
  match h !! l with
  | Some d => alist_lookup k (dentries d)
  | None => None
  end.

Lemma guar_step (R : relation world) {A} (c : PyM A) w r w' :
  guar R c -> c w = (r, w') -> R w w'.
Proof. intros Hc Hw. specialize (Hc w). unfold run_state in Hc. by rewrite Hw in Hc. Qed.

Lemma lookup_name_same_names w w' x :
  same_names w w' -> lookup_name w' x = lookup_name w x.
Proof. intros (Hg & Hb & _). unfold lookup_name. by rewrite Hg, Hb. Qed.

Lemma lookup_name_set_stdout w o x : lookup_name (set_stdout o w) x = lookup_name w x.
Proof. done. Qed.

Lemma lookup_name_set_heap w h x : lookup_name (set_heap h w) x = lookup_name w x.
Proof. done. Qed.

Lemma print_then_load_global line x w v :
  lookup_name w x = Some v ->
  (print line ;; load_global x) w = (Ret v, set_stdout (stdout w ++ [line])%list w).
Proof. intros Hx. unfold bind, print, modify, load_global. by rewrite lookup_name_set_stdout, Hx. Qed.

Lemma load_global_Ret x w v w' :
  load_global x w = (Ret v, w') -> w' = w /\ lookup_name w x = Some v.
Proof. unfold load_global. destruct (lookup_name w x); by intros [= <- <-]. Qed.

Lemma read_dict_Ret l w d w' :
  read_dict l w = (Ret d, w') -> w' = w /\ heap w !! l = Some d.
Proof. unfold read_dict. destruct (heap w !! l); by intros [= <- <-]. Qed.

(** [obj.a1.a2 = v] on an [addict.Dict] [obj], when it succeeds, leaves
    [obj[a1]] an [addict.Dict] whose item [a2] is [v]: an existing [Dict],
    or the child [Dict] addict creates for a missing key. *)
Lemma setattr_path_addict o a1 a2 v w w' :
  a1 <> a2 ->
  (let! t := addict_getattr o a1 in addict_setattr t a2 v) w = (Ret tt, w') ->
  exists l li, o = VRef l /\ dict_get (heap w') l a1 = Some (VRef li) /\
               dict_get (heap w') li a2 = Some v /\
               dkind <$> heap w' !! l = Some AddictDict /\ dkind <$> heap w' !! li = Some AddictDict.
Proof.
  intros Hne H. apply bind_Ret_inv in H as (t & w1 & Ht & H).
  destruct o as [| | | | | | |l]; unfold addict_getattr, gets, bind, raise in Ht;
    simpl in Ht; try discriminate.
  destruct (heap w !! l) as [d|] eqn:Hl; unfold read_dict in Ht; rewrite Hl in Ht;
    simpl in Ht; [|discriminate].
  exists l. destruct (dkind d) eqn:Hk; [|discriminate].
  destruct (alist_lookup a1 (dentries d)) as [x|] eqn:Ha; injection Ht as <- <-.
  - (* the key is present: assign into the existing object *)
    destruct x as [| | | | | | |li]; unfold addict_setattr, gets, bind, raise in H;
      simpl in H; try discriminate.
    exists li. unfold read_dict in H. destruct (heap w !! li) as [d2|] eqn:Hli; [|discriminate].
    destruct (dkind d2) eqn:Hk2; [|discriminate]. unfold_prim. rewrite Hli in H.
    injection H as <-. simpl. unfold dict_get. rewrite !lookup_insert_eq. simpl.
    rewrite Hk2, alist_lookup_set_eq.
    destruct (decide (l = li)) as [->|Hl'].
    + rewrite lookup_insert_eq. simpl. rewrite Hli in Hl. injection Hl as ->.
      rewrite alist_lookup_set_ne by done. simpl. by rewrite ?Hk, ?Hk2.
    + rewrite lookup_insert_ne, Hl by done. simpl. by rewrite Hk.
  - (* the key is missing: addict inserts the new child *)
    set (f := fresh (dom (heap w))).
    assert (l <> f) as Hlf by (apply alloc_fresh; by eexists).
    exists f. unfold addict_setattr, new_Dict in H. unfold_prim.
    rewrite lookup_insert_ne in H by done. rewrite Hl in H. injection H as <-.
    simpl. unfold dict_get. rewrite lookup_insert_eq, lookup_insert_ne by done.
    rewrite lookup_insert_eq. simpl. rewrite alist_lookup_set_eq, Hk.
    by rewrite decide_True.
Qed.

Lemma addict_getattr_present l k x w :
  dkind <$> heap w !! l = Some AddictDict -> dict_get (heap w) l k = Some x ->
  addict_getattr (VRef l) k w = (Ret (AttrVal x), w).
Proof.
  unfold addict_getattr, dict_get, bind, read_dict, ret.
  destruct (heap w !! l) as [[[] es]|]; simpl; [by intros _ ->|done..].
Qed.

Lemma setattr_path_spec o a1 a2 v w w' :
  a1 <> a2 ->
  (let! t := addict_getattr o a1 in addict_setattr t a2 v) w = (Ret tt, w') ->
  exists l li, o = VRef l /\ dict_get (heap w') l a1 = Some (VRef li) /\
               dict_get (heap w') li a2 = Some v.
Proof. intros Hne H. destruct (setattr_path_addict o a1 a2 v w w' Hne H) as (l & li & ?); naive_solver. Qed.

(** [obj.a1.a2 = v] leaves every other item of [obj] as it was. *)
Lemma setattr_path_keeps l a1 a2 v w w' k :
  k <> a1 -> k <> a2 ->
  (let! t := addict_getattr (VRef l) a1 in addict_setattr t a2 v) w = (Ret tt, w') ->
  dict_get (heap w') l k = dict_get (heap w) l k.
Proof.
  intros Hk1 Hk2 H. apply bind_Ret_inv in H as (t & w1 & Ht & H).
  unfold addict_getattr, bind, read_dict in Ht.
  destruct (heap w !! l) as [d|] eqn:Hl; [|discriminate].
  destruct (dkind d) eqn:Hk; [|discriminate].
  destruct (alist_lookup a1 (dentries d)) as [x|] eqn:Ha; injection Ht as <- <-.
  - destruct x as [| | | | | | |li]; unfold addict_setattr, gets, bind, raise in H;
      simpl in H; try discriminate.
    unfold read_dict in H. destruct (heap w !! li) as [d2|] eqn:Hli; [|discriminate].
    destruct (dkind d2); [|discriminate]. unfold_prim. rewrite Hli in H.
    injection H as <-. simpl. unfold dict_get. destruct (decide (l = li)) as [->|Hne].
    + rewrite lookup_insert_eq, Hli. simpl. by rewrite alist_lookup_set_ne.
    + by rewrite lookup_insert_ne.
  - set (f := fresh (dom (heap w))).
    assert (l <> f) as Hlf by (apply alloc_fresh; by eexists).
    unfold addict_setattr, new_Dict in H. unfold_prim.
    rewrite lookup_insert_ne in H by done. rewrite Hl in H. injection H as <-.
    simpl. unfold dict_get. rewrite lookup_insert_eq, Hl. simpl. by rewrite alist_lookup_set_ne.
Qed.


(** The heap only gains objects: every object keeps its contents. *)
Definition heap_extends (w w' : world) : Prop := heap w ⊆ heap w'.

#[export] Instance heap_extends_preorder : PreOrder heap_extends.
Proof. split; [intros w; unfold heap_extends; done|intros ???; unfold heap_extends; etrans; eauto]. Qed.

Lemma alloc_extends d : guar heap_extends (alloc d).
Proof.
  intros w. unfold heap_extends. unfold_prim. apply insert_subseteq.
  apply not_elem_of_dom, is_fresh.
Qed.

Lemma new_Dict_extends es : guar heap_extends (new_Dict es).
Proof. unfold new_Dict. guar_tac_with ltac:(apply alloc_extends). Qed.
#[export] Hint Resolve alloc_extends new_Dict_extends : pym.

(** [new_Dict] always returns, a location that was free and now holds
    the new [Dict]. *)
Lemma new_Dict_total es w :
  exists l w', new_Dict es w = (Ret (VRef l), w') /\ heap w !! l = None /\
    heap w' !! l = Some (PyDict AddictDict es) /\ heap w ⊆ heap w'.
Proof.
  destruct (new_Dict_result w es) as [Ho Hl].
  pose proof (new_Dict_extends es w) as Hx. unfold run_out, run_state in *.
  destruct (new_Dict es w) as [o w'] eqn:E. simpl in *. subst o.
  eexists _, w'; split_and!; [done| |done|done]. apply not_elem_of_dom, is_fresh.
Qed.

Lemma new_Dict_Ret_wf es w v w' :
  new_Dict es w = (Ret v, w') -> world_wf w -> alist_wf es -> entries_ok (heap w) es ->
  world_wf w'.
Proof.
  intros E Hw Hnd Hes. pose proof (new_Dict_wf w es Hw Hnd Hes) as H.
  unfold run_state in H. by rewrite E in H.
Qed.

(** ** An executable check of [world_wf] *)

Definition val_okb (h : gmap loc pydict) (v : pyval) : bool :=
  match v with VRef l => bool_decide (is_Some (h !! l)) | _ => true end.

Definition entries_okb (h : gmap loc pydict) (es : entries) : bool :=
  forallb (fun kv => val_okb h kv.2) es.

Definition alist_wfb (es : entries) : bool := bool_decide (NoDup (alist_keys es)).

Definition world_wfb (w : world) : bool :=
  forallb (fun ld => alist_wfb (dentries ld.2) && entries_okb (heap w) (dentries ld.2))
          (map_to_list (heap w)) &&
  alist_wfb (default [] (globals w)) && entries_okb (heap w) (default [] (globals w)) &&
  entries_okb (heap w) (builtins w) &&
  from_option (entries_okb (heap w)) true (user_module w).

Lemma entries_okb_sound h es : entries_okb h es = true -> entries_ok h es.
Proof.
  intros H. apply Forall_forall. intros [k v] Hin.
  unfold entries_okb in H. rewrite forallb_forall in H. specialize (H _ (proj1 (list_elem_of_In _ _) Hin)).
  destruct v; simpl in *; try done. by apply bool_decide_eq_true in H.
Qed.

Lemma world_wfb_sound w : world_wfb w = true -> world_wf w.
Proof.
  unfold world_wfb. rewrite !andb_true_iff.
  intros [[[[Hh Hg] Hgo] Hb] Hu]. split.
  - apply map_Forall_to_list, Forall_forall. intros [l d] Hin.
    rewrite forallb_forall in Hh. specialize (Hh _ (proj1 (list_elem_of_In _ _) Hin)). apply andb_true_iff in Hh as [H1 H2].
    split; [by apply bool_decide_eq_true in H1|by apply entries_okb_sound].
  - split; [by apply bool_decide_eq_true in Hg|by apply entries_okb_sound].
  - by apply entries_okb_sound.
  - destruct (user_module w); simpl in *; [by apply entries_okb_sound|done].
Qed.
