(* ===== verification/Defaults.v ===== *)
(** * The default settings table ([_config_default.py], lines 20-113)

    The literal [config = Dict(root_dir=..., ansys=Dict(...), ...)] as the
    entries of each section and the computation that allocates the five
    section [Dict]s and then the top-level [Dict], in the evaluation order
    of the call's keyword arguments. *)

From stdpp Require Import base list gmap strings.
From S2P Require Import Prelude PyObjects.

Open Scope string_scope.

(** A newline character, for the multi-line string of line 93. *)
Definition nl : string := String (Ascii.ascii_of_nat 10) EmptyString.

Definition root_dir_default : string := "C:\data-pyEPR".

Definition ansys_entries : entries :=
  [("method_calc_P_mj", VStr "line_voltage");
   ("save_mesh_stats", VBool true)].

Definition dissipation_entries : entries :=
  [("tan_delta_sapp", VFloat (FloatLit 1 (-6)));
   ("epsi", VInt 10);
   ("th", VFloat (FloatLit 3 (-9)));
   ("eps_r", VInt 10);
   ("tan_delta_surf", VFloat (FloatLit 1 (-3)));
   ("surface_Rs", VFloat (FloatLit 250 (-9)));
   ("gseam", VFloat (FloatLit 10 2))].

Definition plotting_entries : entries :=
  [("default_color_map", VStr "viridis")].

Definition error_msg_missing_import : string :=
  nl ++ "   If you need a part of pyEPR that uses this package," ++ nl ++
  "        then please install it. Then add it to the system path (if needed)." ++ nl ++
  "        See online setup instructions at" ++ nl ++
  "        github.com/zlatko-minev/pyEPR".

Definition internal_entries : entries :=
  [("ipython", VNone);
   ("error_msg_missing_import", VStr error_msg_missing_import);
   ("warn_missing_import", VBool false)].

Definition log_entries : entries :=
  [("format", VStr "%(asctime)s %(levelname)s [%(funcName)s]: %(message)s");
   ("datefmt", VStr "%I:%M%p %Ss");
   ("level", VStr "INFO")].

(** The top-level keys, in the order of the literal. *)
Definition config_keys : list string :=
  ["root_dir"; "ansys"; "dissipation"; "plotting"; "internal"; "log"].

Definition config_entries (ansys dissipation plotting internal log : pyval) : entries :=
  [("root_dir", VStr root_dir_default);
   ("ansys", ansys); ("dissipation", dissipation); ("plotting", plotting);
   ("internal", internal); ("log", log)].

(** Evaluating the literal: the section [Dict]s are built first, left to
    right, then the outer [Dict]. *)
Definition build_config : PyM pyval :=
  let! ansys := new_Dict ansys_entries in
  let! dissipation := new_Dict dissipation_entries in
  let! plotting := new_Dict plotting_entries in
  let! internal := new_Dict internal_entries in
  let! log := new_Dict log_entries in
  new_Dict (config_entries ansys dissipation plotting internal log).

(** ** The object the literal builds *)

(** [v] is a [Dict] with the six default sections, each section a
    distinct [Dict] holding exactly the default entries. *)
Definition is_default_config (h : gmap loc pydict) (v : pyval) : Prop :=
  exists l la ld lp li ll,
    v = VRef l /\ NoDup [l; la; ld; lp; li; ll] /\
    h !! l = Some (PyDict AddictDict
                     (config_entries (VRef la) (VRef ld) (VRef lp) (VRef li) (VRef ll))) /\
    h !! la = Some (PyDict AddictDict ansys_entries) /\
    h !! ld = Some (PyDict AddictDict dissipation_entries) /\
    h !! lp = Some (PyDict AddictDict plotting_entries) /\
    h !! li = Some (PyDict AddictDict internal_entries) /\
    h !! ll = Some (PyDict AddictDict log_entries).

(** Every object of the default config [v] in [h'] was unallocated in [h]. *)
Definition default_objects_fresh (h h' : gmap loc pydict) (v : pyval) : Prop :=
  exists l la ld lp li ll, v = VRef l /\
    h' !! l = Some (PyDict AddictDict (config_entries (VRef la) (VRef ld) (VRef lp) (VRef li) (VRef ll))) /\
    Forall (fun x => h !! x = None) [l; la; ld; lp; li; ll].

Lemma is_default_config_mono h h' v :
  h ⊆ h' -> is_default_config h v -> is_default_config h' v.
Proof.
  intros Hs (l & la & ld & lp & li & ll & -> & Hnd & H1 & H2 & H3 & H4 & H5 & H6).
  exists l, la, ld, lp, li, ll. split_and!; [done|done|..]; by eapply lookup_weaken.
Qed.

(** Evaluating the literal never fails; it returns a new [Dict] (one
    that was not allocated before) with the six sections of the source and
    their default values, and keeps every existing object as it was. *)
(** The keys of a literal are distinct, by computation. *)
Ltac nodup_tac := unfold alist_wf, alist_keys; apply (bool_decide_unpack _); by vm_compute.

Ltac wf_alloc E Hok :=
  eapply new_Dict_Ret_wf; [exact E|done|by nodup_tac|apply Hok; repeat constructor].

Theorem build_config_spec w :
  exists v w', build_config w = (Ret v, w') /\ is_default_config (heap w') v /\
    heap w ⊆ heap w' /\ (forall l, v = VRef l -> heap w !! l = None) /\
    default_objects_fresh (heap w) (heap w') v /\ (world_wf w -> world_wf w').
Proof.
  unfold build_config.
  destruct (new_Dict_total ansys_entries w) as (la & w1 & E1 & F1 & H1 & S1).
  rewrite (bind_Ret _ _ _ _ _ E1).
  destruct (new_Dict_total dissipation_entries w1) as (ld & w2 & E2 & F2 & H2 & S2).
  rewrite (bind_Ret _ _ _ _ _ E2).
  destruct (new_Dict_total plotting_entries w2) as (lp & w3 & E3 & F3 & H3 & S3).
  rewrite (bind_Ret _ _ _ _ _ E3).
  destruct (new_Dict_total internal_entries w3) as (li & w4 & E4 & F4 & H4 & S4).
  rewrite (bind_Ret _ _ _ _ _ E4).
  destruct (new_Dict_total log_entries w4) as (ll & w5 & E5 & F5 & H5 & S5).
  rewrite (bind_Ret _ _ _ _ _ E5).
  destruct (new_Dict_total (config_entries (VRef la) (VRef ld) (VRef lp) (VRef li) (VRef ll)) w5)
    as (l & w6 & E6 & F6 & H6 & S6).
  rewrite E6. exists (VRef l), w6. split_and!; [done| |by do 5 (etrans; [eassumption|])| | |].
  - exists l, la, ld, lp, li, ll. split_and!; [done| |done|..];
      [|(eapply lookup_weaken; [eassumption|]); by repeat (etrans; [eassumption|])..].
    pose proof (lookup_weaken _ _ _ _ H1 S2) as H12. pose proof (lookup_weaken _ _ _ _ H12 S3) as H13.
    pose proof (lookup_weaken _ _ _ _ H13 S4) as H14. pose proof (lookup_weaken _ _ _ _ H14 S5) as H15.
    pose proof (lookup_weaken _ _ _ _ H2 S3) as H23. pose proof (lookup_weaken _ _ _ _ H23 S4) as H24.
    pose proof (lookup_weaken _ _ _ _ H24 S5) as H25. pose proof (lookup_weaken _ _ _ _ H3 S4) as H34.
    pose proof (lookup_weaken _ _ _ _ H34 S5) as H35. pose proof (lookup_weaken _ _ _ _ H4 S5) as H45.
    repeat constructor; rewrite ?elem_of_cons, ?elem_of_nil; intros ?; intuition congruence.
  - intros l' [= <-]. apply eq_None_not_Some. intros [d Hd].
    assert (heap w5 !! l = Some d) as Hd5
      by (eapply lookup_weaken; [exact Hd|]; by do 4 (etrans; [eassumption|])).
    congruence.
  - exists l, la, ld, lp, li, ll. split_and!; [done|done|].
    assert (heap w ⊆ heap w2) as T2 by (etrans; [exact S1|exact S2]).
    assert (heap w ⊆ heap w3) as T3 by (etrans; [exact T2|exact S3]).
    assert (heap w ⊆ heap w4) as T4 by (etrans; [exact T3|exact S4]).
    assert (heap w ⊆ heap w5) as T5 by (etrans; [exact T4|exact S5]).
    repeat apply Forall_cons_2; [..|apply Forall_nil_2];
      [exact (lookup_weaken_None _ _ _ F6 T5)|exact F1|exact (lookup_weaken_None _ _ _ F2 S1)|
       exact (lookup_weaken_None _ _ _ F3 T2)|exact (lookup_weaken_None _ _ _ F4 T3)|
       exact (lookup_weaken_None _ _ _ F5 T4)].
  - intros Hw.
    assert (forall h es, Forall (fun kv => scalar kv.2) es -> entries_ok h es) as Hok
      by (intros h es Hs; eapply Forall_impl; [exact Hs|]; intros []; apply scalar_val_ok).
    assert (world_wf w1) by wf_alloc E1 Hok. assert (world_wf w2) by wf_alloc E2 Hok.
    assert (world_wf w3) by wf_alloc E3 Hok. assert (world_wf w4) by wf_alloc E4 Hok.
    assert (world_wf w5) by wf_alloc E5 Hok.
    eapply new_Dict_Ret_wf; [exact E6|done|by nodup_tac|].
    assert (heap w3 ⊆ heap w5) as T3 by (etrans; [exact S4|exact S5]).
    assert (heap w2 ⊆ heap w5) as T2 by (etrans; [exact S3|exact T3]).
    assert (heap w1 ⊆ heap w5) as T1 by (etrans; [exact S2|exact T2]).
    unfold entries_ok, config_entries. repeat (apply Forall_cons; split).
    all: try apply Forall_nil_2; simpl; try done.
    + eapply lookup_weaken_is_Some; [eexists; exact H1|exact T1].
    + eapply lookup_weaken_is_Some; [eexists; exact H2|exact T2].
    + eapply lookup_weaken_is_Some; [eexists; exact H3|exact T3].
    + eapply lookup_weaken_is_Some; [eexists; exact H4|exact S5].
Qed.

Lemma build_config_names : guar same_names build_config.
Proof. unfold build_config. prim_guar. Qed.
Lemma build_config_stdout : guar same_stdout build_config.
Proof. unfold build_config. prim_guar. Qed.
