(* ===== verification/Probe.v ===== *)
(** * The environment probe [is_using_ipython] (lines 116-126)

    The function evaluates the bare name [__IPYTHON__], which IPython
    binds in [builtins]; the lookup goes through the module globals and
    then [builtins], and the [NameError] of an unbound name is caught by
    [except Exception].  The theorem of this file characterises the probe
    completely: it never raises, changes nothing, and answers whether the
    name is bound (whatever value it is bound to). *)

From stdpp Require Import base list gmap strings.
From S2P Require Import Prelude PyObjects.

Open Scope string_scope.

Definition is_using_ipython : PyM bool :=
  catch (let! _ := load_global "__IPYTHON__" in ret true)
        (fun _ => ret false).

(** The answer the probe gives in a state. *)
Definition ipython_bound (w : world) : bool :=
  bool_decide (is_Some (lookup_name w "__IPYTHON__")).

(** The probe's run: its answer is [ipython_bound], the state is kept. *)
Lemma is_using_ipython_run (w : world) :
  is_using_ipython w = (Ret (ipython_bound w), w).
Proof.
  unfold is_using_ipython, ipython_bound, catch, bind, load_global, ret.
  by destruct (lookup_name w "__IPYTHON__").
Qed.

Lemma is_using_ipython_inv (R : relation world) `{!PreOrder R} :
  guar R is_using_ipython.
Proof. intros w. unfold run_state. rewrite is_using_ipython_run. simpl. reflexivity. Qed.

#[export] Hint Resolve is_using_ipython_inv : pym.

(** C8: the probe never raises and changes nothing; it returns [False]
    when [__IPYTHON__] is bound neither in the module globals nor in
    [builtins] (any non-interactive process), and [True] as soon as the
    name is bound, whatever value it is bound to. *)
Theorem is_using_ipython_result (w : world) :
  is_using_ipython w =
    (Ret (match lookup_name w "__IPYTHON__" with Some _ => true | None => false end), w).
Proof.
  unfold is_using_ipython, catch, bind, load_global, ret.
  by destruct (lookup_name w "__IPYTHON__").
Qed.
