(* ===== verification/ConfigDefault.v ===== *)
(** * The module [pyEPR._config_default] and its accessor [get_config]

    The module body (lines 14-129: the import of [Dict], the flag
    [__config_defined__], the literal, the two [def]s), the first import
    and [importlib.reload] of the module, and [get_config]
    (lines 129-155).  [config.update(...)] is a method of the class of
    [config]; the accessor is written against the interface
    [ConfigMerge], which states what any [update] used there guarantees,
    and every theorem of this file holds for each instance of it. *)

From stdpp Require Import base list gmap strings.
From S2P Require Import Prelude PyObjects Defaults Probe.

Open Scope string_scope.

(** ** The module body *)

Definition module_name : string := "pyEPR._config_default".

(** The namespace of a module object before its body runs. *)
Definition fresh_module_ns : entries := [("__name__", VStr module_name)].

(** Line 158: [__all__ = ['get_config']], the names
    [from pyEPR._config_default import *] binds. *)
Definition module_all : pyval := VStrList ["get_config"].

Definition exec_module_body : PyM unit :=
  (* from . import Dict *)
  store_global "Dict" (VFunc "addict.Dict") ;;
  (* __config_defined__ = 'config' in locals() *)
  let! ns := gets (fun w => default [] (globals w)) in
  store_global "__config_defined__" (VBool (alist_mem "config" ns)) ;;
  (* config = Dict(...) *)
  let! cfg := build_config in
  store_global "config" cfg ;;
  store_global "is_using_ipython" (VFunc "pyEPR._config_default.is_using_ipython") ;;
  store_global "get_config" (VFunc "pyEPR._config_default.get_config") ;;
  (* __all__ = ['get_config'] *)
  store_global "__all__" module_all.

(** [import pyEPR._config_default]: the body runs once, in a fresh
    namespace; a later import finds the module in [sys.modules]. *)
Definition import_module : PyM unit :=
  let! g := gets globals in
  match g with
  | Some _ => ret tt
  | None => modify (set_globals (Some fresh_module_ns)) ;; exec_module_body
  end.

(** [importlib.reload(module)]: the body runs again in the module's
    existing namespace. *)
Definition reload_module : PyM unit :=
  let! g := gets globals in
  match g with
  | Some _ => exec_module_body
  | None => raise (TypeError "reload() argument must be a module")
  end.

(** ** The user override module *)

(** [from . import config_user]: the submodule [pyEPR.config_user];
    when there is none, the failed submodule import is reported as
    [ImportError], the name not being an attribute of [pyEPR] either. *)
Definition import_config_user : PyM entries :=
  let! m := gets user_module in
  match m with
  | Some ns => ret ns
  | None => raise (ImportError "config_user" "pyEPR")
  end.

(** [module.name] *)
Definition module_getattr (ns : entries) (name : string) : PyM pyval :=
  match alist_lookup name ns with
  | Some v => ret v
  | None => raise (AttributeError "module" name)
  end.

(** ** The merge interface

    [merge_update self other] is [self.update(other)].  Any update used
    by the accessor frees no object, removes no key and changes no
    object's class ([heap_grows]), touches no namespace, prints nothing
    and keeps the state well formed. *)

Class ConfigMerge := {
  merge_update : pyval -> pyval -> PyM unit;
  merge_grows : forall a b, guar heap_grows (merge_update a b);
  merge_names : forall a b, guar same_names (merge_update a b);
  merge_stdout : forall a b, guar same_stdout (merge_update a b);
  merge_wf : forall a b, guar (inv_rel world_wf) (merge_update a b)
}.

#[export] Hint Resolve merge_grows merge_names merge_stdout merge_wf : pym.

(** ** [get_config] *)

Section GetConfig.
Context `{!ConfigMerge}.

(** Lines 149-154: the merge of the user's overrides and the probe. *)
Definition load_user_config : PyM unit :=
  (* from . import config_user *)
  let! config_user := import_config_user in
  (* config.update(config_user.config) *)
  let! cfg := load_global "config" in
  let! user_cfg := module_getattr config_user "config" in
  merge_update cfg user_cfg ;;
  (* config.internal.ipython = is_using_ipython() *)
  let! ip := is_using_ipython in
  let! cfg' := load_global "config" in
  let! internal := addict_getattr cfg' "internal" in
  addict_setattr internal "ipython" (VBool ip).

Definition get_config : PyM pyval :=
  let! defined := load_global "__config_defined__" in
  let! is_defined := truthy defined in
  if is_defined then
    print "Config is already defined." ;;
    load_global "config"
  else
    print "First time load of config" ;;
    load_user_config ;;
    load_global "config".
End GetConfig.

(** ** The module body *)

(** Running the body binds [__config_defined__] to whether [config] was
    already a global, and binds [config] to a new default [Dict]. *)
Lemma exec_module_body_spec w :
  exists l w', exec_module_body w = (Ret tt, w') /\ (world_wf w -> world_wf w') /\
    lookup_name w' "__config_defined__" =
      Some (VBool (alist_mem "config" (default [] (globals w)))) /\
    lookup_name w' "config" = Some (VRef l) /\
    is_default_config (heap w') (VRef l) /\ heap w ⊆ heap w' /\ heap w !! l = None /\
    default_objects_fresh (heap w) (heap w') (VRef l) /\
    builtins w' = builtins w /\ user_module w' = user_module w /\ stdout w' = stdout w /\
    globals w' <> None.
Proof.
  unfold exec_module_body. cbn [bind store_global modify gets].
  match goal with |- context [bind build_config _ ?w2] =>
    destruct (build_config_spec w2) as (v & w3 & E & Hd & Hs & Hf & Hfr & Hwf);
    pose proof (guar_step same_names _ w2 _ _ build_config_names E) as Hn;
    pose proof (guar_step same_stdout _ w2 _ _ build_config_stdout E) as Ho;
    rewrite (bind_Ret _ _ _ _ _ E) end.
  pose proof Hd as (l & la & ld & lp & li & ll & -> & _).
  exists l. eexists. split; [reflexivity|].
  split.
  { intros Hw. assert (world_wf w3) as Hw3.
    { apply Hwf. apply store_global_wf; [|done]. by apply store_global_wf. }
    apply store_global_wf; [|done]. apply store_global_wf; [|done]. apply store_global_wf; [|done].
    apply store_global_wf; [done|]. simpl.
    destruct Hd as (? & ? & ? & ? & ? & ? & [= <-] & _ & Hl & _). by eexists. }
  destruct Hn as (Hg & Hb & Hu). unfold same_stdout in Ho.
  cbn [set_globals globals builtins user_module stdout heap] in *.
  unfold lookup_name. cbn [set_globals globals builtins user_module stdout heap default].
  rewrite Hg. unfold default, from_option, id. rewrite !alist_lookup_set.
  repeat (rewrite decide_False by discriminate). rewrite !decide_True by done.
  rewrite alist_mem_set_ne by discriminate.
  split_and!; try done. by apply Hf.
Qed.

(** ** Guarantees of the accessor *)

Lemma import_config_user_inv (R : relation world) `{!PreOrder R} :
  guar R import_config_user.
Proof. unfold import_config_user. prim_guar. Qed.

Lemma module_getattr_inv (R : relation world) `{!PreOrder R} ns name :
  guar R (module_getattr ns name).
Proof. unfold module_getattr. prim_guar. Qed.

Lemma scalar_VBool b : scalar (VBool b).
Proof. done. Qed.

#[export] Hint Resolve import_config_user_inv module_getattr_inv scalar_VBool
  addict_setattr_wf : pym.

(** [returns_global x c]: whenever [c] returns, it returns the value the
    global [x] is bound to in the start state. *)
Definition returns_global (x : string) (c : PyM pyval) : Prop :=
  forall w v w', c w = (Ret v, w') -> lookup_name w x = Some v.

Lemma returns_global_load x : returns_global x (load_global x).
Proof. intros w v w' H. by apply load_global_Ret in H as [_ ?]. Qed.

Lemma returns_global_bind {A} x (c : PyM A) (f : A -> PyM pyval) :
  guar same_names c -> (forall a, returns_global x (f a)) -> returns_global x (bind c f).
Proof.
  intros Hc Hf w v w' H. apply bind_Ret_inv in H as (a & w1 & H1 & H2).
  rewrite <-(lookup_name_same_names w w1); [by eapply Hf|]. by eapply guar_step.
Qed.

(** [guar_step_by H]: the relation between the states around the step
    [H : c w = (r, w')], from the guarantee of [c]. *)
Ltac guar_step_by H := eapply guar_step; [|exact H]; eauto with pym typeclass_instances.

Section Theory.
Context `{CM : !ConfigMerge}.

Lemma load_user_config_grows : guar heap_grows load_user_config.
Proof. unfold load_user_config. prim_guar. Qed.
Lemma load_user_config_names : guar same_names load_user_config.
Proof. unfold load_user_config. prim_guar. Qed.
Lemma load_user_config_stdout : guar same_stdout load_user_config.
Proof. unfold load_user_config. prim_guar. Qed.
Lemma load_user_config_wf : guar (inv_rel world_wf) load_user_config.
Proof. unfold load_user_config. prim_guar. Qed.

#[local] Hint Resolve load_user_config_grows load_user_config_names
  load_user_config_stdout load_user_config_wf : pym.

Lemma get_config_grows : guar heap_grows get_config.
Proof. unfold get_config. prim_guar. Qed.
Lemma get_config_names : guar same_names get_config.
Proof. unfold get_config. prim_guar. Qed.

(** The accessor keeps the process state well formed, whatever the
    user module holds and whether it raises or returns. *)
Lemma get_config_wf : guar (inv_rel world_wf) get_config.
Proof. unfold get_config. prim_guar. Qed.

(** With the flag false, the accessor is the first-load path. *)
Lemma get_config_flag_false w :
  lookup_name w "__config_defined__" = Some (VBool false) ->
  get_config w = (print "First time load of config" ;; load_user_config ;;
                  load_global "config") w.
Proof. intros Hf. unfold get_config, bind at 1, load_global at 1. by rewrite Hf. Qed.

(** With the flag true, it prints and returns [config]. *)
Lemma get_config_flag_true w :
  lookup_name w "__config_defined__" = Some (VBool true) ->
  get_config w = (print "Config is already defined." ;; load_global "config") w.
Proof. intros Hf. unfold get_config, bind at 1, load_global at 1. by rewrite Hf. Qed.

(** Whenever [get_config] returns, it returns the object bound to the
    global [config] when it was called, and it leaves every namespace,
    that binding included, as it was. *)
Lemma get_config_returns_config w v w' :
  get_config w = (Ret v, w') ->
  lookup_name w "config" = Some v /\ same_names w w'.
Proof.
  intros Hrun. split; [|by eapply guar_step; [apply get_config_names|]].
  revert Hrun. unfold get_config.
  apply returns_global_bind; [eauto with pym typeclass_instances|intros d].
  apply returns_global_bind; [eauto with pym typeclass_instances|intros [|]];
    repeat (apply returns_global_bind; [eauto with pym typeclass_instances|intros _]);
    apply returns_global_load.
Qed.

(** While [__config_defined__] is [False], a call of [get_config]
    prints "First time load of config" and nothing else, whether it then
    returns or raises. *)
Lemma get_config_first_load_output w :
  lookup_name w "__config_defined__" = Some (VBool false) ->
  stdout (run_state get_config w) = (stdout w ++ ["First time load of config"])%list.
Proof.
  intros Hf. unfold run_state. rewrite get_config_flag_false by done.
  unfold bind at 1, print, modify. simpl.
  pose proof (guar_bind same_stdout load_user_config (fun _ => load_global "config")
                load_user_config_stdout (fun _ => load_global_inv same_stdout "config")) as Hs.
  apply Hs.
Qed.

(** C7: a call that takes the first-load path and returns yields the
    [config] object whose [internal] section now maps [ipython] to the
    boolean the probe gave, never to the placeholder [None]. *)
Theorem get_config_sets_ipython w v w' :
  lookup_name w "__config_defined__" = Some (VBool false) ->
  get_config w = (Ret v, w') ->
  exists l li, v = VRef l /\
    dict_get (heap w') l "internal" = Some (VRef li) /\
    dict_get (heap w') li "ipython" = Some (VBool (ipython_bound w)).
Proof.
  intros Hf Hrun. rewrite get_config_flag_false in Hrun by done.
  apply bind_Ret_inv in Hrun as ([] & w1 & H1 & Hrun).
  apply bind_Ret_inv in Hrun as ([] & w2 & H2 & Hrun).
  apply load_global_Ret in Hrun as [-> Hv].
  assert (exists l li, lookup_name w2 "config" = Some (VRef l) /\
    dict_get (heap w2) l "internal" = Some (VRef li) /\
    dict_get (heap w2) li "ipython" = Some (VBool (ipython_bound w1)))
    as (l & li & Hc & Hi & Hip).
  { clear Hv. revert H2. generalize w1 w2. clear w1 w2 H1.
    intros u u' Hrun. unfold load_user_config in Hrun.
    apply bind_Ret_inv in Hrun as (ns & u1 & K1 & Hrun).
    apply bind_Ret_inv in Hrun as (cfg & u2 & K2 & Hrun).
    apply bind_Ret_inv in Hrun as (ucfg & u3 & K3 & Hrun).
    apply bind_Ret_inv in Hrun as ([] & u4 & K4 & Hrun).
    apply bind_Ret_inv in Hrun as (ip & u5 & K5 & Hrun).
    apply bind_Ret_inv in Hrun as (cfg' & u6 & K6 & Hrun).
    rewrite is_using_ipython_run in K5. injection K5 as Hip Hw5. subst ip u5.
    apply load_global_Ret in K6 as [Hw6 Hcfg]. subst u6.
    assert (same_names u4 u') as Hn'.
    { pose proof Hrun as Hr. apply bind_Ret_inv in Hr as (t & u7 & K7 & K8).
      transitivity u7; [guar_step_by K7|guar_step_by K8]. }
    assert (same_names u u4) as Hn.
    { transitivity u1; [guar_step_by K1|]. transitivity u2; [guar_step_by K2|].
      transitivity u3; [guar_step_by K3|guar_step_by K4]. }
    apply setattr_path_spec in Hrun as (l & li & -> & Hi & Hip); [|done].
    exists l, li. split_and!; [|done|].
    - by rewrite (lookup_name_same_names u4 u').
    - unfold ipython_bound. by rewrite <-(lookup_name_same_names u u4). }
  exists l, li. rewrite Hc in Hv. injection Hv as <-. split_and!; [done|done|].
  injection H1 as <-. exact Hip.
Qed.

(** C20: without a submodule [pyEPR.config_user] the first-load path
    raises [ImportError] ("cannot import name 'config_user' from
    'pyEPR'") after its message, before line 151 merges anything: the
    process state is the one before the call but for the message. *)
Theorem get_config_no_user_module w :
  lookup_name w "__config_defined__" = Some (VBool false) ->
  user_module w = None ->
  get_config w = (Exc (ImportError "config_user" "pyEPR"),
                  set_stdout (stdout w ++ ["First time load of config"])%list w).
Proof.
  intros Hf Hu. rewrite get_config_flag_false by done.
  unfold bind, print, modify, load_user_config, import_config_user, gets, set_stdout. simpl.
  by rewrite Hu.
Qed.
End Theory.
