(* ===== verification/DictUpdate.v ===== *)
(** * The two [update] methods: builtin [dict.update] and [addict.Dict.update]

    [config] is a [pyEPR.Dict], that is an [addict.Dict], so line 151
    ([config.update(config_user.config)]) runs addict's [update], which
    merges recursively: for each item [(k, v)] of the argument, when both
    [self[k]] and [v] are dicts it calls [self[k].update(v)] (addict's
    method when [self[k]] is an addict [Dict], the builtin one when it is
    a plain [dict]), and otherwise it assigns [self[k] = v].  The builtin
    [dict.update] assigns every item, replacing whole sections; it is the
    "shallow" merge the specification describes ([shallow_update]).
    addict's method is the [ConfigMerge] instance of the code
    ([addict_merge]).  The file ends with the first-load path cut at
    the merge, and with what it does for flat overrides, for overrides
    that are not mappings, and for a dict merged into itself.

    Neither class is code of this repository (addict is a dependency);
    both are modelled from the behaviour the specification and the
    library document.  The recursion of addict's [update] is bounded by
    Python's recursion limit: [fuel] is the number of nested calls still
    allowed, and running out raises [RecursionError]. *)

From stdpp Require Import base list gmap strings pretty.
From S2P Require Import Prelude PyObjects Probe ConfigDefault.

Open Scope string_scope.

(** The pairs of a sequence of strings: element [#i] must have length
    two, its characters being the key and the value. *)
Fixpoint str_pairs (i : nat) (xs : list string) : PyM entries :=
  match xs with
  | [] => ret []
  | s :: xs' =>
      match s with
      | String a (String b EmptyString) =>
          let! rest := str_pairs (S i) xs' in
          ret ((String a EmptyString, VStr (String b EmptyString)) :: rest)
      | _ => raise (ValueError ("dictionary update sequence element #" ++ pretty i ++
                                " has length " ++ pretty (String.length s) ++ "; 2 is required"))
      end
  end.

(** The items [dict.update(arg)] iterates over: those of a mapping; a
    list of strings gives the pairs of [str_pairs]; a string is an
    iterable of one-character strings, which are not pairs; any other
    scalar is not iterable.  As in addict's [other.update(arg)], the
    items are collected before any is assigned. *)
Definition update_items (arg : pyval) : PyM entries :=
  match arg with
  | VRef l => let! d := read_dict l in ret (dentries d)
  | VStrList xs => str_pairs 0 xs
  | VStr "" => ret []
  | VStr _ => raise (ValueError "dictionary update sequence element #0 has length 1; 2 is required")
  | v => let! h := gets heap in raise (TypeError ("'" ++ type_name h v ++ "' object is not iterable"))
  end.

(** [dict.update(self, arg)] on the dict object at [self]. *)
Definition dict_update (self : loc) (arg : pyval) : PyM unit :=
  let! items := update_items arg in
  mfor items (fun kv => dict_setitem self kv.1 kv.2).

(** One item of addict's loop:
    [if k not in self or not isinstance(self[k], dict) or not isinstance(v, dict):
       self[k] = v
     else: self[k].update(v)] *)
Definition addict_update_item (rec : loc -> pyval -> PyM unit)
    (self : loc) (k : string) (v : pyval) : PyM unit :=
  let! sd := read_dict self in
  match alist_lookup k (dentries sd), v with
  | Some (VRef ls), VRef _ =>
      let! d := read_dict ls in
      match dkind d with
      | AddictDict => rec ls v
      | BuiltinDict => dict_update ls v
      end
  | _, _ => dict_setitem self k v
  end.

(** [addict.Dict.update(self, arg)]: [other = {}; other.update(arg)], then
    the loop over a snapshot of [other]'s items. *)
Fixpoint addict_update (fuel : nat) (self : loc) (arg : pyval) : PyM unit :=
  match fuel with
  | O => raise RecursionError
  | S fuel' =>
      let! other := update_items arg in
      mfor other (fun kv => addict_update_item (addict_update fuel') self kv.1 kv.2)
  end.

(** [self.update(arg)] dispatched on the class of [self]. *)
Definition method_update (fuel : nat) (self arg : pyval) : PyM unit :=
  match self with
  | VRef l =>
      let! d := read_dict l in
      match dkind d with
      | AddictDict => addict_update fuel l arg
      | BuiltinDict => dict_update l arg
      end
  | v => let! h := gets heap in raise (AttributeError (type_name h v) "update")
  end.

(** The reading of the specification: [config.update] as the builtin
    [dict.update], one level only. *)
Definition shallow_update (self arg : pyval) : PyM unit :=
  match self with
  | VRef l => dict_update l arg
  | v => let! h := gets heap in raise (AttributeError (type_name h v) "update")
  end.

Lemma addict_update_S f self arg :
  addict_update (S f) self arg =
    (let! other := update_items arg in
     mfor other (fun kv => addict_update_item (addict_update f) self kv.1 kv.2)).
Proof. reflexivity. Qed.

(** CPython's default recursion limit. *)
Definition py_recursion_limit : nat := 1000.

(** ** Guarantees *)

Lemma str_pairs_inv (R : relation world) `{!PreOrder R} xs : forall i, guar R (str_pairs i xs).
Proof.
  induction xs as [|s xs IH]; intros i; cbn [str_pairs]; [prim_guar|].
  destruct s as [|a [|b []]]; prim_guar.
Qed.

Lemma update_items_inv (R : relation world) `{!PreOrder R} arg : guar R (update_items arg).
Proof. unfold update_items. destruct arg as [| | | |[|? ?]| | |]; [..|apply str_pairs_inv|]; prim_guar. Qed.
#[export] Hint Resolve update_items_inv : pym.

Lemma dict_update_grows l arg : guar heap_grows (dict_update l arg).
Proof. unfold dict_update. prim_guar. Qed.
Lemma dict_update_names l arg : guar same_names (dict_update l arg).
Proof. unfold dict_update. prim_guar. Qed.
Lemma dict_update_stdout l arg : guar same_stdout (dict_update l arg).
Proof. unfold dict_update. prim_guar. Qed.
#[export] Hint Resolve dict_update_grows dict_update_names dict_update_stdout : pym.

(** A relation that [dict_setitem] and [dict_update] guarantee also holds
    across addict's recursive update, at any fuel. *)
Lemma addict_update_guar (R : relation world) `{!PreOrder R} :
  (forall l k v, guar R (dict_setitem l k v)) ->
  (forall l arg, guar R (dict_update l arg)) ->
  forall fuel l arg, guar R (addict_update fuel l arg).
Proof.
  intros Hset Hupd fuel. induction fuel as [|fuel IH]; intros l arg; simpl; [prim_guar|].
  unfold addict_update_item. prim_guar.
Qed.

Lemma method_update_guar (R : relation world) `{!PreOrder R} fuel :
  (forall l k v, guar R (dict_setitem l k v)) ->
  (forall l arg, guar R (dict_update l arg)) ->
  forall a b, guar R (method_update fuel a b).
Proof.
  intros Hset Hupd a b. unfold method_update.
  pose proof (addict_update_guar R Hset Hupd fuel). destruct a; prim_guar.
Qed.

(** ** Well-formedness *)

(** The pairs of a list of strings are strings: no reference. *)
Lemma str_pairs_ok xs : forall i w items w',
  str_pairs i xs w = (Ret items, w') -> w' = w /\ Forall (fun kv => scalar kv.2) items.
Proof.
  induction xs as [|s xs IH]; intros i w items w'; cbn [str_pairs]; [by intros [= <- <-]|].
  destruct s as [|a [|b []]]; unfold raise; try discriminate.
  unfold bind. destruct (str_pairs (S i) xs w) as [[rest|] w1] eqn:E; [|discriminate].
  intros [= <- <-]. destruct (IH _ _ _ _ E) as [-> Hr]. split; [done|]. by constructor.
Qed.

Lemma update_items_ok w arg items w' :
  world_wf w -> update_items arg w = (Ret items, w') ->
  w' = w /\ entries_ok (heap w) items.
Proof.
  intros Hw. unfold update_items, bind, read_dict, gets, ret, raise.
  destruct arg as [| | | |[|? ?]| | |l]; simpl; try discriminate.
  - intros [= <- <-]. split; [done|constructor].
  - intros Hs. destruct (str_pairs_ok _ _ _ _ _ Hs) as [-> Hsc]. split; [done|].
    eapply Forall_impl; [exact Hsc|]. intros kv. apply scalar_val_ok.
  - destruct (heap w !! l) as [d|] eqn:Hl; [|discriminate]. intros [= <- <-].
    split; [done|]. apply (world_wf_dict w l d Hw Hl).
Qed.

(** A loop whose body keeps the state well formed when it stores a
    value that is valid, run over valid items, keeps it well formed. *)
Lemma mfor_items_wf (body : string -> pyval -> PyM unit) :
  (forall k v, guar heap_grows (body k v)) ->
  (forall k v w, world_wf w -> val_ok (heap w) v -> world_wf (run_state (body k v) w)) ->
  forall items w, world_wf w -> entries_ok (heap w) items ->
  world_wf (run_state (mfor items (fun kv => body kv.1 kv.2)) w).
Proof.
  intros Hg Hb items. induction items as [|[k v] items IH]; intros w Hw Hok; [done|].
  apply Forall_cons in Hok as [Hv Hok]. simpl in Hv.
  pose proof (Hb k v w Hw Hv) as Hw1. pose proof (Hg k v w) as Hg1.
  unfold run_state in *. cbn [mfor]. unfold bind.
  simpl. destruct (body k v w) as [[]w1]; simpl in *; [|done].
  apply IH; [done|]. eauto with pym.
Qed.

Lemma items_loop_wf (body : string -> pyval -> PyM unit) arg :
  (forall k v, guar heap_grows (body k v)) ->
  (forall k v w, world_wf w -> val_ok (heap w) v -> world_wf (run_state (body k v) w)) ->
  guar (inv_rel world_wf)
    (let! items := update_items arg in mfor items (fun kv => body kv.1 kv.2)).
Proof.
  intros Hg Hb w Hw. unfold run_state, bind.
  destruct (update_items arg w) as [[items|e] w1] eqn:E.
  - destruct (update_items_ok w arg items w1 Hw E) as [-> Hok].
    by apply mfor_items_wf.
  - pose proof (update_items_inv (inv_rel world_wf) arg w Hw) as H.
    unfold run_state in H. rewrite E in H. done.
Qed.

Lemma dict_update_wf l arg : guar (inv_rel world_wf) (dict_update l arg).
Proof.
  apply items_loop_wf; [eauto with pym|]. intros k v w Hw Hv. by apply dict_setitem_wf.
Qed.
#[export] Hint Resolve dict_update_wf : pym.

Lemma addict_update_item_wf rec l k v w :
  (forall l' a, guar (inv_rel world_wf) (rec l' a)) ->
  world_wf w -> val_ok (heap w) v ->
  world_wf (run_state (addict_update_item rec l k v) w).
Proof.
  intros Hrec Hw Hv. unfold addict_update_item, run_state, bind at 1, read_dict at 1.
  destruct (heap w !! l) as [sd|]; simpl; [|done].
  destruct (alist_lookup k (dentries sd)) as [[]|], v; simpl;
    first [exact Hw
          | apply dict_setitem_wf; done
          | match goal with |- world_wf (snd (?c w)) =>
              assert (guar (inv_rel world_wf) c) as G by prim_guar; apply G, Hw end].
Qed.

Lemma addict_update_wf fuel l arg : guar (inv_rel world_wf) (addict_update fuel l arg).
Proof.
  revert l arg. induction fuel as [|fuel IH]; intros l arg; simpl; [prim_guar|].
  apply items_loop_wf.
  - intros k v. unfold addict_update_item.
    pose proof (addict_update_guar heap_grows dict_setitem_grows dict_update_grows fuel).
    prim_guar.
  - intros k v w Hw Hv. by apply addict_update_item_wf.
Qed.

#[export] Hint Resolve addict_update_wf : pym.

Lemma method_update_wf fuel a b : guar (inv_rel world_wf) (method_update fuel a b).
Proof. unfold method_update. destruct a; prim_guar. Qed.

(** ** The instances *)

(** The program's merge: [config] is an [addict.Dict]. *)
#[export] Instance addict_merge : ConfigMerge := {|
  merge_update := method_update py_recursion_limit;
  merge_grows := method_update_guar heap_grows py_recursion_limit
                   dict_setitem_grows dict_update_grows;
  merge_names := method_update_guar same_names py_recursion_limit
                   dict_setitem_names dict_update_names;
  merge_stdout := method_update_guar same_stdout py_recursion_limit
                    dict_setitem_stdout dict_update_stdout;
  merge_wf := method_update_wf py_recursion_limit
|}.

(** ** Flat overrides *)

Lemma set_heap_heap w : set_heap (heap w) w = w.
Proof. by destruct w. Qed.

Lemma set_heap_set_heap h h' w : set_heap h' (set_heap h w) = set_heap h' w.
Proof. done. Qed.

Lemma dict_setitem_run l kind es k v w :
  heap w !! l = Some (PyDict kind es) ->
  dict_setitem l k v w = (Ret tt, set_heap (<[l := PyDict kind (alist_set k v es)]> (heap w)) w).
Proof. intros Hl. unfold dict_setitem, bind, read_dict, modify. by rewrite Hl. Qed.

(** [dict.update]'s loop on the object [l]: the items are assigned in
    order. *)
Lemma mfor_setitem l kind items : forall w es,
  heap w !! l = Some (PyDict kind es) ->
  mfor items (fun kv => dict_setitem l kv.1 kv.2) w =
    (Ret tt, set_heap (<[l := PyDict kind (alist_set_all items es)]> (heap w)) w).
Proof.
  induction items as [|[k v] items IH]; intros w es Hl.
  - cbn. by rewrite insert_id, set_heap_heap.
  - cbn [mfor fst snd]. rewrite (bind_Ret _ _ _ _ _ (dict_setitem_run l kind es k v w Hl)).
    rewrite (IH _ (alist_set k v es)) by (cbn; apply lookup_insert_eq).
    cbn [heap set_heap]. by rewrite insert_insert_eq.
Qed.

(** The test of addict's loop, [k not in self or not
    isinstance(self[k], dict) or not isinstance(v, dict)], holds for the
    item [kv] against the items [es] of [self]: the item is assigned,
    never merged. *)
Definition assigns_item (es : entries) (kv : string * pyval) : Prop :=
  scalar kv.2 \/ forall r, alist_lookup kv.1 es <> Some (VRef r).

Lemma assigns_item_set k v es items :
  k ∉ map fst items -> Forall (assigns_item es) items -> Forall (assigns_item (alist_set k v es)) items.
Proof.
  intros Hk. rewrite !Forall_forall. intros Hs [k' v'] Hin.
  destruct (Hs _ Hin) as [Hv|Hn]; [by left|right]. intros r. cbn [fst] in *.
  rewrite alist_lookup_set_ne; [apply Hn|].
  intros ->. apply Hk. apply list_elem_of_In, in_map_iff. eexists; split; [|by apply list_elem_of_In]; done.
Qed.

(** addict's loop over items that are all assigned: it is [dict.update]'s
    loop, whatever the fuel left for the recursion. *)
Lemma addict_loop_assigns f l kind items : forall w es,
  heap w !! l = Some (PyDict kind es) -> NoDup (map fst items) -> Forall (assigns_item es) items ->
  mfor items (fun kv => addict_update_item (addict_update f) l kv.1 kv.2) w =
    (Ret tt, set_heap (<[l := PyDict kind (alist_set_all items es)]> (heap w)) w).
Proof.
  induction items as [|[k v] items IH]; intros w es Hl Hnd Hs.
  - cbn. by rewrite insert_id, set_heap_heap.
  - apply Forall_cons in Hs as [Hkv Hs]. apply NoDup_cons in Hnd as [Hk Hnd].
    cbn [mfor fst snd].
    assert (addict_update_item (addict_update f) l k v w =
            (Ret tt, set_heap (<[l := PyDict kind (alist_set k v es)]> (heap w)) w)) as E.
    { rewrite <-(dict_setitem_run l kind es k v w Hl).
      unfold addict_update_item, bind at 1, read_dict at 1. rewrite Hl. cbn [dentries].
      destruct Hkv as [Hv|Hn]; cbn [fst snd] in *.
      - destruct (alist_lookup k es) as [[]|], v; done.
      - destruct (alist_lookup k es) as [[| | | | | | |r]|] eqn:Ek; try done.
        by destruct (Hn r). }
    rewrite (bind_Ret _ _ _ _ _ E), (IH _ (alist_set k v es));
      [|cbn; apply lookup_insert_eq|done|by apply assigns_item_set].
    cbn [heap set_heap]. by rewrite insert_insert_eq.
Qed.


Lemma update_items_ref w la da :
  heap w !! la = Some da -> update_items (VRef la) w = (Ret (dentries da), w).
Proof. intros Hla. unfold update_items, bind, read_dict, ret. by rewrite Hla. Qed.

(** A flat override never takes addict's recursive branch. *)
Lemma flat_method_update f w l d la da :
  heap w !! l = Some d -> heap w !! la = Some da ->
  Forall (fun kv => scalar kv.2) (dentries da) ->
  method_update (S f) (VRef l) (VRef la) w = shallow_update (VRef l) (VRef la) w.
Proof.
  intros Hl Hla Hs. unfold method_update, shallow_update, bind at 1, read_dict at 1. rewrite Hl.
  destruct (dkind d); [|done]. cbn [addict_update]. unfold dict_update, bind at 1 2.
  rewrite (update_items_ref w la da Hla). apply mfor_ext.
  intros [k v] s Hkv. rewrite Forall_forall in Hs. specialize (Hs _ Hkv). simpl in Hs |- *.
  unfold addict_update_item, dict_setitem, bind, read_dict.
  destruct (heap s !! l) as [sd|] eqn:E; [|reflexivity].
  destruct (alist_lookup k (dentries sd)) as [[]|], v; simpl; rewrite ?E; try reflexivity; destruct Hs.
Qed.

(** ** A dict merged into itself *)

(** An item of a dict [d] that is a plain value or [d] itself. *)
Definition scalar_or_self (d : loc) (kv : string * pyval) : Prop :=
  scalar kv.2 \/ kv.2 = VRef d.

(** Assigning an item of [d] its own value leaves the heap as it was. *)
Lemma addict_item_self_scalar f d ds k v w :
  heap w !! d = Some (PyDict AddictDict ds) -> alist_lookup k ds = Some v -> scalar v ->
  addict_update_item (addict_update f) d k v w = (Ret tt, w).
Proof.
  intros Hd Hk Hv. unfold addict_update_item, bind at 1, read_dict at 1. rewrite Hd.
  cbn [dentries]. rewrite Hk. destruct v; try done.
  all: rewrite (dict_setitem_run d AddictDict ds k _ w Hd), alist_set_same, insert_id by done;
    by rewrite set_heap_heap.
Qed.

(** [d.update(d)] where [d] holds itself: the loop assigns the plain
    items their own values, until the first item holding [d], where it
    runs [d.update(d)] again, one level deeper. *)
Lemma self_update_loop_raises f d ds w :
  (forall w, heap w !! d = Some (PyDict AddictDict ds) ->
             addict_update f d (VRef d) w = (Exc RecursionError, w)) ->
  heap w !! d = Some (PyDict AddictDict ds) -> NoDup (map fst ds) ->
  forall items, items ⊆ ds -> Forall (scalar_or_self d) items ->
  Exists (fun kv => kv.2 = VRef d) items ->
  mfor items (fun kv => addict_update_item (addict_update f) d kv.1 kv.2) w = (Exc RecursionError, w).
Proof.
  intros Hrec Hd Hnd. induction items as [|[k v] items IH]; intros Hsub Hs Hx;
    [by apply Exists_nil in Hx|].
  apply Forall_cons in Hs as [[Hv|Hv] Hs]; cbn [mfor fst snd] in *; [|subst v];
    assert (alist_lookup k ds = Some _) as Hk by (apply alist_lookup_In; [done|apply Hsub; by left]).
  - rewrite (bind_Ret _ _ _ _ _ (addict_item_self_scalar f d ds k v w Hd Hk Hv)).
    apply IH; [set_solver|done|]. apply Exists_cons in Hx as [Hx|Hx]; [|done].
    cbn in Hx. by subst v.
  - apply bind_Exc. unfold addict_update_item, bind at 1, read_dict at 1. rewrite Hd.
    cbn [dentries]. rewrite Hk. unfold bind, read_dict. rewrite Hd. by apply Hrec.
Qed.

(** A dict [d] all of whose items are plain values or [d] itself, with
    at least one of the latter: [d.update(d)] never returns.  Whatever
    the recursion budget [f], it raises [RecursionError], and the state
    is unchanged. *)
Lemma self_update_raises f : forall w d ds,
  heap w !! d = Some (PyDict AddictDict ds) -> NoDup (map fst ds) ->
  Forall (scalar_or_self d) ds -> Exists (fun kv => kv.2 = VRef d) ds ->
  addict_update f d (VRef d) w = (Exc RecursionError, w).
Proof.
  induction f as [|f IH]; intros w d ds Hd Hnd Hs Hx; [done|]. cbn [addict_update].
  rewrite (bind_Ret _ _ _ _ _ (update_items_ref w d _ Hd)). cbn [dentries].
  apply (self_update_loop_raises f d ds w); [|done..].
  intros w' Hd'. by apply (IH w' d ds).
Qed.

(** addict's [update] with an argument all of whose items are assigned
    stores them into [self] in order, as [dict.update] would. *)
Lemma method_update_assigns f w l es la da :
  heap w !! l = Some (PyDict AddictDict es) -> heap w !! la = Some da ->
  NoDup (map fst (dentries da)) -> Forall (assigns_item es) (dentries da) ->
  method_update (S f) (VRef l) (VRef la) w =
    (Ret tt, set_heap (<[l := PyDict AddictDict (alist_set_all (dentries da) es)]> (heap w)) w).
Proof.
  intros Hl Hla Hnd Hs. unfold method_update, bind at 1, read_dict at 1. rewrite Hl.
  cbn [dkind addict_update]. rewrite (bind_Ret _ _ _ _ _ (update_items_ref w la da Hla)).
  by apply addict_loop_assigns.
Qed.

(** The first-load path up to the merge: the message, [from . import
    config_user] and the evaluation of [config] and
    [config_user.config] change nothing else, so the call is the merge
    of line 151 followed by lines 154-155. *)
Lemma first_load_merge w l ns u :
  lookup_name w "__config_defined__" = Some (VBool false) ->
  lookup_name w "config" = Some (VRef l) ->
  user_module w = Some ns -> alist_lookup "config" ns = Some u ->
  @get_config addict_merge w =
    (method_update py_recursion_limit (VRef l) u ;;
     ((let! ip := is_using_ipython in
       let! cfg' := load_global "config" in
       let! internal := addict_getattr cfg' "internal" in
       addict_setattr internal "ipython" (VBool ip)) ;;
      load_global "config"))
    (set_stdout (stdout w ++ ["First time load of config"])%list w).
Proof.
  intros Hf Hc Hu Hlu. rewrite get_config_flag_false by done.
  set (w0 := set_stdout (stdout w ++ ["First time load of config"])%list w).
  unfold bind at 1. cbn [print modify]. fold w0.
  unfold load_user_config. cbn [merge_update addict_merge].
  assert (import_config_user w0 = (Ret ns, w0)) as E1
    by (unfold import_config_user, bind, gets, ret, w0; cbn; by rewrite Hu).
  assert (load_global "config" w0 = (Ret (VRef l), w0)) as E2
    by (unfold load_global, w0; by rewrite lookup_name_set_stdout, Hc).
  assert (module_getattr ns "config" w0 = (Ret u, w0)) as E3
    by (unfold module_getattr; by rewrite Hlu).
  rewrite !bind_assoc, (bind_Ret _ _ _ _ _ E1). cbn beta.
  rewrite !bind_assoc, (bind_Ret _ _ _ _ _ E2). cbn beta.
  rewrite !bind_assoc, (bind_Ret _ _ _ _ _ E3). cbn beta.
  by rewrite !bind_assoc.
Qed.

(** On the first-load path with an override whose items are all
    assigned, the merge stores them into [config] and the call goes on
    with line 154 in that state. *)
Lemma first_load_assigns w l es ns lu du :
  lookup_name w "__config_defined__" = Some (VBool false) ->
  lookup_name w "config" = Some (VRef l) -> heap w !! l = Some (PyDict AddictDict es) ->
  user_module w = Some ns -> alist_lookup "config" ns = Some (VRef lu) ->
  heap w !! lu = Some du -> NoDup (map fst (dentries du)) -> Forall (assigns_item es) (dentries du) ->
  @get_config addict_merge w =
    ((let! ip := is_using_ipython in
      let! cfg' := load_global "config" in
      let! internal := addict_getattr cfg' "internal" in
      addict_setattr internal "ipython" (VBool ip)) ;;
     load_global "config")
    (set_heap (<[l := PyDict AddictDict (alist_set_all (dentries du) es)]> (heap w))
       (set_stdout (stdout w ++ ["First time load of config"])%list w)).
Proof.
  intros Hf Hc Hl Hu Hlu Hdu Hnd Hs. rewrite (first_load_merge w l ns (VRef lu)) by done.
  set (w0 := set_stdout (stdout w ++ ["First time load of config"])%list w).
  by rewrite (bind_Ret _ _ _ _ _ (method_update_assigns 999 w0 l es lu du Hl Hdu Hnd Hs)).
Qed.

(** Lines 154-155 in a state where [config] is the [Dict] at [l]: the
    probe runs, then [config.internal.ipython] is assigned. *)
Lemma line154_run w l :
  lookup_name w "config" = Some (VRef l) ->
  ((let! ip := is_using_ipython in
    let! cfg' := load_global "config" in
    let! internal := addict_getattr cfg' "internal" in
    addict_setattr internal "ipython" (VBool ip)) ;;
   load_global "config") w =
  ((let! internal := addict_getattr (VRef l) "internal" in
    addict_setattr internal "ipython" (VBool (ipython_bound w))) ;;
   load_global "config") w.
Proof.
  intros Hc. assert (load_global "config" w = (Ret (VRef l), w)) as E
    by (unfold load_global; by rewrite Hc).
  rewrite !bind_assoc, (bind_Ret _ _ _ _ _ (is_using_ipython_run w)). cbn beta.
  rewrite !bind_assoc, (bind_Ret _ _ _ _ _ E). cbn beta. by rewrite !bind_assoc.
Qed.

(** C14: for an override whose items are all scalars, [config.update] with
    addict's method is the builtin [dict.update], in every state: the
    recursive branch is never taken, so the code and the specification's
    one-level reading agree on flat overrides, whatever the fuel. *)
Theorem flat_update_is_dict_update f w l d la da :
  heap w !! l = Some d -> heap w !! la = Some da ->
  Forall (fun kv => scalar kv.2) (dentries da) ->
  method_update (S f) (VRef l) (VRef la) w = shallow_update (VRef l) (VRef la) w.
Proof. apply flat_method_update. Qed.

(** C11: every call of [get_config] on the first-load path (the flag is
    [False], which C4 shows holds for every call without a reload) with a
    flat user override leaves each overridden key of [config] at the
    override's value, whatever a caller assigned there before: keys other
    than [internal] and [ipython], which line 154 may write, hold the
    value of [config_user.config] when the call returns.  So a caller's
    change of an overridden setting never survives a later call, where
    section 8 of the specification says it must. *)
Theorem flat_override_resets_keys w l es ns lu du v w' :
  world_wf w -> lookup_name w "__config_defined__" = Some (VBool false) ->
  lookup_name w "config" = Some (VRef l) -> heap w !! l = Some (PyDict AddictDict es) ->
  user_module w = Some ns -> alist_lookup "config" ns = Some (VRef lu) ->
  heap w !! lu = Some du -> Forall (fun kv => scalar kv.2) (dentries du) ->
  @get_config addict_merge w = (Ret v, w') ->
  forall k x, k ∉ ["internal"; "ipython"] -> alist_lookup k (dentries du) = Some x ->
  dict_get (heap w') l k = Some x.
Proof.
  intros Hw Hf Hc Hl Hu Hlu Hdu Hs Hrun k x Hk Hx.
  pose proof (wf_dict_keys w lu du Hw Hdu) as Hnd.
  rewrite (first_load_assigns w l es ns lu du) in Hrun
    by (done || by eapply Forall_impl; [exact Hs|left]).
  set (w2 := set_heap _ _) in Hrun.
  rewrite (line154_run w2 l) in Hrun by (unfold w2; by rewrite lookup_name_set_heap, lookup_name_set_stdout).
  apply bind_Ret_inv in Hrun as ([] & w1 & Hl1 & Hrun). apply load_global_Ret in Hrun as [-> _].
  rewrite (setattr_path_keeps l "internal" "ipython" _ w2 w1 k) by (set_solver || done).
  unfold dict_get, w2. cbn [heap set_heap]. rewrite lookup_insert_eq. cbn [dentries].
  by apply alist_set_all_lookup.
Qed.

(** ** Overrides that are not mappings *)

(** A value [other.update(arg)] cannot take: not a dict, not an empty
    string, and, for a list of strings, one element not of length two. *)
Definition not_pairs (u : pyval) : Prop :=
  match u with
  | VRef _ => False
  | VStr s => s <> ""
  | VStrList xs => Exists (fun s => String.length s <> 2) xs
  | _ => True
  end.

Lemma str_pairs_fails xs : forall i w,
  Exists (fun s => String.length s <> 2) xs -> exists e, str_pairs i xs w = (Exc e, w).
Proof.
  induction xs as [|s xs IH]; intros i w Hx; [by apply Exists_nil in Hx|].
  apply Exists_cons in Hx. cbn [str_pairs].
  destruct s as [|a [|b []]]; try (eexists; reflexivity).
  destruct Hx as [Hx|Hx]; [done|]. destruct (IH (S i) w Hx) as [e He].
  exists e. unfold bind. by rewrite He.
Qed.

Lemma update_items_fails u w : not_pairs u -> exists e, update_items u w = (Exc e, w).
Proof.
  destruct u as [| | | |[|? ?]| | |]; cbn [not_pairs update_items]; intros Hu;
    try (eexists; reflexivity); [done|by apply str_pairs_fails|done].
Qed.

(** C18: an override that is not a mapping is rejected before anything
    is assigned: on the first-load path, when [config_user.config] is a
    number, [None], a non-empty string or a list of strings with an
    element not of length two, [get_config] raises ([TypeError] or
    [ValueError], from addict's [other.update(arg)]) and the process
    state is the one before the call but for the first-load message;
    [config] keeps every setting. *)
Theorem non_mapping_override_raises w l es ns u :
  lookup_name w "__config_defined__" = Some (VBool false) ->
  lookup_name w "config" = Some (VRef l) -> heap w !! l = Some (PyDict AddictDict es) ->
  user_module w = Some ns -> alist_lookup "config" ns = Some u -> not_pairs u ->
  exists e, @get_config addict_merge w =
    (Exc e, set_stdout (stdout w ++ ["First time load of config"])%list w).
Proof.
  intros Hf Hc Hl Hu Hlu Hnp. rewrite (first_load_merge w l ns u) by done.
  set (w0 := set_stdout (stdout w ++ ["First time load of config"])%list w).
  destruct (update_items_fails u w0 Hnp) as [e He]. exists e.
  assert (method_update py_recursion_limit (VRef l) u w0 = (Exc e, w0)) as E.
  { unfold method_update, bind, read_dict, w0. cbn [heap set_stdout]. rewrite Hl. cbn [dkind].
    unfold py_recursion_limit. cbn [addict_update]. unfold bind. fold w0. by rewrite He. }
  by rewrite (bind_Exc _ _ _ _ _ E).
Qed.
