(* ===== verification/MergeTree.v ===== *)
(** * addict's [update] as a pure merge of trees

    The abstract specification of [config.update(other)]: the settings
    seen as trees (a scalar, or a dict of some class with its ordered
    items), merged key by key; where both sides hold a dict the merge
    recurses (into an addict [Dict]) or assigns the items one level deep
    (into a builtin [dict]), and elsewhere the override's value replaces
    the old one.  A heap is read as a tree by [decode], with a bound on
    the depth; [fp] is the list of objects the tree is made of (its
    footprint).  The refinement theorem shows that the heap code of
    [DictUpdate] computes [deep_merge] on trees whose footprints are
    duplicate-free and disjoint, and that it never runs out of recursion
    depth when the override is less deep than the fuel. *)

From stdpp Require Import base list gmap strings.
From S2P Require Import Prelude PyObjects ConfigDefault DictUpdate.

Open Scope list_scope.

(** ** Trees *)

Inductive ptree :=
| PVal (v : pyval)
| PDict (kind : dict_kind) (items : list (string * ptree)).

(** [decode n h v]: the tree of [v] in [h], if it is at most [n] dicts
    deep and refers to no missing object. *)
Fixpoint decode (n : nat) (h : gmap loc pydict) (v : pyval) : option ptree :=
  match v with
  | VRef l =>
      match n with
      | O => None
      | S n' =>
          d ← h !! l;
          ts ← mapM (fun kv => t ← decode n' h kv.2; Some (kv.1, t)) (dentries d);
          Some (PDict (dkind d) ts)
      end
  | _ => Some (PVal v)
  end.

Definition decode_entries (n : nat) (h : gmap loc pydict) (es : entries) : option (list (string * ptree)) :=
  mapM (fun kv => t ← decode n h kv.2; Some (kv.1, t)) es.

(** [fp n h v]: the objects [decode n h v] reads, in depth-first order. *)
Fixpoint fp (n : nat) (h : gmap loc pydict) (v : pyval) : list loc :=
  match v with
  | VRef l =>
      match n with
      | O => [l]
      | S n' => l :: from_option (fun d => concat (map (fun kv => fp n' h kv.2) (dentries d)))
                                 [] (h !! l)
      end
  | _ => []
  end.

Definition fp_entries (n : nat) (h : gmap loc pydict) (es : entries) : list loc :=
  concat (map (fun kv => fp n h kv.2) es).

(** ** The merge on trees *)

(** [dict.update] on a tree's items: each item assigned in turn. *)
Definition tree_assign (es us : list (string * ptree)) : list (string * ptree) :=
  fold_left (fun acc ku => alist_set ku.1 ku.2 acc) us es.

(** One item [(k, u)] of addict's loop, the recursive merge being [rec]. *)
Definition merge_item (rec : list (string * ptree) -> ptree -> list (string * ptree))
    (acc : list (string * ptree)) (k : string) (u : ptree) : list (string * ptree) :=
  match alist_lookup k acc, u with
  | Some (PDict AddictDict es'), PDict _ _ => alist_set k (PDict AddictDict (rec es' u)) acc
  | Some (PDict BuiltinDict es'), PDict _ us => alist_set k (PDict BuiltinDict (tree_assign es' us)) acc
  | _, _ => alist_set k u acc
  end.

(** [deep_merge es u]: the items of an addict [Dict] holding [es] after
    [update(u)]; structural on the override [u]. *)
Fixpoint deep_merge (es : list (string * ptree)) (u : ptree) {struct u} : list (string * ptree) :=
  match u with
  | PVal _ => es
  | PDict _ us =>
      (fix go (acc us : list (string * ptree)) {struct us} : list (string * ptree) :=
         match us with
         | [] => acc
         | (k, u') :: us' =>
             go (match alist_lookup k acc, u' with
                 | Some (PDict AddictDict es'), PDict _ _ =>
                     alist_set k (PDict AddictDict (deep_merge es' u')) acc
                 | Some (PDict BuiltinDict es'), PDict _ vs =>
                     alist_set k (PDict BuiltinDict (tree_assign es' vs)) acc
                 | _, _ => alist_set k u' acc
                 end) us'
         end) es us
  end.

(** ** Unfolding *)

Lemma deep_merge_dict es k us :
  deep_merge es (PDict k us) = fold_left (fun acc ku => merge_item deep_merge acc ku.1 ku.2) us es.
Proof. revert es. induction us as [|[k' u] us IH]; intros es; [done|]. apply IH. Qed.

Lemma decode_ref n h l :
  decode (S n) h (VRef l) = d ← h !! l; ts ← decode_entries n h (dentries d); Some (PDict (dkind d) ts).
Proof. done. Qed.

Lemma decode_scalar n h v :
  match v with VRef _ => False | _ => True end -> decode n h v = Some (PVal v).
Proof. destruct v, n; done. Qed.

Lemma fp_scalar n h v : match v with VRef _ => False | _ => True end -> fp n h v = [].
Proof. destruct v, n; done. Qed.

Lemma fp_ref n h l :
  fp (S n) h (VRef l) = l :: from_option (fun d => fp_entries n h (dentries d)) [] (h !! l).
Proof. done. Qed.

Lemma decode_entries_cons n h k v es :
  decode_entries n h ((k, v) :: es) =
    t ← decode n h v; ts ← decode_entries n h es; Some ((k, t) :: ts).
Proof. unfold decode_entries. simpl. by destruct (decode n h v). Qed.

Lemma decode_entries_app n h es1 es2 :
  decode_entries n h (es1 ++ es2) =
    ts1 ← decode_entries n h es1; ts2 ← decode_entries n h es2; Some (ts1 ++ ts2).
Proof.
  induction es1 as [|[k v] es1 IH]; cbn [app]; [by destruct (decode_entries n h es2)|].
  rewrite !decode_entries_cons, IH.
  destruct (decode n h v), (decode_entries n h es1), (decode_entries n h es2); done.
Qed.

Lemma fp_entries_cons n h k v es :
  fp_entries n h ((k, v) :: es) = fp n h v ++ fp_entries n h es.
Proof. done. Qed.

Lemma fp_entries_app n h es1 es2 :
  fp_entries n h (es1 ++ es2) = fp_entries n h es1 ++ fp_entries n h es2.
Proof. unfold fp_entries. by rewrite map_app, concat_app. Qed.

#[export] Hint Rewrite decode_entries_cons decode_entries_app fp_entries_cons
  fp_entries_app : pym.

(** ** Frames: a tree is unchanged by writes outside its footprint *)

(** [h'] agrees with [h] outside the objects [W]. *)
Definition agree_out (W : list loc) (h h' : gmap loc pydict) : Prop :=
  forall x, x ∉ W -> h' !! x = h !! x.

Lemma entries_frame_of n h h' es :
  (forall v, (forall x, x ∈ fp n h v -> h' !! x = h !! x) ->
        decode n h' v = decode n h v /\ fp n h' v = fp n h v) ->
  (forall x, x ∈ fp_entries n h es -> h' !! x = h !! x) ->
  decode_entries n h' es = decode_entries n h es /\ fp_entries n h' es = fp_entries n h es.
Proof.
  intros Hv. induction es as [|[k v] es IH]; intros Hag; [done|].
  rewrite !decode_entries_cons, !fp_entries_cons in *.
  destruct (Hv v) as [-> ->]; [intros x Hx; apply Hag, elem_of_app; by left|].
  destruct IH as [-> ->]; [intros x Hx; apply Hag, elem_of_app; by right|]. done.
Qed.

Lemma decode_frame n h h' v :
  (forall x, x ∈ fp n h v -> h' !! x = h !! x) ->
  decode n h' v = decode n h v /\ fp n h' v = fp n h v.
Proof.
  revert v. induction n as [|n IH]; intros v Hag; [by destruct v|].
  destruct v as [| | | | | | |l]; try done.
  assert (h' !! l = h !! l) as Hl by (apply Hag; rewrite fp_ref; set_solver).
  rewrite !decode_ref, !fp_ref, Hl. destruct (h !! l) as [d|] eqn:Hd; [|done]. simpl.
  destruct (entries_frame_of n h h' (dentries d) IH) as [-> ->]; [|done].
  intros x Hx. apply Hag. rewrite fp_ref, Hd. simpl. set_solver.
Qed.

Lemma entries_frame n h h' es :
  (forall x, x ∈ fp_entries n h es -> h' !! x = h !! x) ->
  decode_entries n h' es = decode_entries n h es /\ fp_entries n h' es = fp_entries n h es.
Proof. apply entries_frame_of. intros v. apply decode_frame. Qed.

Lemma decode_frame_out W n h h' v :
  agree_out W h h' -> (forall x, x ∈ fp n h v -> x ∉ W) ->
  decode n h' v = decode n h v /\ fp n h' v = fp n h v.
Proof. intros Ha Hd. apply decode_frame. intros x Hx. by apply Ha, Hd. Qed.

Lemma entries_frame_out W n h h' es :
  agree_out W h h' -> (forall x, x ∈ fp_entries n h es -> x ∉ W) ->
  decode_entries n h' es = decode_entries n h es /\ fp_entries n h' es = fp_entries n h es.
Proof. intros Ha Hd. apply entries_frame. intros x Hx. by apply Ha, Hd. Qed.

(** A tree's footprint is allocated. *)
Lemma decode_fp_alloc n h v t : decode n h v = Some t -> forall x, x ∈ fp n h v -> is_Some (h !! x).
Proof.
  revert v t. induction n as [|n IH]; intros v t Hd x Hx.
  { destruct v; try discriminate Hd; rewrite fp_scalar in Hx by exact I; set_solver. }
  destruct v as [| | | | | | |l]; try (rewrite fp_scalar in Hx by exact I; set_solver).
  rewrite decode_ref in Hd. rewrite fp_ref in Hx. destruct (h !! l) as [d|] eqn:Hl; [|done].
  apply elem_of_cons in Hx as [->|Hx]; [by eexists|]. simpl in Hd, Hx.
  destruct (decode_entries n h (dentries d)) as [ts|] eqn:Hts; [|done]. clear Hd.
  revert ts Hts Hx. induction (dentries d) as [|[k v] es IHes]; intros ts Hts Hx; [set_solver|].
  rewrite decode_entries_cons in Hts. rewrite fp_entries_cons in Hx.
  destruct (decode n h v) as [tv|] eqn:Hv; [|done]. simpl in Hts.
  destruct (decode_entries n h es) as [ts'|]; [|done].
  apply elem_of_app in Hx as [Hx|Hx]; [by eapply IH|by eapply IHes].
Qed.

(** A tree is unchanged when the heap grows. *)
Lemma decode_mono n h h' v t :
  h ⊆ h' -> decode n h v = Some t -> decode n h' v = Some t /\ fp n h' v = fp n h v.
Proof.
  intros Hs Hd. destruct (decode_frame n h h' v) as [-> ->]; [|done].
  intros x Hx. destruct (decode_fp_alloc n h v t Hd x Hx) as [d Hx'].
  rewrite Hx'. by eapply lookup_weaken.
Qed.

(** ** Items and footprints *)

Lemma decode_entries_lookup n h es ts k :
  decode_entries n h es = Some ts -> alist_lookup k ts = alist_lookup k es ≫= decode n h.
Proof.
  revert ts. induction es as [|[k' v] es IH]; intros ts; [by intros [= <-]|].
  rewrite decode_entries_cons. destruct (decode n h v) as [t|] eqn:Ht; [|done]. simpl.
  destruct (decode_entries n h es) as [ts'|] eqn:Hts; [|done]. intros [= <-]. simpl.
  case_decide; [done|]. by apply IH.
Qed.

Lemma decode_entries_set n h es ts k v t :
  decode_entries n h es = Some ts -> decode n h v = Some t ->
  decode_entries n h (alist_set k v es) = Some (alist_set k t ts).
Proof.
  intros Hes Hv. revert ts Hes. induction es as [|[k' v'] es IH]; intros ts.
  - intros [= <-]. cbn [alist_set]. rewrite decode_entries_cons, Hv. done.
  - rewrite decode_entries_cons. destruct (decode n h v') as [t'|] eqn:Ht; [|done].
    cbn [mbind option_bind]. destruct (decode_entries n h es) as [ts'|] eqn:Hts; [|done].
    intros [= <-]. cbn [alist_set]. case_decide; rewrite decode_entries_cons.
    + by rewrite Hv, Hts.
    + by rewrite Ht, (IH ts').
Qed.

Lemma fp_entries_set_incl n h es k v x :
  x ∈ fp_entries n h (alist_set k v es) -> x ∈ fp_entries n h es \/ x ∈ fp n h v.
Proof.
  induction es as [|[k' v'] es IH]; simpl.
  - rewrite fp_entries_cons. set_solver.
  - case_decide; rewrite !fp_entries_cons; [set_solver|].
    intros [Hx|Hx]%elem_of_app; [set_solver|]. destruct (IH Hx); set_solver.
Qed.

Lemma fp_entries_set_nodup n h es k v :
  NoDup (fp_entries n h es ++ fp n h v) -> NoDup (fp_entries n h (alist_set k v es)).
Proof.
  induction es as [|[k' v'] es IH]; simpl; [by rewrite fp_entries_cons, app_nil_r|].
  rewrite fp_entries_cons, <-app_assoc. intros Hnd.
  apply NoDup_app in Hnd as (H1 & H12 & H2). case_decide; rewrite fp_entries_cons.
  - apply NoDup_app in H2 as (H2 & H23 & H3). apply NoDup_app. split_and!; [done| |done].
    intros x Hx Hx'. by apply (H23 x Hx').
  - apply NoDup_app. split_and!; [done| |by apply IH].
    intros x Hx [Hx'|Hx']%fp_entries_set_incl; apply (H12 x Hx); set_solver.
Qed.

(** [child_fp n h es k]: the footprint of the item at [k]. *)
Definition child_fp (n : nat) (h : gmap loc pydict) (es : entries) (k : string) : list loc :=
  from_option (fp n h) [] (alist_lookup k es).

Lemma child_fp_incl n h es k x : x ∈ child_fp n h es k -> x ∈ fp_entries n h es.
Proof.
  unfold child_fp. induction es as [|[k' v] es IH]; simpl; [set_solver|].
  rewrite fp_entries_cons. case_decide; set_solver.
Qed.

Lemma child_fp_disjoint n h es k k' x :
  NoDup (fp_entries n h es) -> k <> k' ->
  x ∈ child_fp n h es k -> x ∉ child_fp n h es k'.
Proof.
  unfold child_fp. induction es as [|[k1 v] es IH]; simpl; [set_solver|].
  rewrite fp_entries_cons. intros (H1 & H12 & H2)%NoDup_app Hne.
  pose proof (child_fp_incl n h es) as Hinc. unfold child_fp in Hinc.
  destruct (decide (k = k1)), (decide (k' = k1)); subst; try done.
  - intros Hx Hx'. by apply (H12 x Hx), (Hinc k').
  - intros Hx Hx'. by apply (H12 x Hx'), (Hinc k).
  - by apply IH.
Qed.

(** The items at keys other than [k] keep their footprints across a step
    that writes [l] and the item at [k] only. *)
Lemma child_fps_frame n h h' es es' l k ks :
  agree_out (l :: child_fp n h es k) h h' ->
  NoDup (l :: fp_entries n h es) -> k ∉ ks ->
  (forall k', k' <> k -> alist_lookup k' es' = alist_lookup k' es) ->
  map (child_fp n h' es') ks = map (child_fp n h es) ks.
Proof.
  intros Hag Hnd Hk Hlk. apply NoDup_cons in Hnd as [Hl Hnd].
  apply map_ext_in. intros k' Hin%list_elem_of_In.
  assert (k' <> k) as Hne by (intros ->; contradiction).
  unfold child_fp. rewrite (Hlk k' Hne). destruct (alist_lookup k' es) as [v'|] eqn:Hv; [|done].
  simpl. apply (decode_frame_out _ n h h' v' Hag). intros x Hx [->|Hx']%elem_of_cons.
  - apply Hl, (child_fp_incl n h es k'). unfold child_fp. by rewrite Hv.
  - apply (child_fp_disjoint n h es k' k x Hnd Hne); [|done]. unfold child_fp. by rewrite Hv.
Qed.

Lemma decode_val_ok n h v t : decode n h v = Some t -> val_ok h v.
Proof.
  intros H. destruct v as [| | | | | | |l]; try exact I. destruct n as [|n]; [discriminate H|].
  rewrite decode_ref in H. simpl. destruct (h !! l); [by eexists|simpl in H; congruence].
Qed.

Lemma concat_child_fp_incl n h es ks x :
  x ∈ concat (map (child_fp n h es) ks) -> x ∈ fp_entries n h es.
Proof.
  induction ks as [|k ks IH]; simpl; [set_solver|].
  intros [Hx|Hx]%elem_of_app; [by eapply child_fp_incl|by apply IH].
Qed.

(** ** Loops over the override's items *)

Section Loop.
Context (n : nat) (l : loc) (body : string -> pyval -> PyM unit)
        (step : list (string * ptree) -> string -> ptree -> list (string * ptree)).

(** One run of the loop body on the object [l]: it returns; it changes
    the items of [l] as [step] changes their trees and keeps the other
    keys' items; it writes [l] and the item at [k] only; the footprint of
    [l] stays duplicate-free and within the old footprint and the
    override's item. *)
Definition step_ok : Prop :=
  forall w kind es acc k v t,
    world_wf w ->
    heap w !! l = Some (PyDict kind es) ->
    decode_entries n (heap w) es = Some acc ->
    decode n (heap w) v = Some t ->
    NoDup (l :: fp_entries n (heap w) es ++ fp n (heap w) v) ->
    exists h' es', body k v w = (Ret tt, set_heap h' w) /\
      h' !! l = Some (PyDict kind es') /\
      decode_entries n h' es' = Some (step acc k t) /\
      (forall k', k' <> k -> alist_lookup k' es' = alist_lookup k' es) /\
      agree_out (l :: child_fp n (heap w) es k) (heap w) h' /\
      NoDup (l :: fp_entries n h' es') /\
      (forall x, x ∈ fp_entries n h' es' -> x ∈ fp_entries n (heap w) es ++ fp n (heap w) v).

Hypothesis Hstep : step_ok.
Hypothesis Hbody_wf :
  forall k v w, world_wf w -> val_ok (heap w) v -> world_wf (run_state (body k v) w).

Lemma mfor_step_ok rest : forall w kind es acc ts,
    world_wf w -> NoDup (map fst rest) ->
    heap w !! l = Some (PyDict kind es) ->
    decode_entries n (heap w) es = Some acc ->
    decode_entries n (heap w) rest = Some ts ->
    NoDup (l :: fp_entries n (heap w) es ++ fp_entries n (heap w) rest) ->
    exists h' es', mfor rest (fun kv => body kv.1 kv.2) w = (Ret tt, set_heap h' w) /\
      h' !! l = Some (PyDict kind es') /\
      decode_entries n h' es' = Some (fold_left (fun a kt => step a kt.1 kt.2) ts acc) /\
      agree_out (l :: concat (map (child_fp n (heap w) es) (map fst rest))) (heap w) h' /\
      NoDup (l :: fp_entries n h' es') /\
      (forall x, x ∈ fp_entries n h' es' ->
                 x ∈ fp_entries n (heap w) es ++ fp_entries n (heap w) rest).
Proof.
  induction rest as [|[k v] rest IH]; intros w kind es acc ts Hw Hkeys Hl Hacc Hts Hnd.
  - injection Hts as <-. exists (heap w), es. rewrite app_nil_r in Hnd.
    split_and!; [by destruct w|done|done|by intros ? ?|done|set_solver].
  - rewrite decode_entries_cons in Hts.
    destruct (decode n (heap w) v) as [t|] eqn:Ht; [|done]. cbn [mbind option_bind] in Hts.
    destruct (decode_entries n (heap w) rest) as [ts'|] eqn:Hts'; [|done]. injection Hts as <-.
    cbn [map fst] in Hkeys. apply NoDup_cons in Hkeys as [Hk Hkeys].
    rewrite fp_entries_cons, app_assoc in Hnd.
    apply (NoDup_app (l :: fp_entries n (heap w) es ++ fp n (heap w) v)) in Hnd
      as (Hnd1 & Hdis & Hrest).
    destruct (Hstep w kind es acc k v t Hw Hl Hacc Ht Hnd1)
      as (h1 & es1 & E1 & Hl1 & Hacc1 & Hlk1 & Hag1 & Hnd1' & Hinc1).
    assert (world_wf (set_heap h1 w)) as Hw1.
    { pose proof (Hbody_wf k v w Hw (decode_val_ok _ _ _ _ Ht)) as X.
      unfold run_state in X. by rewrite E1 in X. }
    destruct (entries_frame_out _ n (heap w) h1 rest Hag1) as [Hrd Hrf].
    { intros x Hx Hx'. apply (Hdis x); [|done]. apply elem_of_cons in Hx' as [->|Hx'];
        [by left|right; apply elem_of_app; left; by eapply child_fp_incl]. }
    destruct (IH (set_heap h1 w) kind es1 (step acc k t) ts' Hw1 Hkeys Hl1 Hacc1)
      as (h2 & es2 & E2 & Hl2 & Hacc2 & Hag2 & Hnd2 & Hinc2); cbn [heap set_heap].
    { by rewrite Hrd. }
    { rewrite Hrf. change (NoDup ((l :: fp_entries n h1 es1) ++ fp_entries n (heap w) rest)).
      apply NoDup_app. split_and!; [done| |done].
      intros x Hx Hr. apply (Hdis x); [|done]. apply elem_of_cons in Hx as [->|Hx]; [by left|].
      right. by apply Hinc1. }
    exists h2, es2. split_and!; [|done|done| |done|].
    + cbn [mfor]. unfold bind. cbn [fst snd]. rewrite E1. by rewrite E2.
    + cbn [heap set_heap] in Hag2. rewrite (child_fps_frame n (heap w) h1 es es1 l k) in Hag2;
        [|done|by apply (NoDup_app (l :: fp_entries n (heap w) es)) in Hnd1 as [? _]|done|done].
      intros x Hx. rewrite Hag2, Hag1; [done|..]; set_solver.
    + intros x Hx. cbn [heap set_heap] in Hinc2. rewrite Hrf in Hinc2.
      apply Hinc2, elem_of_app in Hx as [Hx|Hx]; [apply Hinc1 in Hx|]; rewrite fp_entries_cons;
        set_solver.
Qed.
End Loop.

(** ** The two loop bodies *)

Lemma setitem_step n l w kind es acc k v t :
  heap w !! l = Some (PyDict kind es) ->
  decode_entries n (heap w) es = Some acc ->
  decode n (heap w) v = Some t ->
  NoDup (l :: fp_entries n (heap w) es ++ fp n (heap w) v) ->
  exists h' es', dict_setitem l k v w = (Ret tt, set_heap h' w) /\
    h' !! l = Some (PyDict kind es') /\
    decode_entries n h' es' = Some (alist_set k t acc) /\
    (forall k', k' <> k -> alist_lookup k' es' = alist_lookup k' es) /\
    agree_out (l :: child_fp n (heap w) es k) (heap w) h' /\
    NoDup (l :: fp_entries n h' es') /\
    (forall x, x ∈ fp_entries n h' es' -> x ∈ fp_entries n (heap w) es ++ fp n (heap w) v).
Proof.
  intros Hl Hacc Ht (Hnl & Hnd)%NoDup_cons.
  set (h' := <[l := PyDict kind (alist_set k v es)]> (heap w)).
  assert (agree_out [l] (heap w) h') as Hag
    by (intros x Hx; apply lookup_insert_ne; set_solver).
  destruct (entries_frame_out [l] n (heap w) h' (alist_set k v es) Hag) as [Hd Hf].
  { intros x Hx ->%list_elem_of_singleton. apply Hnl, elem_of_app.
    by apply fp_entries_set_incl in Hx. }
  exists h', (alist_set k v es). split_and!.
  - unfold dict_setitem, bind, read_dict, modify. by rewrite Hl.
  - apply lookup_insert_eq.
  - rewrite Hd. by apply decode_entries_set.
  - intros k' Hk. by apply alist_lookup_set_ne.
  - intros x Hx. apply Hag. set_solver.
  - apply NoDup_cons. rewrite Hf. split; [|by apply fp_entries_set_nodup].
    intros Hx. apply Hnl, elem_of_app. by apply fp_entries_set_incl in Hx.
  - intros x. rewrite Hf. intros Hx. apply elem_of_app. by apply fp_entries_set_incl in Hx.
Qed.

Lemma dict_setitem_step_ok n l : step_ok n l (dict_setitem l) (fun acc k t => alist_set k t acc).
Proof. intros w kind es acc k v t _. apply setitem_step. Qed.

(** ** Updates

    [update_ok n upd merge]: [upd l (VRef la)] on an object [l] whose items
    decode to [acc] and an override [la] whose items decode to [us], with
    duplicate-free, disjoint footprints, returns; afterwards the items of
    [l] decode to [merge acc us]; only [l]'s footprint is written; and the
    new footprint of [l] is duplicate-free and within the old one and the
    override's items. *)
Definition update_ok (n : nat) (upd : loc -> pyval -> PyM unit)
    (merge : list (string * ptree) -> list (string * ptree) -> list (string * ptree)) : Prop :=
  forall w l kind es acc la da us,
    world_wf w ->
    heap w !! l = Some (PyDict kind es) ->
    decode_entries n (heap w) es = Some acc ->
    heap w !! la = Some da ->
    decode_entries n (heap w) (dentries da) = Some us ->
    NoDup (l :: fp_entries n (heap w) es ++ fp_entries n (heap w) (dentries da)) ->
    exists h' es', upd l (VRef la) w = (Ret tt, set_heap h' w) /\
      h' !! l = Some (PyDict kind es') /\
      decode_entries n h' es' = Some (merge acc us) /\
      agree_out (l :: fp_entries n (heap w) es) (heap w) h' /\
      NoDup (l :: fp_entries n h' es') /\
      (forall x, x ∈ fp_entries n h' es' ->
                 x ∈ fp_entries n (heap w) es ++ fp_entries n (heap w) (dentries da)).

Lemma items_update_ok n (body : loc -> string -> pyval -> PyM unit) step :
  (forall l, step_ok n l (body l) step) ->
  (forall l k v w, world_wf w -> val_ok (heap w) v -> world_wf (run_state (body l k v) w)) ->
  update_ok n (fun l arg => let! items := update_items arg in mfor items (fun kv => body l kv.1 kv.2))
    (fun acc us => fold_left (fun a kt => step a kt.1 kt.2) us acc).
Proof.
  intros Hstep Hwf w l kind es acc la da us Hw Hl Hacc Hla Hus Hnd.
  assert (NoDup (map fst (dentries da))) as Hkeys by (apply (wf_heap w Hw la da Hla)).
  destruct (mfor_step_ok n l (body l) step (Hstep l) (Hwf l) (dentries da) w kind es acc us
              Hw Hkeys Hl Hacc Hus Hnd) as (h' & es' & E & Hl' & Hacc' & Hag & Hnd' & Hinc).
  exists h', es'. split_and!; try done.
  - unfold bind at 1. unfold update_items, bind, read_dict, ret. rewrite Hla. exact E.
  - intros x Hx. apply Hag. intros [->|Hx']%elem_of_cons; [by apply Hx; left|].
    apply Hx. right. by eapply concat_child_fp_incl.
Qed.

Lemma dict_update_ok n : update_ok n dict_update tree_assign.
Proof.
  apply (items_update_ok n dict_setitem (fun acc k t => alist_set k t acc)).
  - apply dict_setitem_step_ok.
  - intros l k v w Hw Hv. by apply dict_setitem_wf.
Qed.

(** A step that updates the dict [ls] at key [k] of [l] in place, adding
    objects of [X] to its footprint: the items of [l] decode as before
    except at [k], where the child's new tree is. *)
Lemma child_update_step n l w kind es acc k ls dl X h' es_ls' merged :
  heap w !! l = Some (PyDict kind es) ->
  decode_entries (S n) (heap w) es = Some acc ->
  alist_lookup k es = Some (VRef ls) ->
  heap w !! ls = Some dl ->
  NoDup (l :: fp_entries (S n) (heap w) es ++ X) ->
  h' !! ls = Some (PyDict (dkind dl) es_ls') ->
  decode_entries n h' es_ls' = Some merged ->
  agree_out (ls :: fp_entries n (heap w) (dentries dl)) (heap w) h' ->
  NoDup (ls :: fp_entries n h' es_ls') ->
  (forall x, x ∈ fp_entries n h' es_ls' -> x ∈ fp_entries n (heap w) (dentries dl) ++ X) ->
  h' !! l = Some (PyDict kind es) /\
  decode_entries (S n) h' es = Some (alist_set k (PDict (dkind dl) merged) acc) /\
  agree_out (l :: child_fp (S n) (heap w) es k) (heap w) h' /\
  NoDup (l :: fp_entries (S n) h' es) /\
  (forall x, x ∈ fp_entries (S n) h' es -> x ∈ fp_entries (S n) (heap w) es ++ X).
Proof.
  intros Hl Hacc Hk Hls Hnd Hls' Hm Hag Hnd' Hinc.
  assert (child_fp (S n) (heap w) es k = ls :: fp_entries n (heap w) (dentries dl)) as Hc
    by (unfold child_fp; rewrite Hk; simpl; rewrite Hls; done).
  destruct (alist_lookup_split _ _ _ Hk) as (pre & suf & -> & Hpre).
  set (W := ls :: fp_entries n (heap w) (dentries dl)).
  assert (fp (S n) (heap w) (VRef ls) = W) as HW by (rewrite fp_ref, Hls; done).
  assert (fp (S n) h' (VRef ls) = ls :: fp_entries n h' es_ls') as HW' by (rewrite fp_ref, Hls'; done).
  rewrite fp_entries_app, fp_entries_cons, HW in Hnd.
  rewrite (fp_entries_app (S n) (heap w)), (fp_entries_cons (S n) (heap w)), HW.
  set (P := fp_entries (S n) (heap w) pre) in *. set (Sf := fp_entries (S n) (heap w) suf) in *.
  assert (NoDup (l :: P ++ (W ++ X) ++ Sf)) as Hnd2.
  { eapply NoDup_Permutation_proper; [|exact Hnd]. solve_Permutation. }
  assert (forall x, x ∈ P ++ Sf -> x ∉ W) as Hdis.
  { intros x Hx Hw. apply NoDup_cons in Hnd2 as [_ Hnd2]. apply NoDup_app in Hnd2 as (_ & HPW & Hr).
    apply NoDup_app in Hr as (_ & HWS & _). apply elem_of_app in Hx as [Hx|Hx].
    - apply (HPW x Hx). set_solver.
    - apply (HWS x); [set_solver|done]. }
  destruct (entries_frame_out W (S n) (heap w) h' pre Hag) as [Hdp Hfp];
    [intros x Hx; apply Hdis; set_solver|].
  destruct (entries_frame_out W (S n) (heap w) h' suf Hag) as [Hds Hfs];
    [intros x Hx; apply Hdis; set_solver|].
  rewrite decode_entries_app, decode_entries_cons in Hacc.
  destruct (decode_entries (S n) (heap w) pre) as [accP|] eqn:HaP; [|done].
  destruct (decode (S n) (heap w) (VRef ls)) as [t0|]; [|done].
  destruct (decode_entries (S n) (heap w) suf) as [accS|] eqn:HaS; [|done].
  injection Hacc as <-.
  assert (alist_lookup k accP = None) as HkP by (rewrite (decode_entries_lookup _ _ _ _ k HaP), Hpre; done).
  split_and!.
  - rewrite Hag; [done|]. intros Hw. apply NoDup_cons in Hnd2 as [Hl2 _]. apply Hl2. set_solver.
  - rewrite decode_entries_app, decode_entries_cons, Hdp, Hds, decode_ref, Hls'.
    cbn [mbind option_bind dentries dkind]. rewrite Hm. simpl. by rewrite alist_set_split.
  - rewrite Hc. intros x Hx. apply Hag. set_solver.
  - rewrite fp_entries_app, fp_entries_cons, Hfp, Hfs, HW'.
    apply NoDup_cons in Hnd2 as [Hl2 Hnd2]. apply NoDup_cons. split.
    + intros Hx. apply Hl2. apply elem_of_app in Hx as [Hx|Hx]; [set_solver|].
      apply elem_of_app in Hx as [Hx|Hx]; [|set_solver].
      apply elem_of_cons in Hx as [->|Hx]; [set_solver|]. apply Hinc in Hx. set_solver.
    + eapply NoDup_replace_segment; [exact Hnd2|exact Hnd'|].
      intros x [->|Hx]%elem_of_cons; [set_solver|]. apply Hinc in Hx. set_solver.
  - rewrite fp_entries_app, fp_entries_cons, Hfp, Hfs, HW'. intros x Hx.
    apply elem_of_app in Hx as [Hx|Hx]; [set_solver|].
    apply elem_of_app in Hx as [Hx|Hx]; [|set_solver].
    apply elem_of_cons in Hx as [->|Hx]; [set_solver|]. apply Hinc in Hx. set_solver.
Qed.

Lemma decode_entries_lookup_Some n h es acc k v :
  decode_entries n h es = Some acc -> alist_lookup k es = Some v ->
  exists t, decode n h v = Some t /\ alist_lookup k acc = Some t.
Proof.
  intros Hacc Hk. rewrite (decode_entries_lookup _ _ _ _ k Hacc), Hk. simpl.
  revert acc Hacc. induction es as [|[k' v'] es IH]; intros acc; [done|].
  rewrite decode_entries_cons. simpl in Hk.
  destruct (decode n h v') as [t'|] eqn:Ht'; [|done]. simpl.
  destruct (decode_entries n h es) as [ts|] eqn:Hts; [|done]. intros _.
  case_decide; [injection Hk as <-; by exists t'|]. by apply (IH Hk ts).
Qed.

(** The items of an addict [Dict] after [update] with the items [us]. *)
Definition deep_merge_items (acc us : list (string * ptree)) : list (string * ptree) :=
  fold_left (fun a ku => merge_item deep_merge a ku.1 ku.2) us acc.

(** The footprints of a child dict and of the override's item at the same
    key are duplicate-free and disjoint when those of the parents are. *)
Lemma child_nodup n h l es k ls esl kl la da :
  alist_lookup k es = Some (VRef ls) ->
  h !! ls = Some (PyDict kl esl) -> h !! la = Some da ->
  NoDup (l :: fp_entries (S n) h es ++ fp (S n) h (VRef la)) ->
  NoDup (ls :: fp_entries n h esl ++ fp_entries n h (dentries da)).
Proof.
  intros Hk Hls Hla Hnd. destruct (alist_lookup_split _ _ _ Hk) as (pre & suf & -> & _).
  rewrite fp_entries_app, fp_entries_cons, !fp_ref, Hls, Hla in Hnd. simpl in Hnd.
  assert (NoDup ((ls :: fp_entries n h esl ++ fp_entries n h (dentries da)) ++
                 (l :: la :: fp_entries (S n) h pre ++ fp_entries (S n) h suf))) as H.
  { eapply NoDup_Permutation_proper; [|exact Hnd]. solve_Permutation. }
  by apply NoDup_app in H as [? _].
Qed.

Lemma arg_incl n h la da (E Y : list loc) :
  h !! la = Some da ->
  (forall x, x ∈ Y -> x ∈ E ++ fp_entries n h (dentries da)) ->
  forall x, x ∈ Y -> x ∈ E ++ fp (S n) h (VRef la).
Proof. intros Hla Hinc x Hx. rewrite fp_ref, Hla. simpl. apply Hinc in Hx. set_solver. Qed.

Lemma addict_item_step_ok f n l :
  (forall n', n' < f -> update_ok n' (addict_update f) deep_merge_items) ->
  n < S f ->
  step_ok n l (addict_update_item (addict_update f) l) (merge_item deep_merge).
Proof.
  intros IH Hn w kind es acc k v t Hw Hl Hacc Ht Hnd.
  unfold addict_update_item. unfold bind at 1, read_dict at 1. rewrite Hl. cbn [dentries].
  unfold merge_item.
  destruct (alist_lookup k es) as [v0|] eqn:Hk.
  2:{ rewrite (decode_entries_lookup _ _ _ _ k Hacc), Hk. by apply setitem_step. }
  destruct (decode_entries_lookup_Some _ _ _ _ _ _ Hacc Hk) as (t0 & Ht0 & Hkt). rewrite Hkt.
  destruct v0 as [| | | | | | |ls]; try (rewrite decode_scalar in Ht0 by exact I; injection Ht0 as <-; by apply setitem_step).
  destruct n as [|n]; [discriminate Ht0|]. rewrite decode_ref in Ht0.
  destruct (heap w !! ls) as [[kl esl]|] eqn:Hls; [|discriminate Ht0]. cbn [mbind option_bind dentries dkind] in Ht0.
  destruct (decode_entries n (heap w) esl) as [ts|] eqn:Hts; [|discriminate Ht0]. injection Ht0 as <-.
  destruct v as [| | | | | | |la];
    try (rewrite decode_scalar in Ht by exact I; injection Ht as <-; destruct kl; by apply setitem_step).
  rewrite decode_ref in Ht. destruct (heap w !! la) as [da|] eqn:Hla; [|discriminate Ht].
  cbn [mbind option_bind] in Ht.
  destruct (decode_entries n (heap w) (dentries da)) as [us|] eqn:Hus; [|discriminate Ht]. injection Ht as <-.
  pose proof (child_nodup n (heap w) l es k ls esl kl la da Hk Hls Hla Hnd) as Hnd'.
  unfold bind at 1, read_dict at 1. rewrite Hls. cbn [dkind].
  destruct kl.
  - destruct (IH n ltac:(lia) w ls AddictDict esl ts la da us Hw Hls Hts Hla Hus Hnd')
      as (h' & es' & E & Hls' & Hm & Hag & Hnd2 & Hinc).
    destruct (child_update_step n l w kind es acc k ls (PyDict AddictDict esl) _ h' es' _
                Hl Hacc Hk Hls Hnd Hls' Hm Hag Hnd2 (arg_incl _ _ _ _ _ _ Hla Hinc))
      as (Hl' & Hd & Hag' & Hnd3 & Hinc3).
    exists h', es. rewrite deep_merge_dict. split_and!; done.
  - destruct (dict_update_ok n w ls BuiltinDict esl ts la da us Hw Hls Hts Hla Hus Hnd')
      as (h' & es' & E & Hls' & Hm & Hag & Hnd2 & Hinc).
    destruct (child_update_step n l w kind es acc k ls (PyDict BuiltinDict esl) _ h' es' _
                Hl Hacc Hk Hls Hnd Hls' Hm Hag Hnd2 (arg_incl _ _ _ _ _ _ Hla Hinc))
      as (Hl' & Hd & Hag' & Hnd3 & Hinc3).
    exists h', es. split_and!; done.
Qed.

(** addict's [update] at fuel [fuel] computes [deep_merge_items] on
    trees less than [fuel] dicts deep, and returns. *)
Lemma addict_update_ok fuel : forall n, n < fuel -> update_ok n (addict_update fuel) deep_merge_items.
Proof.
  induction fuel as [|f IH]; intros n Hn; [lia|].
  apply (items_update_ok n (fun l => addict_update_item (addict_update f) l) (merge_item deep_merge)).
  - intros l. by apply addict_item_step_ok.
  - intros l k v w Hw Hv. apply addict_update_item_wf; [|done|done]. intros l' a. apply addict_update_wf.
Qed.

Lemma deep_merge_items_dict acc k us : deep_merge_items acc us = deep_merge acc (PDict k us).
Proof. by rewrite deep_merge_dict. Qed.

(** ** Refinement *)

(** An update meeting [update_ok], read on the trees of its two
    arguments: it returns, the tree of [l] becomes [merge] of the two item
    lists, only [l]'s footprint is written, and the new footprint is
    duplicate-free and within the two old ones. *)
Lemma update_ok_tree n upd merge w l la kl tl ka us :
  update_ok n upd merge -> world_wf w ->
  decode (S n) (heap w) (VRef l) = Some (PDict kl tl) ->
  decode (S n) (heap w) (VRef la) = Some (PDict ka us) ->
  NoDup (fp (S n) (heap w) (VRef l) ++ fp (S n) (heap w) (VRef la)) ->
  exists h', upd l (VRef la) w = (Ret tt, set_heap h' w) /\
    decode (S n) h' (VRef l) = Some (PDict kl (merge tl us)) /\
    agree_out (fp (S n) (heap w) (VRef l)) (heap w) h' /\
    NoDup (fp (S n) h' (VRef l)) /\
    (forall x, x ∈ fp (S n) h' (VRef l) ->
               x ∈ fp (S n) (heap w) (VRef l) ++ fp (S n) (heap w) (VRef la)).
Proof.
  intros Hupd Hw Hl Ha Hnd. rewrite decode_ref in Hl, Ha.
  destruct (heap w !! l) as [[kl' es]|] eqn:Hhl; [|done]. cbn [mbind option_bind dentries dkind] in Hl.
  destruct (decode_entries n (heap w) es) as [acc|] eqn:Hacc; [|done].
  injection Hl as Hk Htl. subst kl' acc.
  destruct (heap w !! la) as [da|] eqn:Hhla; [|done]. cbn [mbind option_bind] in Ha.
  destruct (decode_entries n (heap w) (dentries da)) as [us'|] eqn:Hus; [|done].
  injection Ha as _ Hu. subst us'.
  rewrite !fp_ref, Hhl, Hhla in Hnd. simpl in Hnd.
  assert (NoDup ((l :: fp_entries n (heap w) es ++ fp_entries n (heap w) (dentries da)) ++ [la]))
    as Hnd' by (eapply NoDup_Permutation_proper; [|exact Hnd]; solve_Permutation).
  apply NoDup_app in Hnd' as [Hnd' _].
  destruct (Hupd w l kl es tl la da us Hw Hhl Hacc Hhla Hus Hnd')
    as (h' & es' & E & Hl' & Hm & Hag & Hnd2 & Hinc).
  exists h'. split_and!; [done| | | |].
  - rewrite decode_ref, Hl'. simpl. by rewrite Hm.
  - rewrite fp_ref, Hhl. exact Hag.
  - rewrite fp_ref, Hl'. exact Hnd2.
  - rewrite !fp_ref, Hl', Hhl, Hhla. simpl.
    intros x [->|Hx]%elem_of_cons; [set_solver|]. apply Hinc in Hx. set_solver.
Qed.

(** [config.update(other)] on an addict [Dict] [l] and a dict [la] whose
    trees are at most [S n] deep, with [n] below the recursion limit, and
    whose footprints are duplicate-free and disjoint: the call returns, the
    tree of [l] becomes [deep_merge] of the two trees, only objects of
    [l]'s old footprint are written, and nothing but the heap changes. *)
Lemma method_update_tree n w l la tl ta :
  n < py_recursion_limit -> world_wf w ->
  decode (S n) (heap w) (VRef l) = Some (PDict AddictDict tl) ->
  decode (S n) (heap w) (VRef la) = Some ta ->
  NoDup (fp (S n) (heap w) (VRef l) ++ fp (S n) (heap w) (VRef la)) ->
  exists h', method_update py_recursion_limit (VRef l) (VRef la) w = (Ret tt, set_heap h' w) /\
    decode (S n) h' (VRef l) = Some (PDict AddictDict (deep_merge tl ta)) /\
    agree_out (fp (S n) (heap w) (VRef l)) (heap w) h' /\
    NoDup (fp (S n) h' (VRef l)) /\
    (forall x, x ∈ fp (S n) h' (VRef l) ->
               x ∈ fp (S n) (heap w) (VRef l) ++ fp (S n) (heap w) (VRef la)).
Proof.
  intros Hn Hw Hl Ha Hnd.
  assert (exists ka us, ta = PDict ka us) as (ka & us & ->).
  { rewrite decode_ref in Ha. destruct (heap w !! la); [|done]. simpl in Ha.
    destruct (decode_entries _ _ _); [|done]. injection Ha as <-. by eexists _, _. }
  rewrite <-(deep_merge_items_dict _ ka).
  destruct (update_ok_tree n _ _ w l la AddictDict tl ka us (addict_update_ok _ n Hn) Hw Hl Ha Hnd)
    as (h' & E & Hrest). exists h'. split; [|exact Hrest].
  unfold method_update, bind at 1, read_dict at 1. rewrite decode_ref in Hl.
  destruct (heap w !! l) as [[kl es]|]; [|done]. simpl in Hl |- *.
  destruct (decode_entries _ _ _); [|done]. injection Hl as -> _. exact E.
Qed.

(** ** Properties of the merge *)

Lemma merge_item_is_set rec es k u : exists x, merge_item rec es k u = alist_set k x es.
Proof.
  unfold merge_item. destruct (alist_lookup k es) as [[|[] ?]|], u; eexists; done.
Qed.

(** Keys the override does not mention keep their trees. *)
Lemma deep_merge_items_other acc us k :
  k ∉ map fst us -> alist_lookup k (deep_merge_items acc us) = alist_lookup k acc.
Proof.
  unfold deep_merge_items. revert acc. induction us as [|[k' u] us IH]; intros acc Hk; [done|].
  cbn [fold_left fst snd map] in *. rewrite elem_of_cons in Hk.
  rewrite IH by tauto. destruct (merge_item_is_set deep_merge acc k' u) as [x ->].
  apply alist_lookup_set_ne. intros ->. tauto.
Qed.

(** A scalar of the override replaces the old value at its key, when the
    override's keys are distinct. *)
Lemma deep_merge_items_scalar acc us k v :
  NoDup (map fst us) -> alist_lookup k us = Some (PVal v) ->
  alist_lookup k (deep_merge_items acc us) = Some (PVal v).
Proof.
  unfold deep_merge_items. revert acc. induction us as [|[k' u] us IH]; intros acc Hnd Hk; [done|].
  cbn [fold_left fst snd map alist_lookup] in *. apply NoDup_cons in Hnd as [Hk' Hnd].
  case_decide as Hkk.
  - subst k'. injection Hk as ->.
    assert (merge_item deep_merge acc k (PVal v) = alist_set k (PVal v) acc) as ->
      by (unfold merge_item; by destruct (alist_lookup k acc) as [[|[] ?]|]).
    fold (deep_merge_items (alist_set k (PVal v) acc) us).
    rewrite deep_merge_items_other by done. apply alist_lookup_set_eq.
  - by apply IH.
Qed.

Lemma decode_entries_keys n h es ts :
  decode_entries n h es = Some ts -> map fst ts = map fst es.
Proof.
  revert ts. induction es as [|[k v] es IH]; intros ts; [by intros [= <-]|].
  rewrite decode_entries_cons. destruct (decode n h v); [|done]. simpl.
  destruct (decode_entries n h es) eqn:E; [|done]. intros [= <-]. simpl. by rewrite (IH _ eq_refl).
Qed.

(** The override's keys are distinct: its dict is well formed. *)
Lemma decode_override_keys n w la ka us :
  world_wf w -> decode (S n) (heap w) (VRef la) = Some (PDict ka us) -> NoDup (map fst us).
Proof.
  intros Hw Ha. rewrite decode_ref in Ha. destruct (heap w !! la) as [da|] eqn:Hla; [|done].
  cbn [mbind option_bind] in Ha. destruct (decode_entries n (heap w) (dentries da)) as [us'|] eqn:Hus;
    [|done]. injection Ha as _ <-. rewrite (decode_entries_keys _ _ _ _ Hus).
  apply (wf_heap w Hw la da Hla).
Qed.

(** ** The merge's contract on the code *)

(** C2: [config.update(other)] on trees less deep than the recursion
    limit, with disjoint duplicate-free footprints, returns (it never
    raises [RecursionError]), and every key of [config] that [other] does
    not mention keeps its tree: partial overrides leave the rest of the
    settings alone. *)
Theorem update_keeps_other_keys n w l la tl ka us k :
  n < py_recursion_limit -> world_wf w ->
  decode (S n) (heap w) (VRef l) = Some (PDict AddictDict tl) ->
  decode (S n) (heap w) (VRef la) = Some (PDict ka us) ->
  NoDup (fp (S n) (heap w) (VRef l) ++ fp (S n) (heap w) (VRef la)) ->
  k ∉ map fst us ->
  exists h' tl', method_update py_recursion_limit (VRef l) (VRef la) w = (Ret tt, set_heap h' w) /\
    decode (S n) h' (VRef l) = Some (PDict AddictDict tl') /\
    alist_lookup k tl' = alist_lookup k tl.
Proof.
  intros Hn Hw Hl Ha Hnd Hk.
  destruct (method_update_tree n w l la tl _ Hn Hw Hl Ha Hnd) as (h' & E & Hd & _).
  exists h', (deep_merge tl (PDict ka us)). split_and!; [done|done|].
  rewrite <-deep_merge_items_dict. by apply deep_merge_items_other.
Qed.

(** C3: under the same conditions, a scalar that [other] gives for a key
    replaces the old value of that key, whatever it was (a scalar or a
    whole section): the override's scalars win. *)
Theorem update_scalar_wins n w l la tl ka us k v :
  n < py_recursion_limit -> world_wf w ->
  decode (S n) (heap w) (VRef l) = Some (PDict AddictDict tl) ->
  decode (S n) (heap w) (VRef la) = Some (PDict ka us) ->
  NoDup (fp (S n) (heap w) (VRef l) ++ fp (S n) (heap w) (VRef la)) ->
  alist_lookup k us = Some (PVal v) ->
  exists h' tl', method_update py_recursion_limit (VRef l) (VRef la) w = (Ret tt, set_heap h' w) /\
    decode (S n) h' (VRef l) = Some (PDict AddictDict tl') /\
    alist_lookup k tl' = Some (PVal v).
Proof.
  intros Hn Hw Hl Ha Hnd Hk.
  destruct (method_update_tree n w l la tl _ Hn Hw Hl Ha Hnd) as (h' & E & Hd & _).
  exists h', (deep_merge tl (PDict ka us)). split_and!; [done|done|].
  rewrite <-deep_merge_items_dict. apply deep_merge_items_scalar; [|done].
  exact (decode_override_keys n w la ka us Hw Ha).
Qed.

(** The specification's reading of line 151, a one-level
    [dict.update], assigns each item of [other] in turn: the tree of
    [config] becomes [tree_assign], where a whole section given by the
    override replaces the default section. *)
Theorem shallow_update_refines n w l la kl tl ka us :
  world_wf w ->
  decode (S n) (heap w) (VRef l) = Some (PDict kl tl) ->
  decode (S n) (heap w) (VRef la) = Some (PDict ka us) ->
  NoDup (fp (S n) (heap w) (VRef l) ++ fp (S n) (heap w) (VRef la)) ->
  exists h', shallow_update (VRef l) (VRef la) w = (Ret tt, set_heap h' w) /\
    decode (S n) h' (VRef l) = Some (PDict kl (tree_assign tl us)).
Proof.
  intros Hw Hl Ha Hnd.
  destruct (update_ok_tree n _ _ w l la kl tl ka us (dict_update_ok n) Hw Hl Ha Hnd)
    as (h' & E & Hd & _). by exists h'.
Qed.
