(* ===== verification/Session.v ===== *)
(** * Sessions: the module as the rest of a process sees it

    A process imports [pyEPR._config_default], calls [get_config], writes
    settings into the shared [config] object ([config.k = v],
    [config.section.k = v]) and may reload the module.  [run_op] runs one
    such operation; [reachable P w0 w] holds when [w] is reached from
    [w0] by operations satisfying [P] (an exception ends the operation,
    not the process).  The invariants of this file are proved by
    induction on [reachable]. *)

From stdpp Require Import base list gmap strings.
From S2P Require Import Prelude PyObjects Defaults Probe ConfigDefault.

Open Scope string_scope.

Inductive op :=
| OpImport                                    (** import pyEPR._config_default *)
| OpReload                                    (** importlib.reload(...) *)
| OpGetConfig                                 (** get_config() *)
| OpSetTop (k : string) (v : pyval)           (** config.k = v *)
| OpSetIn (section k : string) (v : pyval).   (** config.section.k = v *)

(** A caller's [config.k = v]. *)
Definition caller_set_top (k : string) (v : pyval) : PyM unit :=
  let! cfg := load_global "config" in
  addict_setattr (AttrVal cfg) k v.

(** A caller's [config.section.k = v]. *)
Definition caller_set_in (section k : string) (v : pyval) : PyM unit :=
  let! cfg := load_global "config" in
  let! t := addict_getattr cfg section in
  addict_setattr t k v.

(** A caller's read [config.section.k]: [Some x] when the item is
    there; [None] stands for the empty child [Dict] that addict's
    [__missing__] returns for an absent attribute (the model does not
    allocate it, since a read stores nothing). *)
Definition caller_get_in (section k : string) : PyM (option pyval) :=
  let! cfg := load_global "config" in
  let! t := addict_getattr cfg section in
  match t with
  | AttrVal o =>
      let! r := addict_getattr o k in
      ret (match r with AttrVal x => Some x | AttrMissing _ _ => None end)
  | AttrMissing _ _ => ret None
  end.

(** Callers store plain values. *)
Definition op_ok (o : op) : Prop :=
  match o with
  | OpSetTop _ v | OpSetIn _ _ v => scalar v
  | _ => True
  end.

Section Session.
Context `{CM : !ConfigMerge}.

Definition run_op (o : op) : PyM unit :=
  match o with
  | OpImport => import_module
  | OpReload => reload_module
  | OpGetConfig => let! _ := get_config in ret tt
  | OpSetTop k v => caller_set_top k v
  | OpSetIn s k v => caller_set_in s k v
  end.

Fixpoint run_ops (os : list op) (w : world) : world :=
  match os with
  | [] => w
  | o :: os' => run_ops os' (run_state (run_op o) w)
  end.

Inductive reachable (P : op -> Prop) (w0 : world) : world -> Prop :=
| reach_refl : reachable P w0 w0
| reach_step w o :
    reachable P w0 w -> P o -> op_ok o -> reachable P w0 (run_state (run_op o) w).
End Session.

(** ** Per-operation facts *)

Lemma caller_set_top_inv (R : relation world) `{!PreOrder R} k v :
  (forall t, guar R (addict_setattr t k v)) -> guar R (caller_set_top k v).
Proof. intros Hs. unfold caller_set_top. prim_guar. Qed.

Lemma caller_set_in_inv (R : relation world) `{!PreOrder R} s k v :
  (forall t, guar R (addict_setattr t k v)) -> guar R (caller_set_in s k v).
Proof. intros Hs. unfold caller_set_in. prim_guar. Qed.

(** C15: a caller's assignment [config.section.k = v] and the read
    [config.section.k] after it are a round trip: the read finds [v],
    whether [section] was an existing [Dict] or was missing, in which
    case addict's [__missing__] child has been inserted by the
    assignment; the read changes nothing.  The section's name differs
    from the key: when [config[k]] is [config] itself, [config.k.k = v]
    overwrites the item the read goes through. *)
Theorem caller_set_get_in s k v w w' :
  s <> k -> caller_set_in s k v w = (Ret tt, w') -> caller_get_in s k w' = (Ret (Some v), w').
Proof.
  intros Hne H. unfold caller_set_in in H. apply bind_Ret_inv in H as (cfg & w1 & Hg & H).
  apply load_global_Ret in Hg as [-> Hc].
  assert (same_names w w') as Hn by (eapply guar_step; [|exact H]; prim_guar).
  destruct (setattr_path_addict cfg s k v w w' Hne H) as (l & li & -> & H1 & H2 & K1 & K2).
  unfold caller_get_in, bind at 1, load_global. rewrite (lookup_name_same_names w w' _ Hn), Hc.
  unfold bind at 1. rewrite (addict_getattr_present l s (VRef li) w' K1 H1).
  unfold bind. by rewrite (addict_getattr_present li k v w' K2 H2).
Qed.

(** The operations that do not run the module body. *)
Definition body_free (o : op) : Prop :=
  match o with OpImport | OpReload => False | _ => True end.

Lemma exec_module_body_run w :
  exists l, run_out exec_module_body w = Ret tt /\
    let w' := run_state exec_module_body w in
    (world_wf w -> world_wf w') /\
    lookup_name w' "__config_defined__" =
      Some (VBool (alist_mem "config" (default [] (globals w)))) /\
    lookup_name w' "config" = Some (VRef l) /\
    is_default_config (heap w') (VRef l) /\ heap w ⊆ heap w' /\ heap w !! l = None /\
    default_objects_fresh (heap w) (heap w') (VRef l) /\ globals w' <> None.
Proof.
  destruct (exec_module_body_spec w)
    as (l & w' & E & Hwf & Hf & Hc & Hd & Hs & Hl & Hfr & _ & _ & _ & Hg).
  exists l. unfold run_out, run_state. rewrite E. simpl. by split_and!.
Qed.

Lemma import_module_imported w ns :
  globals w = Some ns -> run_state import_module w = w.
Proof. intros Hg. unfold run_state, import_module, bind, gets. by rewrite Hg. Qed.

Lemma import_module_fresh w :
  globals w = None -> run_state import_module w =
    run_state exec_module_body (set_globals (Some fresh_module_ns) w).
Proof. intros Hg. unfold run_state, import_module, bind, gets, modify. by rewrite Hg. Qed.

Lemma reload_module_imported w ns :
  globals w = Some ns -> run_state reload_module w = run_state exec_module_body w.
Proof. intros Hg. unfold run_state, reload_module, bind, gets. by rewrite Hg. Qed.

Lemma reload_module_fresh w :
  globals w = None -> run_state reload_module w = w.
Proof. intros Hg. unfold run_state, reload_module, bind, gets, raise. by rewrite Hg. Qed.

Section SessionFacts.
Context `{CM : !ConfigMerge}.

Lemma run_op_body_free_guar (R : relation world) `{!PreOrder R} o :
  body_free o -> op_ok o ->
  guar R get_config -> (forall t k v, scalar v -> guar R (addict_setattr t k v)) ->
  guar R (run_op o).
Proof.
  intros Hb Hok Hg Hs. destruct o; simpl in *; try done.
  - prim_guar.
  - apply caller_set_top_inv; auto.
  - apply caller_set_in_inv; auto.
Qed.

Lemma run_op_body_free_names o :
  body_free o -> op_ok o -> guar same_names (run_op o).
Proof.
  intros Hb Hok. apply run_op_body_free_guar; [typeclasses eauto|done|done| |].
  - apply get_config_names.
  - intros. apply addict_setattr_names.
Qed.

Lemma run_op_body_free_grows o :
  body_free o -> op_ok o -> guar heap_grows (run_op o).
Proof.
  intros Hb Hok. apply run_op_body_free_guar; [typeclasses eauto|done|done| |].
  - apply get_config_grows.
  - intros. apply addict_setattr_grows.
Qed.

(** Rule induction over sessions. *)
Lemma reachable_inv (P : op -> Prop) (I : world -> Prop) w0 :
  I w0 -> (forall o w, P o -> op_ok o -> I w -> I (run_state (run_op o) w)) ->
  forall w, reachable P w0 w -> I w.
Proof. intros H0 Hstep w Hr. induction Hr; eauto. Qed.
End SessionFacts.

(** ** Invariants of sessions *)

Lemma fresh_module_wf w :
  world_wf w -> world_wf (set_globals (Some fresh_module_ns) w).
Proof.
  intros [Hh Hg Hb Hu]. split; try done. split.
  - apply NoDup_singleton.
  - by repeat constructor.
Qed.

(** Both objects of the module hold the six section keys. *)
Definition config_sections (w : world) : Prop :=
  globals w <> None ->
  exists l d, lookup_name w "config" = Some (VRef l) /\ heap w !! l = Some d /\
    dkind d = AddictDict /\ config_keys ⊆ alist_keys (dentries d).

Lemma default_config_sections w l :
  lookup_name w "config" = Some (VRef l) -> is_default_config (heap w) (VRef l) ->
  config_sections w.
Proof.
  intros Hc (l' & la & ld & lp & li & ll & [= <-] & _ & Hl & _) _.
  eexists _, _. split_and!; [exact Hc|exact Hl|done|done].
Qed.

Lemma config_sections_keep w w' :
  config_sections w -> same_names w w' -> heap_grows w w' -> config_sections w'.
Proof.
  intros Hs Hn Hg Hw'. destruct Hn as (Hgl & Hb & Hu).
  destruct Hs as (l & d & Hc & Hl & Hk & Hkeys); [by rewrite <-Hgl|].
  destruct (Hg l d Hl) as (d' & Hl' & Hk' & Hs').
  exists l, d'. split_and!; [|done|congruence|set_solver].
  by rewrite (lookup_name_same_names w w') by done.
Qed.

(** Whether the module is not imported or its flag is [False]. *)
Definition flag_false (w : world) : Prop :=
  globals w = None \/ lookup_name w "__config_defined__" = Some (VBool false).

Section Invariants.
Context `{CM : !ConfigMerge}.

(** With the flag [True], a call prints its notice and returns [config],
    changing nothing else. *)
Lemma get_config_defined w v :
  lookup_name w "__config_defined__" = Some (VBool true) -> lookup_name w "config" = Some v ->
  get_config w = (Ret v, set_stdout (stdout w ++ ["Config is already defined."])%list w).
Proof. intros Hf Hc. rewrite get_config_flag_true by done. by apply print_then_load_global. Qed.

(** C10: the first import of the module runs its body in a fresh
    namespace: [__config_defined__] is [False] ([config] was not yet a
    global), and [config] is bound to a new [Dict] holding the six
    default sections with the values of the source; a well-formed
    process stays well formed. *)
Theorem import_binds_defaults w :
  globals w = None ->
  let w' := run_state (run_op OpImport) w in
  lookup_name w' "__config_defined__" = Some (VBool false) /\
  exists l, lookup_name w' "config" = Some (VRef l) /\
    is_default_config (heap w') (VRef l) /\ heap w !! l = None /\
    (world_wf w -> world_wf w').
Proof.
  intros Hg w'. subst w'. simpl run_op. rewrite (import_module_fresh w Hg).
  destruct (exec_module_body_run (set_globals (Some fresh_module_ns) w))
    as (l & _ & Hwf & Hflag & Hc & Hd & _ & Hl & _).
  split; [exact Hflag|]. exists l. split_and!; [done|done|done|].
  intros Hw. by apply Hwf, fresh_module_wf.
Qed.

Lemma run_op_wf o w : op_ok o -> world_wf w -> world_wf (run_state (run_op o) w).
Proof.
  intros Hok Hw. destruct o;
    try (refine (run_op_body_free_guar (inv_rel world_wf) _ _ Hok get_config_wf
                   (fun t k v Hs => addict_setattr_wf t k v Hs) w Hw); exact I);
    simpl run_op.
  - destruct (globals w) as [ns|] eqn:Hg.
    + by rewrite (import_module_imported w ns Hg).
    + rewrite (import_module_fresh w Hg).
      destruct (exec_module_body_run (set_globals (Some fresh_module_ns) w)) as (l & _ & Hwf & _).
      by apply Hwf, fresh_module_wf.
  - destruct (globals w) as [ns|] eqn:Hg.
    + rewrite (reload_module_imported w ns Hg).
      destruct (exec_module_body_run w) as (l & _ & Hwf & _). by apply Hwf.
    + by rewrite (reload_module_fresh w Hg).
Qed.

(** Every state a session reaches from a well-formed state is well
    formed: no dict has a repeated key and no reference dangles. *)
Lemma session_wf (P : op -> Prop) w0 w :
  world_wf w0 -> reachable P w0 w -> world_wf w.
Proof. intros H0. apply reachable_inv; [done|]. intros o w' _ Hok. by apply run_op_wf. Qed.

Lemma run_op_sections o w :
  op_ok o -> config_sections w -> config_sections (run_state (run_op o) w).
Proof.
  intros Hok Hs. destruct o;
    try (eapply config_sections_keep; [done|apply run_op_body_free_names|
                                       apply run_op_body_free_grows]; done);
    simpl run_op.
  - destruct (globals w) as [ns|] eqn:Hg.
    + by rewrite (import_module_imported w ns Hg).
    + rewrite (import_module_fresh w Hg).
      destruct (exec_module_body_run (set_globals (Some fresh_module_ns) w))
        as (l & _ & _ & _ & Hc & Hd & _). by eapply default_config_sections.
  - destruct (globals w) as [ns|] eqn:Hg.
    + rewrite (reload_module_imported w ns Hg).
      destruct (exec_module_body_run w) as (l & _ & _ & _ & Hc & Hd & _).
      by eapply default_config_sections.
    + by rewrite (reload_module_fresh w Hg).
Qed.

(** C9: in every state a session reaches from one where the invariant
    holds (for instance any state before the import), once the module
    is imported the global [config] is an [addict.Dict] holding the keys
    [root_dir], [ansys], [dissipation], [plotting], [internal] and
    [log]: nothing the accessor, the user's overrides, a caller's
    assignment or a reload does removes one of them. *)
Theorem session_sections (P : op -> Prop) w0 w :
  config_sections w0 -> reachable P w0 w -> config_sections w.
Proof. intros H0. apply reachable_inv; [done|]. intros o w' _ Hok. by apply run_op_sections. Qed.

(** C13: the type of [get_config]'s result: in every state a session
    reaches from one where the invariant holds, once the module is
    imported, whatever [get_config] returns is a reference to an
    [addict.Dict] that, in the state after the call, holds the six
    section keys: the accessor never returns [None], a builtin [dict] or
    a dict that lost a section. *)
Theorem get_config_returns_dict (P : op -> Prop) w0 w v w' :
  config_sections w0 -> reachable P w0 w -> globals w <> None ->
  get_config w = (Ret v, w') ->
  exists l d, v = VRef l /\ heap w' !! l = Some d /\ dkind d = AddictDict /\
    config_keys ⊆ alist_keys (dentries d).
Proof.
  intros H0 Hr Hg Hrun.
  assert (config_sections w) as Hs.
  { revert Hr. apply reachable_inv; [done|]. intros o w1 _ Hok. by apply run_op_sections. }
  destruct (get_config_returns_config w v w' Hrun) as [Hc Hn].
  assert (config_sections w') as Hs'.
  { eapply config_sections_keep; [exact Hs|exact Hn|]. by eapply guar_step; [apply get_config_grows|]. }
  destruct Hs' as (l & d & Hc' & Hl & Hk & Hkeys); [destruct Hn as [Hgl _]; congruence|].
  rewrite (lookup_name_same_names w w' _ Hn), Hc in Hc'. injection Hc' as ->. by exists l, d.
Qed.

Lemma run_op_flag_false o w :
  o <> OpReload -> op_ok o -> flag_false w -> flag_false (run_state (run_op o) w).
Proof.
  intros Hr Hok Hf. destruct o; [|done|..].
  1: { simpl run_op. destruct (globals w) as [ns|] eqn:Hg.
       - by rewrite (import_module_imported w ns Hg).
       - rewrite (import_module_fresh w Hg). right.
         destruct (exec_module_body_run (set_globals (Some fresh_module_ns) w))
           as (l & _ & _ & Hflag & _). exact Hflag. }
  all: match goal with |- flag_false (run_state (run_op ?o) ?w0) =>
    assert (same_names w0 (run_state (run_op o) w0)) as Hn
      by (apply run_op_body_free_names; done) end.
  all: destruct Hf as [Hg|Hf]; [left; destruct Hn as [Hg' _]; congruence|right].
  all: by rewrite (lookup_name_same_names _ _ _ Hn).
Qed.

(** C4: in a process that imports the module and never reloads it,
    every call of [get_config] after the import takes the first-load
    path: [__config_defined__] stays [False] (the source never sets it),
    so each call prints "First time load of config", re-imports the
    user module and merges it again, where the specification has one
    merge and "Config is already defined." on later calls. *)
Theorem every_call_is_first_load w0 w :
  globals w0 = None ->
  reachable (fun o => o <> OpReload) w0 w -> globals w <> None ->
  stdout (run_state get_config w) = (stdout w ++ ["First time load of config"])%list.
Proof.
  intros H0 Hr Hw. apply get_config_first_load_output.
  assert (flag_false w) as [Hg|Hf]; [|done|done].
  revert Hr. apply reachable_inv; [by left|]. intros o w' Ho Hok. by apply run_op_flag_false.
Qed.

(** The module is imported, [config] is one of its globals and the flag
    [__config_defined__] is [True]: the state a reload leaves. *)
Definition flag_true (w : world) : Prop :=
  exists ns v, globals w = Some ns /\ alist_lookup "config" ns = Some v /\
    lookup_name w "__config_defined__" = Some (VBool true).

(** The body leaves [config], [get_config] and [__all__] bound in the
    module namespace. *)
Lemma exec_module_body_binds_config w :
  exists ns v, globals (run_state exec_module_body w) = Some ns /\ alist_lookup "config" ns = Some v /\
    alist_lookup "get_config" ns = Some (VFunc "pyEPR._config_default.get_config") /\
    alist_lookup "__all__" ns = Some module_all.
Proof.
  unfold run_state, exec_module_body. cbn [bind store_global modify gets].
  match goal with |- context [bind build_config _ ?w2] =>
    destruct (build_config_spec w2) as (v & w3 & E & _); rewrite (bind_Ret _ _ _ _ _ E) end.
  cbn [bind store_global modify fst snd set_globals globals default id]. eexists _, v. split_and!; [reflexivity|..];
    repeat (rewrite alist_lookup_set_ne; [|done]); apply alist_lookup_set_eq.
Qed.

Lemma reload_flag_true w ns :
  globals w = Some ns -> alist_mem "config" ns = true -> flag_true (run_state (run_op OpReload) w).
Proof.
  intros Hg Hm. cbn [run_op]. rewrite (reload_module_imported w ns Hg).
  destruct (exec_module_body_run w) as (l & _ & _ & Hflag & _).
  rewrite Hg in Hflag. change (default [] (Some ns)) with ns in Hflag. rewrite Hm in Hflag.
  destruct (exec_module_body_binds_config w) as (ns' & v & Hg' & Hv & _). by exists ns', v.
Qed.

Lemma run_op_flag_true o w : op_ok o -> flag_true w -> flag_true (run_state (run_op o) w).
Proof.
  intros Hok (ns & v & Hg & Hv & Hf). destruct o.
  1: { cbn [run_op]. rewrite (import_module_imported w ns Hg). by exists ns, v. }
  1: { apply (reload_flag_true w ns Hg). unfold alist_mem. by rewrite Hv. }
  all: match goal with |- flag_true (run_state (run_op ?o) ?w0) =>
    assert (same_names w0 (run_state (run_op o) w0)) as Hn
      by (apply run_op_body_free_names; done) end.
  all: exists ns, v; rewrite (lookup_name_same_names _ _ _ Hn); split_and!; [|done..].
  all: by rewrite (proj1 Hn).
Qed.

Lemma run_op_keeps_config o w :
  o <> OpReload -> op_ok o -> globals w <> None ->
  lookup_name (run_state (run_op o) w) "config" = lookup_name w "config" /\
  globals (run_state (run_op o) w) <> None.
Proof.
  intros Hr Hok Hg. destruct o; [|done|..].
  1: { simpl run_op. destruct (globals w) as [ns|] eqn:Hg'; [|done].
       rewrite (import_module_imported w ns Hg'). by rewrite Hg'. }
  all: match goal with |- context [run_state (run_op ?o) ?w0] =>
    assert (same_names w0 (run_state (run_op o) w0)) as Hn
      by (apply run_op_body_free_names; done) end.
  all: split; [apply lookup_name_same_names, Hn|by rewrite (proj1 Hn)].
Qed.

(** C5: after the import, and as long as the module is not reloaded,
    every call of [get_config] that returns, returns the same object:
    the one bound to [config] when the module was imported. *)
Theorem get_config_same_object w1 w v w' :
  globals w1 <> None ->
  reachable (fun o => o <> OpReload) w1 w ->
  get_config w = (Ret v, w') -> lookup_name w1 "config" = Some v.
Proof.
  intros H1 Hr Hrun.
  assert (lookup_name w "config" = lookup_name w1 "config" /\ globals w <> None) as [<- _].
  { clear Hrun. induction Hr as [|w2 o Hr [Hc Hg] Ho Hok]; [done|].
    destruct (run_op_keeps_config o w2 Ho Hok Hg) as [-> ?]. done. }
  by apply get_config_returns_config in Hrun as [? _].
Qed.

(** C6: reloading an imported module rebinds [config] to a new [Dict] of
    the bare defaults and sets [__config_defined__] to [True], so the
    next [get_config] skips the merge and the probe: it prints
    "Config is already defined." and returns an object that callers
    holding the old one do not see, without the user's overrides and
    with [internal.ipython] still [None].  The module's comment says the
    reload path is meant not to overwrite [config]. *)
Theorem reload_resets_config w ns :
  globals w = Some ns -> alist_mem "config" ns = true ->
  let w1 := run_state (run_op OpReload) w in
  lookup_name w1 "__config_defined__" = Some (VBool true) /\
  exists l w2, get_config w1 = (Ret (VRef l), w2) /\ heap w !! l = None /\
    is_default_config (heap w2) (VRef l) /\
    stdout w2 = (stdout w1 ++ ["Config is already defined."])%list.
Proof.
  intros Hg Hm w1. subst w1. cbn [run_op]. rewrite (reload_module_imported w ns Hg).
  destruct (exec_module_body_run w) as (l & _ & _ & Hflag & Hc & Hd & _ & Hl & _).
  rewrite Hg in Hflag. change (default [] (Some ns)) with ns in Hflag.
  rewrite Hm in Hflag. revert Hflag Hc Hd. generalize (run_state exec_module_body w) as w1.
  intros w1 Hflag Hc Hd. split; [done|].
  exists l, (set_stdout (stdout w1 ++ ["Config is already defined."])%list w1).
  split; [by apply get_config_defined|]. split_and!; [exact Hl|exact Hd|reflexivity].
Qed.

(** C12: after one reload of the imported module the accessor is on its
    already-defined path for good: in every state reached from there by
    any operations (further reloads, calls, callers' assignments), a
    call of [get_config] prints "Config is already defined.", returns
    the object bound to [config] and changes nothing else: no merge of
    the overrides and no probe ever runs again in the process. *)
Theorem reload_then_defined_forever (P : op -> Prop) w0 ns w :
  globals w0 = Some ns -> alist_mem "config" ns = true ->
  reachable P (run_state (run_op OpReload) w0) w ->
  exists v, lookup_name w "config" = Some v /\
    get_config w = (Ret v, set_stdout (stdout w ++ ["Config is already defined."])%list w).
Proof.
  intros Hg Hm Hr.
  assert (flag_true w) as (ns' & v & Hg' & Hv & Hf).
  { revert Hr. apply reachable_inv; [by apply (reload_flag_true w0 ns)|].
    intros o w1 _ Hok. by apply run_op_flag_true. }
  assert (lookup_name w "config" = Some v) as Hc by (unfold lookup_name; rewrite Hg'; simpl; by rewrite Hv).
  exists v. split; [done|]. by apply get_config_defined.
Qed.
End Invariants.
