(* ===== verification/Overrides.v ===== *)
(** * Later calls and the user's objects

    The flag [__config_defined__] is never set (C4), so every call of
    [get_config] runs lines 149-154 again: the user's override is merged
    into [config] once more and [config.internal.ipython] is assigned
    once more.  This file follows the consequences across calls, in
    states the earlier calls and the callers' assignments leave:
    - a [config.internal] that is a plain value (a caller's
      [config.internal = 5], or an override that sets it) makes line 154
      raise [AttributeError] at every later call, until a reload;
    - an override item that is assigned rather than merged
      ([self[k] = v] in addict's loop) puts the user module's own object
      into [config], so a caller's write through [config] changes
      [config_user.config] as well;
    - when that object contains itself, the next call merges it into
      itself, [d.update(d)], and raises [RecursionError] whatever the
      recursion limit. *)

From stdpp Require Import base list gmap strings.
From S2P Require Import Prelude PyObjects Defaults Probe ConfigDefault DictUpdate Session.

Open Scope string_scope.

(** ** A plain [config.internal] *)

(** The values that take no new attribute: every plain value but a
    function or class object (whose attribute assignment the model does
    not keep). *)
Definition no_attrs (v : pyval) : Prop :=
  match v with VRef _ | VFunc _ => False | _ => True end.

(** [config.internal] once the items of [override] are assigned into
    [config]'s items [es]: the override's value when it sets
    [internal], [config]'s own otherwise. *)
Definition internal_after (override es : entries) : option pyval :=
  match alist_lookup "internal" override with
  | Some x => Some x
  | None => alist_lookup "internal" es
  end.

(** The states in which line 154 cannot succeed: the flag is [False],
    [config] is the [Dict] at [l], [config_user.config] is the flat
    [Dict] at [lu] (another object), and [config.internal] after the
    merge is a value that takes no attribute. *)
Definition internal_blocked (l lu : loc) (du : pydict) (w : world) : Prop :=
  world_wf w /\ lookup_name w "__config_defined__" = Some (VBool false) /\
  lookup_name w "config" = Some (VRef l) /\
  (exists ns, user_module w = Some ns /\ alist_lookup "config" ns = Some (VRef lu)) /\
  lu <> l /\ heap w !! lu = Some du /\ Forall (fun kv => scalar kv.2) (dentries du) /\
  exists es x, heap w !! l = Some (PyDict AddictDict es) /\
    internal_after (dentries du) es = Some x /\ no_attrs x.

(** The operations of a session without a reload: calls, and callers'
    assignments [config.k = v], where a value assigned to [internal]
    takes no attribute either. *)
Definition calls_and_sets (o : op) : Prop :=
  match o with
  | OpGetConfig => True
  | OpSetTop k v => k = "internal" -> no_attrs v
  | _ => False
  end.

Lemma internal_after_set_all override es :
  NoDup (map fst override) ->
  alist_lookup "internal" (alist_set_all override es) = internal_after override es.
Proof. apply alist_set_all_lookup_or. Qed.

Lemma internal_after_idem override es :
  NoDup (map fst override) ->
  internal_after override (alist_set_all override es) = internal_after override es.
Proof.
  intros Hnd. unfold internal_after at 1. rewrite internal_after_set_all by done.
  unfold internal_after. by destruct (alist_lookup "internal" override).
Qed.

(** Line 154 when [config.internal] is a value that takes no attribute:
    [AttributeError: '<type>' object has no attribute 'ipython'], and
    nothing changes. *)
Lemma line154_no_attrs w l es x b :
  heap w !! l = Some (PyDict AddictDict es) -> alist_lookup "internal" es = Some x -> no_attrs x ->
  ((let! internal := addict_getattr (VRef l) "internal" in
    addict_setattr internal "ipython" (VBool b)) ;;
   load_global "config") w = (Exc (AttributeError (type_name (heap w) x) "ipython"), w).
Proof.
  intros Hl Hx Hna. rewrite bind_assoc, (bind_Ret _ _ _ _ _ (addict_getattr_present l "internal" x w
    ltac:(by rewrite Hl) ltac:(by unfold dict_get; rewrite Hl))).
  by destruct x.
Qed.

(** A call in such a state raises [AttributeError] at line 154, after
    the merge has assigned the override's items; the state it leaves is
    again one where line 154 cannot succeed. *)
Lemma get_config_internal_blocked l lu du w :
  internal_blocked l lu du w ->
  exists x w', @get_config addict_merge w = (Exc (AttributeError (type_name (heap w) x) "ipython"), w') /\
    internal_blocked l lu du w'.
Proof.
  intros (Hw & Hf & Hc & (ns & Hu & Hlu) & Hne & Hdu & Hs & es & x & Hl & Hx & Hna).
  pose proof (wf_dict_keys w lu du Hw Hdu) as Hnd.
  assert (Forall (assigns_item es) (dentries du)) as Ha by (eapply Forall_impl; [exact Hs|by left]).
  pose proof (first_load_assigns w l es ns lu du Hf Hc Hl Hu Hlu Hdu Hnd Ha) as E.
  set (w2 := set_heap _ _) in E.
  assert (heap w2 !! l = Some (PyDict AddictDict (alist_set_all (dentries du) es))) as Hl2
    by apply lookup_insert_eq.
  rewrite (line154_run w2 l) in E by (unfold w2; by rewrite lookup_name_set_heap, lookup_name_set_stdout).
  rewrite (line154_no_attrs w2 l _ x _ Hl2 ltac:(by rewrite internal_after_set_all) Hna) in E.
  exists x, w2. split.
  - rewrite E. by destruct x.
  - pose proof (get_config_wf w Hw) as Hw2. unfold run_state in Hw2. rewrite E in Hw2.
    split_and!; [done|done|done|by exists ns|done| |done|].
    + unfold w2. cbn [heap set_heap]. by rewrite lookup_insert_ne.
    + exists (alist_set_all (dentries du) es), x. by rewrite internal_after_idem.
Qed.

(** A caller's [config.k = v] keeps line 154 blocked, as long as a
    value assigned to [internal] takes no attribute. *)
Lemma set_top_internal_blocked l lu du k v w :
  internal_blocked l lu du w -> scalar v -> (k = "internal" -> no_attrs v) ->
  internal_blocked l lu du (run_state (caller_set_top k v) w).
Proof.
  intros (Hw & Hf & Hc & (ns & Hu & Hlu) & Hne & Hdu & Hs & es & x & Hl & Hx & Hna) Hv Hk.
  pose proof (run_op_wf (OpSetTop k v) w Hv Hw) as Hw'. cbn [run_op] in Hw'.
  assert (caller_set_top k v w =
          (Ret tt, set_heap (<[l := PyDict AddictDict (alist_set k v es)]> (heap w)) w)) as E.
  { unfold caller_set_top, bind at 1, load_global at 1. rewrite Hc.
    unfold addict_setattr, bind, read_dict. rewrite Hl. by apply dict_setitem_run. }
  unfold run_state in *. rewrite E in Hw' |- *. cbn [snd] in *.
  split_and!; [done|done|done|by exists ns|done| |done|].
  - cbn [heap set_heap]. by rewrite lookup_insert_ne.
  - cbn [heap set_heap]. rewrite lookup_insert_eq.
    destruct (decide (k = "internal" /\ alist_lookup "internal" (dentries du) = None))
      as [[-> Hn]|Hn].
    + exists (alist_set "internal" v es), v. unfold internal_after.
      rewrite Hn, alist_lookup_set_eq. split_and!; [done|done|by apply Hk].
    + exists (alist_set k v es), x. split_and!; [done| |done]. unfold internal_after in *.
      destruct (alist_lookup "internal" (dentries du)); [done|].
      rewrite alist_lookup_set_ne; [done|]. intros ->. by apply Hn.
Qed.

(** C21: the accessor never recovers from a plain [config.internal].
    From a state where the flag is [False] and [config.internal], after
    the flat override is assigned, is a value that takes no attribute (a
    caller's [config.internal = 5], or [internal=5] in the override), in
    every state that calls and callers' assignments [config.k = v] reach,
    [get_config] raises [AttributeError] ("'int' object has no attribute
    'ipython'", or the like for the value's type) at line 154, where the
    specification's later calls only return the object.  Only a reload,
    which rebinds [config] to fresh defaults, ends it. *)
Theorem internal_scalar_breaks_every_call l lu du w0 w :
  internal_blocked l lu du w0 -> reachable calls_and_sets w0 w ->
  exists x w', @get_config addict_merge w = (Exc (AttributeError (type_name (heap w) x) "ipython"), w').
Proof.
  intros H0 Hr.
  assert (internal_blocked l lu du w) as Hb.
  { revert Hr. apply reachable_inv; [done|]. intros [] w1 Hp Hok H1; try done; cbn [run_op].
    - destruct (get_config_internal_blocked l lu du w1 H1) as (x & w' & E & H').
      unfold run_state, bind. by rewrite E.
    - by apply set_top_internal_blocked. }
  destruct (get_config_internal_blocked l lu du w Hb) as (x & w' & E & _). by exists x, w'.
Qed.

(** ** Objects shared with the user module *)



(** ** An override that contains itself *)

