(* ===== verification/ConfigTree.v ===== *)
(** * What the first call of [get_config] returns, as a tree

    The default settings as a tree ([default_tree]), the assignment
    [config.internal.ipython = ...] on trees ([tree_set_in]), and the
    theorem that the first-load path of [get_config] (lines 149-155)
    returns [config] with the tree
    [tree_set_in "internal" "ipython" b (deep_merge default_tree user)]:
    the user's overrides merged recursively into the defaults, then the
    probe's answer stored. *)

From stdpp Require Import base list gmap strings.
From S2P Require Import Prelude PyObjects Defaults Probe ConfigDefault DictUpdate MergeTree Session.

Open Scope list_scope.

(** ** The defaults as a tree *)

Definition scalar_items (es : entries) : list (string * ptree) :=
  map (fun kv => (kv.1, PVal kv.2)) es.

Definition default_tree : list (string * ptree) :=
  [("root_dir", PVal (VStr root_dir_default));
   ("ansys", PDict AddictDict (scalar_items ansys_entries));
   ("dissipation", PDict AddictDict (scalar_items dissipation_entries));
   ("plotting", PDict AddictDict (scalar_items plotting_entries));
   ("internal", PDict AddictDict (scalar_items internal_entries));
   ("log", PDict AddictDict (scalar_items log_entries))].

(** [obj.sec.k = u] on the items of [obj], when [obj.sec] is a dict. *)
Definition tree_set_in (sec k : string) (u : ptree) (items : list (string * ptree))
    : list (string * ptree) :=
  match alist_lookup sec items with
  | Some (PDict kind es) => alist_set sec (PDict kind (alist_set k u es)) items
  | _ => items
  end.

(** Every item of the override at key [sec] is a dict. *)
Definition section_is_dict (sec : string) (t : ptree) : Prop :=
  match t with
  | PDict _ us => Forall (fun ku => ku.1 = sec -> exists kind es, ku.2 = PDict kind es) us
  | PVal _ => True
  end.

(** The five sections of the defaults. *)
Definition section_names : list string := ["ansys"; "dissipation"; "plotting"; "internal"; "log"].

(** What section 8 of the specification asks of the settings after the
    first call: [root_dir] is there, each section is an addict [Dict]
    holding at least the keys of its defaults (so it is non-empty), and
    [internal.ipython] is a boolean. *)
Definition settings_ok (ts : list (string * ptree)) : Prop :=
  "root_dir" ∈ alist_keys ts /\
  (forall sec des, sec ∈ section_names ->
     alist_lookup sec default_tree = Some (PDict AddictDict des) ->
     exists es, alist_lookup sec ts = Some (PDict AddictDict es) /\ es <> [] /\
                alist_keys des ⊆ alist_keys es) /\
  exists es b, alist_lookup "internal" ts = Some (PDict AddictDict es) /\
               alist_lookup "ipython" es = Some (PVal (VBool b)).

(** ** Lemmas *)

Lemma decode_scalar_items n h es :
  Forall (fun kv => scalar kv.2) es ->
  decode_entries n h es = Some (scalar_items es) /\ fp_entries n h es = [].
Proof.
  induction es as [|[k v] es IH]; intros Hs; [done|].
  apply Forall_cons in Hs as [Hv Hs]. destruct (IH Hs) as [Hd Hf].
  rewrite decode_entries_cons, fp_entries_cons, decode_scalar by exact Hv. simpl.
  rewrite Hd, Hf, fp_scalar by exact Hv. done.
Qed.

Lemma default_sections_scalar :
  Forall (fun kv => scalar kv.2) ansys_entries /\ Forall (fun kv => scalar kv.2) dissipation_entries /\
  Forall (fun kv => scalar kv.2) plotting_entries /\ Forall (fun kv => scalar kv.2) internal_entries /\
  Forall (fun kv => scalar kv.2) log_entries.
Proof. split_and!; repeat constructor. Qed.

(** The object the literal builds decodes to [default_tree], at any depth
    from two on, and its footprint is its six objects. *)
Lemma default_config_decode h l m :
  is_default_config h (VRef l) ->
  decode (S (S m)) h (VRef l) = Some (PDict AddictDict default_tree) /\
  NoDup (fp (S (S m)) h (VRef l)).
Proof.
  intros (l' & la & ld & lp & li & ll & [= <-] & Hnd & Hl & Ha & Hd & Hp & Hi & Hg).
  destruct default_sections_scalar as (Sa & Sd & Sp & Si & Sg).
  destruct (decode_scalar_items m h _ Sa) as [Da Fa]. destruct (decode_scalar_items m h _ Sd) as [Dd Fd].
  destruct (decode_scalar_items m h _ Sp) as [Dp Fp]. destruct (decode_scalar_items m h _ Si) as [Di Fi].
  destruct (decode_scalar_items m h _ Sg) as [Dg Fg].
  rewrite decode_ref, fp_ref, Hl. cbn [mbind option_bind dentries dkind from_option]. unfold config_entries.
  rewrite !decode_entries_cons, !fp_entries_cons, !decode_ref, !fp_ref, Ha, Hd, Hp, Hi, Hg.
  cbn [mbind option_bind dentries dkind from_option].
  rewrite Da, Dd, Dp, Di, Dg, Fa, Fd, Fp, Fi, Fg. split; [done|].
  rewrite fp_scalar by exact I. exact Hnd.
Qed.

(** The merge keeps an addict section a dict when the override gives it
    only dicts. *)
(** The merge keeps every key: it only assigns. *)
Lemma deep_merge_keys es u : alist_keys es ⊆ alist_keys (deep_merge es u).
Proof.
  destruct u as [v|ku us]; [done|]. rewrite deep_merge_dict.
  revert es. induction us as [|[k' u'] us IH]; intros es; [done|]. cbn [fold_left fst snd].
  etrans; [|apply IH]. destruct (merge_item_is_set deep_merge es k' u') as [x ->].
  intros k. apply alist_keys_set_incl.
Qed.

(** A section the override gives only as dicts stays an addict [Dict]
    holding at least its keys. *)
Lemma deep_merge_section sec es u X :
  alist_lookup sec es = Some (PDict AddictDict X) -> section_is_dict sec u ->
  exists X', alist_lookup sec (deep_merge es u) = Some (PDict AddictDict X') /\
             alist_keys X ⊆ alist_keys X'.
Proof.
  destruct u as [v|ku us]; [by exists X|]. rewrite deep_merge_dict. simpl.
  revert es X. induction us as [|[k' u'] us IH]; intros es X Hes Hu; [by exists X|].
  apply Forall_cons in Hu as [Hu1 Hus]. cbn [fold_left fst snd] in *.
  destruct (decide (k' = sec)) as [->|Hne].
  - destruct (Hu1 eq_refl) as (kind & es' & ->).
    assert (merge_item deep_merge es sec (PDict kind es') =
            alist_set sec (PDict AddictDict (deep_merge X (PDict kind es'))) es) as ->
      by (unfold merge_item; by rewrite Hes).
    edestruct IH as (X' & HX' & Hk); [apply alist_lookup_set_eq|exact Hus|].
    exists X'. split; [done|]. etrans; [apply deep_merge_keys|exact Hk].
  - destruct (merge_item_is_set deep_merge es k' u') as [x ->].
    eapply IH; [|exact Hus]. rewrite alist_lookup_set_ne by done. exact Hes.
Qed.

(** An item of a duplicate-free footprint has a duplicate-free footprint. *)
Lemma nodup_item n h es k v :
  NoDup (fp_entries n h es) -> alist_lookup k es = Some v -> NoDup (fp n h v).
Proof.
  intros Hnd Hk. destruct (alist_lookup_split _ _ _ Hk) as (pre & suf & -> & _).
  rewrite fp_entries_app, fp_entries_cons in Hnd.
  apply NoDup_app in Hnd as (_ & _ & Hnd). by apply NoDup_app in Hnd as [? _].
Qed.

(** [obj.sec.k = v] on an addict [Dict] whose section [sec] is an addict
    [Dict]: the tree of [obj] becomes [tree_set_in sec k v] of the old one
    and its footprint stays duplicate-free. *)
Lemma setattr_path_tree n w l T sec k v X :
  scalar v ->
  decode (S (S n)) (heap w) (VRef l) = Some (PDict AddictDict T) ->
  NoDup (fp (S (S n)) (heap w) (VRef l)) ->
  alist_lookup sec T = Some (PDict AddictDict X) ->
  exists h', (let! t := addict_getattr (VRef l) sec in addict_setattr t k v) w = (Ret tt, set_heap h' w) /\
    decode (S (S n)) h' (VRef l) = Some (PDict AddictDict (tree_set_in sec k (PVal v) T)) /\
    NoDup (fp (S (S n)) h' (VRef l)).
Proof.
  intros Hv Hd Hnd HT. rewrite decode_ref in Hd. rewrite fp_ref in Hnd.
  destruct (heap w !! l) as [[kl es]|] eqn:Hl; [|done]. cbn [mbind option_bind dentries dkind] in Hd.
  destruct (decode_entries (S n) (heap w) es) as [T'|] eqn:HdT; [|done]. injection Hd as -> HTe. subst T'.
  simpl in Hnd.
  pose proof (decode_entries_lookup _ _ _ _ sec HdT) as Hsec. rewrite HT in Hsec.
  destruct (alist_lookup sec es) as [vs|] eqn:Hes; [|done]. cbn [mbind option_bind] in Hsec.
  destruct vs as [| | | | | | |li]; try (rewrite decode_scalar in Hsec by exact I; discriminate).
  rewrite decode_ref in Hsec. destruct (heap w !! li) as [[ki esi]|] eqn:Hli; [|done].
  cbn [mbind option_bind dentries dkind] in Hsec.
  destruct (decode_entries n (heap w) esi) as [X'|] eqn:HdX; [|done].
  injection Hsec as Hki HX. subst ki X'.
  apply NoDup_cons in Hnd as [Hlnd Hnde].
  pose proof (nodup_item _ _ _ _ _ Hnde Hes) as Hndi. rewrite fp_ref, Hli in Hndi. simpl in Hndi.
  destruct (setitem_step n li w AddictDict esi X k v (PVal v) Hli HdX (decode_scalar _ _ _ Hv))
    as (h' & esi' & E & Hli' & Hd' & _ & Hag & Hnd' & Hinc).
  { by rewrite fp_scalar, app_nil_r. }
  destruct (child_update_step n l w AddictDict es T sec li (PyDict AddictDict esi) [] h' esi'
              (alist_set k (PVal v) X)
              Hl HdT Hes Hli) as (Hl' & HdT' & _ & Hnd2 & _).
  - by rewrite app_nil_r; apply NoDup_cons.
  - exact Hli'.
  - exact Hd'.
  - intros x Hx. apply Hag. intros Hx'. apply Hx. apply elem_of_cons in Hx' as [->|Hx']; [left|].
    right. by eapply child_fp_incl.
  - exact Hnd'.
  - intros x Hx. apply Hinc in Hx. rewrite fp_scalar in Hx by exact Hv. simpl. set_solver.
  - exists h'. split_and!.
    + unfold addict_getattr, bind at 1, bind at 1, read_dict at 1. rewrite Hl. simpl.
      rewrite Hes. unfold ret. simpl. unfold bind, read_dict. rewrite Hli. exact E.
    + rewrite decode_ref, Hl'. simpl. rewrite HdT'. simpl. unfold tree_set_in. by rewrite HT.
    + rewrite fp_ref, Hl'. exact Hnd2.
Qed.

(** The footprint of the default object is its six objects. *)
Lemma default_config_fp h l m :
  is_default_config h (VRef l) ->
  exists la ld lp li ll,
    h !! l = Some (PyDict AddictDict (config_entries (VRef la) (VRef ld) (VRef lp) (VRef li) (VRef ll))) /\
    fp (S (S m)) h (VRef l) = [l; la; ld; lp; li; ll].
Proof.
  intros (l' & la & ld & lp & li & ll & [= <-] & Hnd & Hl & Ha & Hd & Hp & Hi & Hg).
  destruct default_sections_scalar as (Sa & Sd & Sp & Si & Sg).
  exists la, ld, lp, li, ll. split; [done|].
  rewrite fp_ref, Hl. cbn [dentries from_option]. unfold config_entries.
  rewrite !fp_entries_cons, !fp_ref, Ha, Hd, Hp, Hi, Hg. cbn [dentries from_option].
  rewrite (proj2 (decode_scalar_items m h _ Sa)), (proj2 (decode_scalar_items m h _ Sd)),
    (proj2 (decode_scalar_items m h _ Sp)), (proj2 (decode_scalar_items m h _ Si)),
    (proj2 (decode_scalar_items m h _ Sg)), fp_scalar by exact I. done.
Qed.

(** The default object allocated by the module body shares no object with
    a tree of the heap before it. *)
Lemma default_config_disjoint h0 h l lu m tu :
  h0 ⊆ h -> is_default_config h (VRef l) -> default_objects_fresh h0 h (VRef l) ->
  decode (S (S m)) h0 (VRef lu) = Some tu -> NoDup (fp (S (S m)) h0 (VRef lu)) ->
  NoDup (fp (S (S m)) h (VRef l) ++ fp (S (S m)) h (VRef lu)).
Proof.
  intros Hs Hdef (l' & la & ld & lp & li & ll & [= <-] & Hl & Hfr) Hu Hndu.
  destruct (default_config_fp h l m Hdef) as (la' & ld' & lp' & li' & ll' & Hl' & Hfp).
  rewrite Hl in Hl'. injection Hl' as <- <- <- <- <-.
  destruct (decode_mono _ _ _ _ _ Hs Hu) as [_ ->].
  apply NoDup_app. split_and!; [|intros x Hx Hx'|done].
  - apply (default_config_decode h l m Hdef).
  - rewrite Hfp in Hx. apply (decode_fp_alloc _ _ _ _ Hu) in Hx' as [d Hd].
    rewrite Forall_forall in Hfr. rewrite (Hfr x Hx) in Hd. discriminate.
Qed.

(** ** The first call of [get_config] *)

(** The merge and the probe on the first-load path, as a run. *)
Lemma load_user_config_tree m w l ns lu tu X :
  S m < py_recursion_limit -> world_wf w ->
  lookup_name w "config" = Some (VRef l) ->
  decode (S (S m)) (heap w) (VRef l) = Some (PDict AddictDict default_tree) ->
  user_module w = Some ns -> alist_lookup "config" ns = Some (VRef lu) ->
  decode (S (S m)) (heap w) (VRef lu) = Some tu ->
  NoDup (fp (S (S m)) (heap w) (VRef l) ++ fp (S (S m)) (heap w) (VRef lu)) ->
  alist_lookup "internal" (deep_merge default_tree tu) = Some (PDict AddictDict X) ->
  exists h, load_user_config w = (Ret tt, set_heap h w) /\
    decode (S (S m)) h (VRef l) =
      Some (PDict AddictDict (tree_set_in "internal" "ipython" (PVal (VBool (ipython_bound w)))
                                (deep_merge default_tree tu))).
Proof.
  intros Hn Hw Hc Hdd Hu Hlu Htu Hnd HX.
  destruct (method_update_tree (S m) w l lu default_tree tu Hn Hw Hdd Htu Hnd)
    as (h1 & E1 & Hd1 & _ & Hnd1 & _).
  destruct (setattr_path_tree m (set_heap h1 w) l (deep_merge default_tree tu) "internal" "ipython"
              (VBool (ipython_bound w)) X I Hd1 Hnd1 HX) as (h2 & E2 & Hd2 & _).
  exists h2. split; [|exact Hd2]. unfold load_user_config.
  assert (import_config_user w = (Ret ns, w)) as S1
    by (unfold import_config_user, bind, gets; simpl; by rewrite Hu).
  rewrite (bind_Ret _ _ _ _ _ S1).
  assert (load_global "config" w = (Ret (VRef l), w)) as S2 by (unfold load_global; by rewrite Hc).
  rewrite (bind_Ret _ _ _ _ _ S2).
  assert (module_getattr ns "config" w = (Ret (VRef lu), w)) as S3
    by (unfold module_getattr; by rewrite Hlu).
  rewrite (bind_Ret _ _ _ _ _ S3).
  assert (merge_update (VRef l) (VRef lu) w = (Ret tt, set_heap h1 w)) as S4 by exact E1.
  rewrite (bind_Ret _ _ _ _ _ S4), (bind_Ret _ _ _ _ _ (is_using_ipython_run _)).
  assert (load_global "config" (set_heap h1 w) = (Ret (VRef l), set_heap h1 w)) as S5
    by (unfold load_global; by rewrite lookup_name_set_heap, Hc).
  rewrite (bind_Ret _ _ _ _ _ S5). exact E2.
Qed.

(** A call of [get_config] while the flag is [False] and [config] holds
    the defaults, with a user override [config_user.config] that is a tree
    [tu] at most [n + 1] dicts deep ([n] below the recursion limit), not
    sharing objects with the defaults, and giving [internal] only as a
    dict, returns [config] itself, whose tree is then the defaults merged
    recursively with [tu] and [internal.ipython] set to the probe's
    answer; the only output is the first-load message. *)
Theorem get_config_first_load_tree n w l ns lu tu :
  0 < n < py_recursion_limit -> world_wf w ->
  lookup_name w "__config_defined__" = Some (VBool false) ->
  lookup_name w "config" = Some (VRef l) -> is_default_config (heap w) (VRef l) ->
  user_module w = Some ns -> alist_lookup "config" ns = Some (VRef lu) ->
  decode (S n) (heap w) (VRef lu) = Some tu -> section_is_dict "internal" tu ->
  NoDup (fp (S n) (heap w) (VRef l) ++ fp (S n) (heap w) (VRef lu)) ->
  exists w', get_config w = (Ret (VRef l), w') /\
    decode (S n) (heap w') (VRef l) =
      Some (PDict AddictDict (tree_set_in "internal" "ipython" (PVal (VBool (ipython_bound w)))
                                (deep_merge default_tree tu))) /\
    stdout w' = stdout w ++ ["First time load of config"].
Proof.
  intros [Hn0 Hn] Hw Hf Hc Hdef Hu Hlu Htu Hsec Hnd. destruct n as [|m]; [lia|].
  destruct (default_config_decode (heap w) l m Hdef) as [Hdd _].
  destruct (deep_merge_section "internal" default_tree tu (scalar_items internal_entries))
    as (X & HX & _); [done|done|].
  set (w0 := set_stdout (stdout w ++ ["First time load of config"]) w).
  destruct (load_user_config_tree m w0 l ns lu tu X Hn (print_wf _ w Hw) Hc Hdd Hu Hlu Htu Hnd HX)
    as (h & E & Hd).
  exists (set_heap h w0). split_and!; [|exact Hd|done].
  rewrite get_config_flag_false by done.
  rewrite (bind_Ret _ _ _ tt w0) by done. rewrite (bind_Ret _ _ _ _ _ E).
  unfold load_global, w0. by rewrite lookup_name_set_heap, lookup_name_set_stdout, Hc.
Qed.

(** The import and the first call, on trees. *)
Lemma import_first_call_tree w0 n ns lu tu :
  0 < n < py_recursion_limit -> world_wf w0 -> globals w0 = None ->
  user_module w0 = Some ns -> alist_lookup "config" ns = Some (VRef lu) ->
  decode (S n) (heap w0) (VRef lu) = Some tu -> NoDup (fp (S n) (heap w0) (VRef lu)) ->
  section_is_dict "internal" tu ->
  let w1 := run_state (run_op OpImport) w0 in
  exists l w', get_config w1 = (Ret (VRef l), w') /\
    decode (S n) (heap w') (VRef l) =
      Some (PDict AddictDict (tree_set_in "internal" "ipython" (PVal (VBool (ipython_bound w1)))
                                (deep_merge default_tree tu))) /\
    stdout w' = stdout w1 ++ ["First time load of config"].
Proof.
  intros Hn Hw Hg Hu Hlu Htu Hndu Hsec w1. subst w1. cbn [run_op].
  rewrite (import_module_fresh w0 Hg). set (ws := set_globals (Some fresh_module_ns) w0).
  destruct (exec_module_body_spec ws)
    as (l & w' & E & Hwf & Hf & Hc & Hd & Hs & _ & Hfr & _ & Hu' & _).
  unfold run_state. rewrite E. cbn [snd]. exists l.
  destruct n as [|m]; [lia|].
  apply (get_config_first_load_tree (S m) w' l ns lu tu Hn).
  - apply Hwf, fresh_module_wf, Hw.
  - by rewrite Hf.
  - exact Hc.
  - exact Hd.
  - by rewrite Hu'.
  - exact Hlu.
  - exact (proj1 (decode_mono _ _ _ _ _ Hs Htu)).
  - exact Hsec.
  - exact (default_config_disjoint _ _ l lu m tu Hs Hd Hfr Htu Hndu).
Qed.

(** C1: in a process whose user module binds [config] to a tree [tu] at
    most [n + 1] dicts deep ([0 < n] below the recursion limit), giving
    [internal] only as a dict, the import followed by the first call of
    [get_config] returns the module's [config], whose tree is the defaults
    of lines 20-113 merged recursively with [tu] (addict's [update] at
    line 151), with [internal.ipython] then set to the probe's answer
    (line 154); the call prints only the first-load message. *)
Theorem first_call_merges_overrides w0 n ns lu tu :
  0 < n < py_recursion_limit -> world_wf w0 -> globals w0 = None ->
  user_module w0 = Some ns -> alist_lookup "config" ns = Some (VRef lu) ->
  decode (S n) (heap w0) (VRef lu) = Some tu -> NoDup (fp (S n) (heap w0) (VRef lu)) ->
  section_is_dict "internal" tu ->
  let w1 := run_state (run_op OpImport) w0 in
  exists l w', get_config w1 = (Ret (VRef l), w') /\
    decode (S n) (heap w') (VRef l) =
      Some (PDict AddictDict (tree_set_in "internal" "ipython" (PVal (VBool (ipython_bound w1)))
                                (deep_merge default_tree tu))) /\
    stdout w' = stdout w1 ++ ["First time load of config"].
Proof. apply import_first_call_tree. Qed.

(** Each section of the defaults holds some setting. *)
Lemma default_sections_nonempty sec des :
  alist_lookup sec default_tree = Some (PDict AddictDict des) -> des <> [].
Proof.
  unfold default_tree. cbn [alist_lookup].
  repeat case_decide; intros Hs; simplify_eq; vm_compute; discriminate.
Qed.

Lemma keys_nonempty (des es : list (string * ptree)) :
  des <> [] -> alist_keys des ⊆ alist_keys es -> es <> [].
Proof.
  intros Hd Hk ->. destruct des as [|[k v] des]; [done|].
  specialize (Hk k). unfold alist_keys in Hk. simpl in Hk. set_solver.
Qed.

(** On trees: merging an override that gives each section only as dicts
    into the defaults, then setting [internal.ipython] to a boolean,
    leaves settings that [settings_ok] accepts. *)
Lemma settings_ok_after_merge tu b :
  Forall (fun sec => section_is_dict sec tu) section_names ->
  settings_ok (tree_set_in "internal" "ipython" (PVal (VBool b)) (deep_merge default_tree tu)).
Proof.
  intros Hsec.
  assert (forall sec des, sec ∈ section_names ->
            alist_lookup sec default_tree = Some (PDict AddictDict des) ->
            exists es, alist_lookup sec (deep_merge default_tree tu) = Some (PDict AddictDict es) /\
                       alist_keys des ⊆ alist_keys es) as Hm.
  { intros sec des Hin Hd. rewrite Forall_forall in Hsec. apply deep_merge_section; [exact Hd|by apply Hsec]. }
  destruct (Hm "internal" (scalar_items internal_entries)) as (X & HX & HXk); [set_solver|done|].
  unfold tree_set_in. rewrite HX. split_and!.
  - apply alist_keys_set_incl, deep_merge_keys. set_solver.
  - intros sec des Hin Hd. destruct (Hm sec des Hin Hd) as (es & Hes & Hk).
    destruct (decide (sec = "internal")) as [->|Hne].
    + rewrite alist_lookup_set_eq. eexists. split; [done|].
      rewrite HX in Hes. injection Hes as <-.
      assert (alist_keys des ⊆ alist_keys (alist_set "ipython" (PVal (VBool b)) X)) as Hk2
        by (intros k Hk'; by apply alist_keys_set_incl, Hk).
      split; [|exact Hk2]. eapply keys_nonempty; [|exact Hk2]. by eapply default_sections_nonempty.
    + rewrite alist_lookup_set_ne by done. exists es. split_and!; [done| |done].
      eapply keys_nonempty; [|exact Hk]. by eapply default_sections_nonempty.
  - eexists _, b. rewrite alist_lookup_set_eq. split; [done|]. apply alist_lookup_set_eq.
Qed.

(** C17: section 8's properties of the settings after initialization, for
    a user override that gives each section only as dicts (the
    specification's compatible shape) and is at most [n + 1] dicts deep:
    the import followed by the first call of [get_config] returns
    [config], whose settings keep [root_dir], keep each of [ansys],
    [dissipation], [plotting], [internal] and [log] as an addict [Dict]
    holding every key of its defaults (hence non-empty), and have
    [internal.ipython] set to a boolean, not the placeholder [None]. *)
Theorem first_call_settings_ok w0 n ns lu tu :
  0 < n < py_recursion_limit -> world_wf w0 -> globals w0 = None ->
  user_module w0 = Some ns -> alist_lookup "config" ns = Some (VRef lu) ->
  decode (S n) (heap w0) (VRef lu) = Some tu -> NoDup (fp (S n) (heap w0) (VRef lu)) ->
  Forall (fun sec => section_is_dict sec tu) section_names ->
  let w1 := run_state (run_op OpImport) w0 in
  exists l w' ts, get_config w1 = (Ret (VRef l), w') /\
    decode (S n) (heap w') (VRef l) = Some (PDict AddictDict ts) /\ settings_ok ts.
Proof.
  intros Hn Hw Hg Hu Hlu Htu Hndu Hsec w1.
  assert (section_is_dict "internal" tu) as Hi by (rewrite Forall_forall in Hsec; apply Hsec; set_solver).
  destruct (import_first_call_tree w0 n ns lu tu Hn Hw Hg Hu Hlu Htu Hndu Hi) as (l & w' & E & D & _).
  eexists l, w', _. split_and!; [exact E|exact D|]. by apply settings_ok_after_merge.
Qed.
