(* ===== verification/Concurrency.v ===== *)
(** * Concurrent calls of [get_config]

    The accessor, re-read as a program of atomic steps so that two
    threads can interleave.  A thread is a [proc]: a finished result, or
    an atomic [PyM] action followed by the rest of the program (a free
    monad over [PyM] actions).  The atoms of [get_config_proc] are the
    statements of [get_config] (lines 141-155), except for the merge of
    line 151, whose atoms are those of addict's [update]: the snapshot of
    the override's items, and for each item the test
    [k not in self or not isinstance(...)] and then either the store
    [self[k] = v] or the recursive [self[k].update(v)], itself made of
    atoms.  Running a [proc] alone ([run_proc]) is the sequential
    semantics, and [get_config_proc_adequate] proves it is [get_config]
    with addict's merge.  Two threads run under a schedule, the list of
    which thread moves at each step ([run_sched]); [explore] visits
    every schedule and [explore_sound] proves that what it reports holds
    after every schedule that runs both threads to the end. *)

From stdpp Require Import base list gmap strings.
From S2P Require Import Prelude PyObjects Defaults Probe ConfigDefault DictUpdate Session.

Open Scope string_scope.

(** ** Programs of atomic steps *)

Inductive proc (R : Type) : Type :=
| Done (r : outcome pyexc R)
| Atom {A : Type} (c : PyM A) (k : A -> proc R).
Arguments Done {R} r.
Arguments Atom {R A} c k.

Fixpoint pbind {A B} (p : proc A) (f : A -> proc B) : proc B :=
  match p with
  | Done (Ret a) => f a
  | Done (Exc e) => Done (Exc e)
  | Atom c k => Atom c (fun x => pbind (k x) f)
  end.

Definition atom {A} (c : PyM A) : proc A := Atom c (fun a => Done (Ret a)).

Declare Scope proc_scope.
Delimit Scope proc_scope with proc.
Notation "'let~' x ':=' p 'in' q" := (pbind p (fun x => q))
  (at level 10, x name, p at level 100, q at level 200,
   format "'[v' 'let~'  x  ':='  p  'in' '/' q ']'") : proc_scope.
Open Scope proc_scope.

(** [for x in xs: body(x)] as atomic steps. *)
Fixpoint pfor {A} (xs : list A) (body : A -> proc unit) : proc unit :=
  match xs with
  | [] => Done (Ret tt)
  | x :: xs' => let~ _ := body x in pfor xs' body
  end.

(** A thread running alone: its atoms one after the other. *)
Fixpoint run_proc {R} (p : proc R) : PyM R :=
  match p with
  | Done r => fun w => (r, w)
  | Atom c k => bind c (fun a => run_proc (k a))
  end.

(** ** The accessor as atomic steps *)

(** What addict's loop body does with one item, decided by its test. *)
Inductive item_action := SetItem | RecAddict (ls : loc) | RecBuiltin (ls : loc).

(** The test [k not in self or not isinstance(self[k], dict) or not
    isinstance(v, dict)], with the class of [self[k]] that picks the
    [update] method. *)
Definition item_test (self : loc) (k : string) (v : pyval) : PyM item_action :=
  let! sd := read_dict self in
  match alist_lookup k (dentries sd), v with
  | Some (VRef ls), VRef _ =>
      let! d := read_dict ls in
      ret (match dkind d with AddictDict => RecAddict ls | BuiltinDict => RecBuiltin ls end)
  | _, _ => ret SetItem
  end.

Definition addict_item_proc (rec : loc -> pyval -> proc unit)
    (self : loc) (k : string) (v : pyval) : proc unit :=
  let~ a := atom (item_test self k v) in
  match a with
  | SetItem => atom (dict_setitem self k v)
  | RecAddict ls => rec ls v
  | RecBuiltin ls => atom (dict_update ls v)
  end.

Fixpoint addict_update_proc (fuel : nat) (self : loc) (arg : pyval) : proc unit :=
  match fuel with
  | O => Done (Exc RecursionError)
  | S fuel' =>
      let~ other := atom (update_items arg) in
      pfor other (fun kv => addict_item_proc (addict_update_proc fuel') self kv.1 kv.2)
  end.

(** The [update] that [self.update] finds on the class of [self]. *)
Inductive update_method := MAddict (l : loc) | MBuiltin (l : loc).

Definition resolve_update (self : pyval) : PyM update_method :=
  match self with
  | VRef l =>
      let! d := read_dict l in
      ret (match dkind d with AddictDict => MAddict l | BuiltinDict => MBuiltin l end)
  | v => let! h := gets heap in raise (AttributeError (type_name h v) "update")
  end.

Definition call_update (fuel : nat) (m : update_method) (arg : pyval) : proc unit :=
  match m with
  | MAddict l => addict_update_proc fuel l arg
  | MBuiltin l => atom (dict_update l arg)
  end.

(** Lines 141-151 up to the call of [config.update]: the test of the
    flag, the message, the import of [config_user], and the evaluation
    of [config], of [config_user.config] and of the method [update] of
    [config]'s class.  They only read names that no thread assigns
    ([__config_defined__], [config], the user module) and the class of
    an object, which no step changes, and append to the output, so
    running them as one atom loses no outcome of an interleaving. *)
Inductive gc_entry := Defined (cfg : pyval) | FirstLoad (m : update_method) (user_cfg : pyval).

Definition get_config_entry : PyM gc_entry :=
  let! defined := load_global "__config_defined__" in
  let! is_defined := truthy defined in
  if is_defined then
    print "Config is already defined." ;;
    let! cfg := load_global "config" in
    ret (Defined cfg)
  else
    print "First time load of config" ;;
    let! config_user := import_config_user in
    let! cfg := load_global "config" in
    let! user_cfg := module_getattr config_user "config" in
    let! m := resolve_update cfg in
    ret (FirstLoad m user_cfg).

(** Lines 154-155: [config.internal.ipython = is_using_ipython()] and
    [return config]; the return reads a name no thread assigns. *)
Definition set_ipython_return : PyM pyval :=
  let! ip := is_using_ipython in
  let! cfg' := load_global "config" in
  let! internal := addict_getattr cfg' "internal" in
  addict_setattr internal "ipython" (VBool ip) ;;
  load_global "config".

Definition get_config_proc : proc pyval :=
  let~ e := atom get_config_entry in
  match e with
  | Defined cfg => Done (Ret cfg)
  | FirstLoad m user_cfg =>
      let~ _ := call_update py_recursion_limit m user_cfg in
      atom set_ipython_return
  end.

(** ** Running alone is the sequential code *)

Lemma bind_ext {A B} (c : PyM A) (f g : A -> PyM B) w :
  (forall a w', f a w' = g a w') -> bind c f w = bind c g w.
Proof. intros Hfg. unfold bind. destruct (c w) as [[a|e] w']; [apply Hfg|done]. Qed.

Lemma bind_ext_l {A B} (c1 c2 : PyM A) (f : A -> PyM B) w :
  (forall w', c1 w' = c2 w') -> bind c1 f w = bind c2 f w.
Proof. intros Hc. unfold bind. by rewrite Hc. Qed.

Lemma bind_ret_r {A} (c : PyM A) w : bind c (fun a => fun w' => (Ret a, w')) w = c w.
Proof. unfold bind. by destruct (c w) as [[]?]. Qed.

Lemma run_pbind {A B} (p : proc A) (f : A -> proc B) w :
  run_proc (pbind p f) w = bind (run_proc p) (fun a => run_proc (f a)) w.
Proof.
  revert w. induction p as [[a|e]|X c k IH]; intros w; [done|done|].
  cbn [pbind run_proc]. rewrite bind_assoc. apply bind_ext. intros x w'. apply IH.
Qed.

Lemma run_atom {A} (c : PyM A) w : run_proc (atom c) w = c w.
Proof. unfold atom. cbn [run_proc]. unfold bind. by destruct (c w) as [[]?]. Qed.

Lemma run_atom_bind {A B} (c : PyM A) (f : A -> proc B) w :
  run_proc (let~ x := atom c in f x) w = bind c (fun x => run_proc (f x)) w.
Proof. rewrite run_pbind. unfold bind at 1. rewrite run_atom. done. Qed.

Lemma run_pfor {A} (xs : list A) (body : A -> proc unit) (body' : A -> PyM unit) :
  (forall x w, run_proc (body x) w = body' x w) ->
  forall w, run_proc (pfor xs body) w = mfor xs body' w.
Proof.
  intros Hb. induction xs as [|x xs IH]; intros w; [done|]. cbn [pfor mfor].
  rewrite run_pbind. unfold bind. rewrite Hb. destruct (body' x w) as [[]?]; [apply IH|done].
Qed.

Section ItemAdequacy.
Variable rec : loc -> pyval -> PyM unit.
Variable rec' : loc -> pyval -> proc unit.
Hypothesis Hrec : forall ls a w, run_proc (rec' ls a) w = rec ls a w.

Lemma run_addict_item self k v w :
  run_proc (addict_item_proc rec' self k v) w = addict_update_item rec self k v w.
Proof.
  unfold addict_item_proc. rewrite run_atom_bind.
  unfold item_test, addict_update_item, bind, read_dict, ret.
  destruct (heap w !! self) as [sd|]; [|done].
  destruct (alist_lookup k (dentries sd)) as [[| | | | | | |ls]|], v; try apply run_atom.
  destruct (heap w !! ls) as [d|]; [|done]. destruct (dkind d); [apply Hrec|apply run_atom].
Qed.
End ItemAdequacy.

Lemma addict_update_proc_adequate fuel l arg w :
  run_proc (addict_update_proc fuel l arg) w = addict_update fuel l arg w.
Proof.
  revert l arg w. induction fuel as [|f IH]; intros l arg w; [done|]. cbn [addict_update_proc addict_update].
  rewrite run_atom_bind. apply bind_ext. intros other w'. apply run_pfor.
  intros [k v] w2. by apply run_addict_item.
Qed.

Lemma method_update_resolve fuel self arg w :
  method_update fuel self arg w =
    bind (resolve_update self) (fun m => run_proc (call_update fuel m arg)) w.
Proof.
  destruct self; try reflexivity. unfold method_update, resolve_update.
  rewrite bind_assoc. apply bind_ext. intros d w'. rewrite bind_ret_l.
  destruct (dkind d); symmetry; [apply addict_update_proc_adequate|apply run_atom].
Qed.

(** Rewrites a sequential run of atoms into the [PyM] code it runs. *)
Ltac run_seq :=
  repeat first [ reflexivity | rewrite bind_ret_l; progress cbn beta iota
               | apply bind_ret_r | rewrite run_atom_bind | rewrite run_atom | rewrite run_pbind
               | rewrite (bind_ext_l _ _ _ _ (method_update_resolve _ _ _))
               | rewrite bind_assoc | apply bind_ext; intros ?? ].

(** The accessor split into atomic steps, run by one thread alone, is
    [get_config] with addict's merge: the same outcome and the same
    state, from every state.  So the atoms that [run_sched] interleaves
    are exactly the code's steps. *)
Lemma get_config_proc_adequate w :
  run_proc get_config_proc w = @get_config addict_merge w.
Proof.
  unfold get_config_proc, get_config, get_config_entry. run_seq.
  match goal with |- bind (if ?b then _ else _) _ _ = _ => destruct b end;
    unfold load_user_config, set_ipython_return; cbn [merge_update addict_merge]; run_seq.
  all: rewrite ?bind_ret_l; cbn beta iota; run_seq.
Qed.

(** ** Two threads under a schedule *)

(** One step of a thread: its next atom, run on the shared state; an
    exception ends the thread. *)
Definition tstep {R} (p : proc R) (w : world) : proc R * world :=
  match p with
  | Done r => (Done r, w)
  | Atom c k =>
      match c w with
      | (Ret a, w') => (k a, w')
      | (Exc e, w') => (Done (Exc e), w')
      end
  end.

Definition is_done {R} (p : proc R) : bool := match p with Done _ => true | Atom _ _ => false end.

(** [true] moves the first thread, [false] the second; a finished thread
    does not move. *)
Fixpoint run_sched {A B} (s : list bool) (p : proc A) (q : proc B) (w : world)
    : proc A * proc B * world :=
  match s with
  | [] => (p, q, w)
  | true :: s' => let '(p', w') := tstep p w in run_sched s' p' q w'
  | false :: s' => let '(q', w') := tstep q w in run_sched s' p q' w'
  end.

(** Every schedule from [(p, q, w)], at most [fuel] steps deep: [true]
    when all of them end with both threads finished in a state where
    [Q] holds. *)
Fixpoint explore {A B} (Q : proc A -> proc B -> world -> bool) (fuel : nat)
    (p : proc A) (q : proc B) (w : world) : bool :=
  match p, q with
  | Done _, Done _ => Q p q w
  | _, _ =>
      match fuel with
      | O => false
      | S f =>
          (if is_done p then true else let '(p', w') := tstep p w in explore Q f p' q w') &&
          (if is_done q then true else let '(q', w') := tstep q w in explore Q f p q' w')
      end
  end.

Lemma explore_sound {A B} (Q : proc A -> proc B -> world -> bool) s :
  forall fuel p q w, explore Q fuel p q w = true ->
  let '(p', q', w') := run_sched s p q w in
  is_done p' = true -> is_done q' = true -> Q p' q' w' = true.
Proof.
  induction s as [|[] s IH]; intros fuel p q w Hx; cbn [run_sched].
  - destruct p, q; cbn; intros H1 H2; try discriminate. by destruct fuel.
  - destruct p as [r|X c k] eqn:Hp.
    + apply (IH fuel). exact Hx.
    + destruct fuel as [|f]; [by destruct q|].
      destruct (tstep _ w) as [p' w'] eqn:E. apply (IH f).
      destruct q; cbn [explore is_done] in Hx; rewrite E in Hx; by apply andb_prop in Hx as [Hx _].
  - destruct q as [r|X c k] eqn:Hq.
    + apply (IH fuel). exact Hx.
    + destruct fuel as [|f]; [by destruct p|].
      destruct (tstep _ w) as [q' w'] eqn:E. apply (IH f).
      destruct p; cbn [explore is_done] in Hx; rewrite E in Hx; [done|].
      by apply andb_prop in Hx as [_ Hx].
Qed.

(** ** Serializability of two calls *)

#[export] Instance pydict_eq_dec : EqDecision pydict.
Proof. solve_decision. Defined.
#[export] Instance world_eq_dec : EqDecision world.
Proof. solve_decision. Defined.

(** Both threads returned [v] and the shared state is [ws]. *)
Definition both_return (v : pyval) (ws : world) (p q : proc pyval) (w : world) : bool :=
  match p, q with
  | Done (Ret v1), Done (Ret v2) => bool_decide (v1 = v /\ v2 = v /\ w = ws)
  | _, _ => false
  end.

Lemma explore_both_return fuel v ws p q w s p' q' w' :
  explore (both_return v ws) fuel p q w = true ->
  run_sched s p q w = (p', q', w') -> is_done p' = true -> is_done q' = true ->
  p' = Done (Ret v) /\ q' = Done (Ret v) /\ w' = ws.
Proof.
  intros Hx E Hp Hq. pose proof (explore_sound _ s fuel p q w Hx) as H. rewrite E in H.
  specialize (H Hp Hq).
  destruct p' as [[v1|]|], q' as [[v2|]|]; try discriminate.
  apply bool_decide_eq_true in H as (-> & -> & ->). done.
Qed.

(** ** Guarantees of every atom

    [proc_guar R p]: every atom [p] may run relates the states around it
    by [R]; then so does every schedule of two such threads, whatever
    the interleaving. *)
Inductive proc_guar (R : relation world) {A} : proc A -> Prop :=
| pg_done r : proc_guar R (Done r)
| pg_atom {X} (c : PyM X) k : guar R c -> (forall x, proc_guar R (k x)) -> proc_guar R (Atom c k).

Section ProcGuar.
Context (R : relation world) `{!PreOrder R}.
Hypothesis Hset : forall l k v, guar R (dict_setitem l k v).
Hypothesis Hupd : forall l a, guar R (dict_update l a).
Hypothesis Hprint : forall s, guar R (print s).
Hypothesis Hattr : forall t k v, guar R (addict_setattr t k v).

Lemma proc_guar_atom {A} (c : PyM A) : guar R c -> proc_guar R (atom c).
Proof. intros Hc. constructor; [done|]. constructor. Qed.

Lemma proc_guar_bind {A B} (p : proc A) (f : A -> proc B) :
  proc_guar R p -> (forall a, proc_guar R (f a)) -> proc_guar R (pbind p f).
Proof.
  intros Hp Hf. induction Hp as [[a|e]|X c k Hc Hk IH]; cbn [pbind]; [done|constructor|].
  constructor; [done|]. exact IH.
Qed.

Lemma proc_guar_pfor {A} (xs : list A) body :
  (forall x, proc_guar R (body x)) -> proc_guar R (pfor xs body).
Proof.
  intros Hb. induction xs as [|x xs IH]; cbn [pfor]; [constructor|]. by apply proc_guar_bind.
Qed.

Lemma addict_update_proc_guar fuel l arg : proc_guar R (addict_update_proc fuel l arg).
Proof.
  revert l arg. induction fuel as [|f IH]; intros l arg; cbn [addict_update_proc]; [constructor|].
  apply proc_guar_bind; [apply proc_guar_atom; prim_guar|]. intros other.
  apply proc_guar_pfor. intros [k v]. unfold addict_item_proc.
  apply proc_guar_bind; [apply proc_guar_atom; unfold item_test; prim_guar|].
  intros []; [apply proc_guar_atom, Hset|apply IH|apply proc_guar_atom, Hupd].
Qed.

Lemma get_config_proc_guar : proc_guar R get_config_proc.
Proof.
  unfold get_config_proc. apply proc_guar_bind.
  - apply proc_guar_atom. unfold get_config_entry, resolve_update.
    guar_tac_with ltac:(first [apply Hprint | eauto with pym typeclass_instances]).
  - intros [cfg|[l|l] u]; [constructor| |];
      (apply proc_guar_bind; [cbn [call_update]; first [apply addict_update_proc_guar | apply proc_guar_atom, Hupd]|]);
      intros _; apply proc_guar_atom; unfold set_ipython_return; prim_guar.
Qed.

Lemma tstep_guar {A} (p : proc A) w :
  proc_guar R p -> R w (tstep p w).2 /\ proc_guar R (tstep p w).1.
Proof.
  intros Hp. destruct Hp as [r|X c k Hc Hk]; cbn [tstep]; [split; [reflexivity|constructor]|].
  specialize (Hc w). unfold run_state in Hc. destruct (c w) as [[x|e] w']; cbn in *; [by split|].
  split; [done|constructor].
Qed.

Lemma run_sched_guar {A B} s : forall (p : proc A) (q : proc B) w,
  proc_guar R p -> proc_guar R q -> R w (run_sched s p q w).2.
Proof.
  induction s as [|[] s IH]; intros p q w Hp Hq; cbn [run_sched]; [reflexivity| |].
  - pose proof (tstep_guar p w Hp) as [Hw Hp']. destruct (tstep p w) as [p' w'].
    etrans; [exact Hw|]. by apply IH.
  - pose proof (tstep_guar q w Hq) as [Hw Hq']. destruct (tstep q w) as [q' w'].
    etrans; [exact Hw|]. by apply IH.
Qed.
End ProcGuar.

Lemma get_config_proc_grows : proc_guar heap_grows get_config_proc.
Proof. apply get_config_proc_guar; eauto with pym typeclass_instances. Qed.
Lemma get_config_proc_names : proc_guar same_names get_config_proc.
Proof. apply get_config_proc_guar; eauto with pym typeclass_instances. Qed.

(** C19: two threads calling [get_config] at once never expose a
    settings object without one of its sections: from a state where the
    module's [config] is an addict [Dict] holding the six keys, after
    every prefix of every interleaving of the two calls' atomic steps
    (a schedule may stop anywhere), [config] is still such a [Dict],
    whatever the override.  The merge stores the items one atom at a
    time, so other threads may run between two of its stores; none of
    them ever finds a section missing. *)
Theorem interleaved_calls_keep_sections s w :
  config_sections w ->
  config_sections (run_sched s get_config_proc get_config_proc w).2.
Proof.
  intros Hs. eapply config_sections_keep; [exact Hs| |];
    apply run_sched_guar; try typeclasses eauto;
    auto using get_config_proc_names, get_config_proc_grows.
Qed.
