(* ===== verification/Scenarios.v ===== *)
(** * Concrete processes

    Processes built from a user module [pyEPR/config_user.py] defining
    [config], the import, calls of [get_config], callers' assignments and
    reloads, evaluated by [vm_compute].  On them the hypotheses of the
    general theorems are discharged (the witnesses, which show that no
    theorem's hypotheses are contradictory), and two concurrent first
    calls are explored under every schedule (C16). *)

From stdpp Require Import base list gmap strings.
From S2P Require Import Prelude PyObjects Defaults Probe ConfigDefault DictUpdate MergeTree ConfigTree Session Overrides Concurrency.

Open Scope string_scope.

(** A process before the import: the user module's objects are on the
    heap, [config_user.config] is the [Dict] at [user_cfg_loc], and
    [__IPYTHON__] is bound in [builtins] when [interactive]. *)
Definition user_cfg_loc : loc := 1%positive.

Definition start_world (user_heap : gmap loc pydict) (interactive : bool) : world :=
  World user_heap None
        (if interactive then [("__IPYTHON__", VBool true)] else [])
        (Some [("config", VRef user_cfg_loc)]) [].

(** [config = Dict(dissipation=Dict(epsi=12))] *)
Definition epsi_user_heap : gmap loc pydict :=
  <[user_cfg_loc := PyDict AddictDict [("dissipation", VRef 2%positive)]]>
  (<[2%positive := PyDict AddictDict [("epsi", VInt 12)]]> ∅).

(** [config = Dict(root_dir='D:\data')] *)
Definition root_user_heap : gmap loc pydict :=
  {[user_cfg_loc := PyDict AddictDict [("root_dir", VStr "D:\data")]]}.

(** ** Witnesses: the theorems with hypotheses, applied to these processes *)

(** The hypotheses of the tree theorems, at concrete processes. *)
Ltac concrete :=
  first [ unfold py_recursion_limit; lia
        | apply world_wfb_sound; vm_compute; reflexivity
        | apply (bool_decide_unpack _); vm_compute; reflexivity
        | vm_compute; reflexivity ].

(** A process with the override [Dict(root_dir='D:\data')], imported. *)
Definition root_imported : world := run_state (run_op OpImport) (start_world root_user_heap false).

(** The tree of the override [Dict(dissipation=Dict(epsi=12))]. *)
Definition epsi_user_tree : ptree :=
  PDict AddictDict [("dissipation", PDict AddictDict [("epsi", PVal (VInt 12))])].

Definition demo_start : world := start_world epsi_user_heap false.
Definition demo_imported : world := run_state (run_op OpImport) demo_start.
Definition demo_called : world := run_state (run_op OpGetConfig) demo_imported.
Definition no_user_imported : world :=
  run_state (run_op OpImport) (World ∅ None [] None []).

Lemma demo_reachable :
  reachable (fun o => o <> OpReload) demo_start demo_called.
Proof.
  eapply reach_step; [eapply reach_step; [apply reach_refl|discriminate|done]|discriminate|done].
Defined.

Lemma get_config_sets_ipython_witness :
  lookup_name demo_imported "__config_defined__" = Some (VBool false) /\
  get_config demo_imported = (Ret (VRef 8%positive), run_state get_config demo_imported) /\
  exists l li, VRef 8%positive = VRef l /\
    dict_get (heap (run_state get_config demo_imported)) l "internal" = Some (VRef li) /\
    dict_get (heap (run_state get_config demo_imported)) li "ipython" =
      Some (VBool (ipython_bound demo_imported)).
Proof.
  assert (lookup_name demo_imported "__config_defined__" = Some (VBool false)) as H1
    by (vm_compute; reflexivity).
  assert (get_config demo_imported =
          (Ret (VRef 8%positive), run_state get_config demo_imported)) as H2
    by (vm_compute; reflexivity).
  split; [exact H1|]. split; [exact H2|]. exact (get_config_sets_ipython _ _ _ H1 H2).
Defined.

Lemma get_config_no_user_module_witness :
  lookup_name no_user_imported "__config_defined__" = Some (VBool false) /\
  user_module no_user_imported = None /\
  get_config no_user_imported =
    (Exc (ImportError "config_user" "pyEPR"),
     set_stdout (stdout no_user_imported ++ ["First time load of config"])%list no_user_imported).
Proof.
  assert (lookup_name no_user_imported "__config_defined__" = Some (VBool false)) as H1
    by (vm_compute; reflexivity).
  assert (user_module no_user_imported = None) as H2 by (vm_compute; reflexivity).
  split; [exact H1|]. split; [exact H2|]. exact (get_config_no_user_module _ H1 H2).
Defined.

Lemma session_sections_witness :
  config_sections demo_start /\ config_sections demo_called.
Proof.
  assert (config_sections demo_start) as H by (intros Hg; by destruct Hg).
  split; [exact H|]. exact (session_sections _ _ _ H demo_reachable).
Defined.

Lemma every_call_is_first_load_witness :
  globals demo_start = None /\ globals demo_called <> None /\
  stdout (run_state get_config demo_called) =
    (stdout demo_called ++ ["First time load of config"])%list.
Proof.
  assert (globals demo_start = None) as H1 by reflexivity.
  assert (globals demo_called <> None) as H2 by (vm_compute; discriminate).
  split; [exact H1|]. split; [exact H2|].
  exact (every_call_is_first_load _ _ H1 demo_reachable H2).
Defined.

Lemma get_config_same_object_witness :
  globals demo_imported <> None /\
  reachable (fun o => o <> OpReload) demo_imported demo_called /\
  get_config demo_called = (Ret (VRef 8%positive), run_state get_config demo_called) /\
  lookup_name demo_imported "config" = Some (VRef 8%positive).
Proof.
  assert (globals demo_imported <> None) as H1 by (vm_compute; discriminate).
  assert (reachable (fun o => o <> OpReload) demo_imported demo_called) as H2
    by (eapply reach_step; [apply reach_refl|discriminate|done]).
  assert (get_config demo_called =
          (Ret (VRef 8%positive), run_state get_config demo_called)) as H3
    by (vm_compute; reflexivity).
  split; [exact H1|]. split; [exact H2|]. split; [exact H3|].
  exact (get_config_same_object _ _ _ _ H1 H2 H3).
Defined.

Lemma reload_resets_config_witness :
  globals demo_called = Some (default [] (globals demo_called)) /\
  alist_mem "config" (default [] (globals demo_called)) = true /\
  lookup_name (run_state (run_op OpReload) demo_called) "__config_defined__" = Some (VBool true).
Proof.
  assert (globals demo_called = Some (default [] (globals demo_called))) as H1
    by (vm_compute; reflexivity).
  assert (alist_mem "config" (default [] (globals demo_called)) = true) as H2
    by (vm_compute; reflexivity).
  split; [exact H1|]. split; [exact H2|].
  exact (proj1 (reload_resets_config _ _ H1 H2)).
Defined.

Lemma import_binds_defaults_witness :
  globals demo_start = None /\
  lookup_name demo_imported "__config_defined__" = Some (VBool false).
Proof.
  assert (globals demo_start = None) as H by reflexivity.
  split; [exact H|]. exact (proj1 (import_binds_defaults _ H)).
Defined.

Lemma first_call_merges_overrides_witness :
  exists l w', get_config (run_state (run_op OpImport) demo_start) = (Ret (VRef l), w') /\
    decode 2 (heap w') (VRef l) =
      Some (PDict AddictDict (tree_set_in "internal" "ipython"
              (PVal (VBool (ipython_bound (run_state (run_op OpImport) demo_start))))
              (deep_merge default_tree epsi_user_tree))) /\
    stdout w' = (stdout (run_state (run_op OpImport) demo_start) ++ ["First time load of config"])%list.
Proof.
  apply (first_call_merges_overrides demo_start 1 [("config", VRef user_cfg_loc)] user_cfg_loc
           epsi_user_tree); try concrete.
  repeat constructor. simpl. intros H. discriminate H.
Defined.

Lemma update_keeps_other_keys_witness :
  exists h' tl', method_update py_recursion_limit (VRef 8%positive) (VRef user_cfg_loc) demo_imported =
      (Ret tt, set_heap h' demo_imported) /\
    decode 2 h' (VRef 8%positive) = Some (PDict AddictDict tl') /\
    alist_lookup "ansys" tl' = alist_lookup "ansys" default_tree.
Proof.
  apply (update_keeps_other_keys 1 demo_imported 8%positive user_cfg_loc default_tree AddictDict
           [("dissipation", PDict AddictDict [("epsi", PVal (VInt 12))])] "ansys"); concrete.
Defined.

Lemma update_scalar_wins_witness :
  exists h' tl', method_update py_recursion_limit (VRef 7%positive) (VRef user_cfg_loc) root_imported =
      (Ret tt, set_heap h' root_imported) /\
    decode 2 h' (VRef 7%positive) = Some (PDict AddictDict tl') /\
    alist_lookup "root_dir" tl' = Some (PVal (VStr "D:\data")).
Proof.
  apply (update_scalar_wins 1 root_imported 7%positive user_cfg_loc default_tree AddictDict
           [("root_dir", PVal (VStr "D:\data"))] "root_dir" (VStr "D:\data")); concrete.
Defined.

Lemma flat_update_is_dict_update_witness :
  method_update py_recursion_limit (VRef 7%positive) (VRef user_cfg_loc) root_imported =
    shallow_update (VRef 7%positive) (VRef user_cfg_loc) root_imported.
Proof.
  apply (flat_update_is_dict_update 999 root_imported 7%positive
           (PyDict AddictDict (config_entries (VRef 2%positive) (VRef 3%positive) (VRef 4%positive)
                                              (VRef 5%positive) (VRef 6%positive)))
           user_cfg_loc (PyDict AddictDict [("root_dir", VStr "D:\data")]));
    [vm_compute; reflexivity|vm_compute; reflexivity|repeat constructor].
Defined.

Lemma get_config_returns_dict_witness :
  config_sections demo_start /\ globals demo_called <> None /\
  get_config demo_called = (Ret (VRef 8%positive), run_state get_config demo_called) /\
  exists l d, VRef 8%positive = VRef l /\ heap (run_state get_config demo_called) !! l = Some d /\
    dkind d = AddictDict /\ config_keys ⊆ alist_keys (dentries d).
Proof.
  assert (config_sections demo_start) as H1 by (intros Hg; by destruct Hg).
  assert (globals demo_called <> None) as H2 by (vm_compute; discriminate).
  assert (get_config demo_called = (Ret (VRef 8%positive), run_state get_config demo_called)) as H3
    by (vm_compute; reflexivity).
  split; [exact H1|]. split; [exact H2|]. split; [exact H3|].
  exact (get_config_returns_dict _ _ _ _ _ H1 demo_reachable H2 H3).
Defined.

Lemma caller_set_get_in_witness :
  "extra" <> "x" /\
  caller_set_in "extra" "x" (VInt 7) demo_imported =
    (Ret tt, run_state (caller_set_in "extra" "x" (VInt 7)) demo_imported) /\
  caller_get_in "extra" "x" (run_state (caller_set_in "extra" "x" (VInt 7)) demo_imported) =
    (Ret (Some (VInt 7)), run_state (caller_set_in "extra" "x" (VInt 7)) demo_imported).
Proof.
  assert ("extra" <> "x") as H1 by discriminate.
  assert (caller_set_in "extra" "x" (VInt 7) demo_imported =
    (Ret tt, run_state (caller_set_in "extra" "x" (VInt 7)) demo_imported)) as H2
    by (vm_compute; reflexivity).
  split; [exact H1|]. split; [exact H2|]. exact (caller_set_get_in _ _ _ _ _ H1 H2).
Defined.

Definition demo_reloaded : world := run_state (run_op OpReload) demo_called.
Definition demo_after_reload : world :=
  run_ops [OpSetTop "root_dir" (VStr "x"); OpReload; OpGetConfig] demo_reloaded.

Lemma demo_after_reload_reachable :
  reachable (fun _ => True) demo_reloaded demo_after_reload.
Proof.
  unfold demo_after_reload. cbn [run_ops].
  eapply reach_step; [eapply reach_step; [eapply reach_step; [apply reach_refl|done|done]|done|done]|done|done].
Defined.

Lemma reload_then_defined_forever_witness :
  globals demo_called = Some (default [] (globals demo_called)) /\
  alist_mem "config" (default [] (globals demo_called)) = true /\
  exists v, lookup_name demo_after_reload "config" = Some v /\
    get_config demo_after_reload =
      (Ret v, set_stdout (stdout demo_after_reload ++ ["Config is already defined."])%list demo_after_reload).
Proof.
  assert (globals demo_called = Some (default [] (globals demo_called))) as H1 by (vm_compute; reflexivity).
  assert (alist_mem "config" (default [] (globals demo_called)) = true) as H2 by (vm_compute; reflexivity).
  split; [exact H1|]. split; [exact H2|].
  exact (reload_then_defined_forever _ _ _ _ H1 H2 demo_after_reload_reachable).
Defined.

(** C16: two threads that call [get_config] at once on the imported
    module with the override [Dict(dissipation=Dict(epsi=12))] both
    merge (the flag is never set), and every interleaving of their
    atomic steps that runs both to the end gives the outcome of the two
    calls made one after the other: both return [config] and the
    process state is the one two sequential calls leave.  The
    specification's worry that concurrent first calls may both merge is
    real, and harmless for this override. *)
Theorem concurrent_first_calls_serial s p q w :
  run_sched s get_config_proc get_config_proc demo_imported = (p, q, w) ->
  is_done p = true -> is_done q = true ->
  p = Done (Ret (VRef 8%positive)) /\ q = Done (Ret (VRef 8%positive)) /\
  w = run_state (run_op OpGetConfig) demo_called.
Proof. apply (explore_both_return 16). vm_compute. reflexivity. Qed.

(** Thread one runs two atoms, then the threads alternate. *)
Definition demo_schedule : list bool := [true; true] ++ concat (repeat [false; true] 8).

Lemma concurrent_first_calls_serial_witness :
  run_sched demo_schedule get_config_proc get_config_proc demo_imported =
    (Done (Ret (VRef 8%positive)), Done (Ret (VRef 8%positive)),
     snd (run_sched demo_schedule get_config_proc get_config_proc demo_imported)) /\
  snd (run_sched demo_schedule get_config_proc get_config_proc demo_imported) =
    run_state (run_op OpGetConfig) demo_called.
Proof.
  assert (run_sched demo_schedule get_config_proc get_config_proc demo_imported =
    (Done (Ret (VRef 8%positive)), Done (Ret (VRef 8%positive)),
     snd (run_sched demo_schedule get_config_proc get_config_proc demo_imported))) as H1
    by (vm_compute; reflexivity).
  split; [exact H1|].
  exact (proj2 (proj2 (concurrent_first_calls_serial _ _ _ _ H1 eq_refl eq_refl))).
Defined.

Lemma first_call_settings_ok_witness :
  exists l w' ts, get_config (run_state (run_op OpImport) demo_start) = (Ret (VRef l), w') /\
    decode 2 (heap w') (VRef l) = Some (PDict AddictDict ts) /\ settings_ok ts.
Proof.
  apply (first_call_settings_ok demo_start 1 [("config", VRef user_cfg_loc)] user_cfg_loc
           epsi_user_tree); try concrete.
  unfold section_names. repeat constructor; simpl; intros H; first [discriminate H | by eexists _, _].
Defined.

(** After the first call, a caller sets [config.root_dir = 'E:\x']. *)
Definition root_changed : world :=
  run_ops [OpGetConfig; OpSetTop "root_dir" (VStr "E:\x")] root_imported.

Definition root_changed_config : list (string * pyval) :=
  match heap root_changed !! 7%positive with Some d => dentries d | None => [] end.

Lemma flat_override_resets_keys_witness :
  dict_get (heap (run_state get_config root_changed)) 7%positive "root_dir" = Some (VStr "D:\data").
Proof.
  refine (flat_override_resets_keys root_changed 7%positive root_changed_config
            [("config", VRef user_cfg_loc)] user_cfg_loc
            (PyDict AddictDict [("root_dir", VStr "D:\data")])
            (VRef 7%positive) (run_state get_config root_changed)
            _ _ _ _ _ _ _ _ _ "root_dir" (VStr "D:\data") _ _);
    try concrete.
  repeat constructor.
Defined.

(** [config = ['ab', 'xyz']]: a list whose second element is not a pair. *)
Definition list_user_imported : world :=
  run_state (run_op OpImport) (World ∅ None [] (Some [("config", VStrList ["ab"; "xyz"])]) []).

Definition list_user_config : list (string * pyval) :=
  match heap list_user_imported !! 6%positive with Some d => dentries d | None => [] end.

Lemma non_mapping_override_raises_witness :
  exists e, get_config list_user_imported =
    (Exc e, set_stdout (stdout list_user_imported ++ ["First time load of config"])%list list_user_imported).
Proof.
  refine (non_mapping_override_raises list_user_imported 6%positive list_user_config
            [("config", VStrList ["ab"; "xyz"])] (VStrList ["ab"; "xyz"]) _ _ _ _ _ _); concrete.
Defined.

Lemma interleaved_calls_keep_sections_witness :
  config_sections demo_imported /\
  config_sections (run_sched demo_schedule get_config_proc get_config_proc demo_imported).2.
Proof.
  assert (config_sections demo_imported) as H.
  { apply run_op_sections; [done|]. intros Hg. by destruct Hg. }
  split; [exact H|]. exact (interleaved_calls_keep_sections demo_schedule _ H).
Defined.

(** After the first call, a caller assigns [config.internal = 5]. *)
Definition internal_set : world :=
  run_ops [OpGetConfig; OpSetTop "internal" (VInt 5)] root_imported.

Definition internal_set_config : list (string * pyval) :=
  match heap internal_set !! 7%positive with Some d => dentries d | None => [] end.

Lemma internal_scalar_breaks_every_call_witness :
  exists x w', get_config (run_ops [OpSetTop "root_dir" (VStr "E:\x"); OpGetConfig] internal_set) =
    (Exc (AttributeError (type_name (heap (run_ops [OpSetTop "root_dir" (VStr "E:\x"); OpGetConfig]
                                                   internal_set)) x) "ipython"), w').
Proof.
  apply (internal_scalar_breaks_every_call 7%positive user_cfg_loc
           (PyDict AddictDict [("root_dir", VStr "D:\data")]) internal_set).
  - split_and!; try concrete.
    + exists [("config", VRef user_cfg_loc)]. split; concrete.
    + repeat constructor.
    + exists internal_set_config, (VInt 5). split_and!; concrete.
  - cbn [run_ops]. eapply reach_step; [eapply reach_step; [apply reach_refl|..]|..]; cbn; done.
Defined.








